(** * The pricing and scoring core of the Alex tree-service agent

    A shallow embedding of the deterministic formulas of the repository:
    AFISS composite scoring and tier classification, the TreeScore
    geometry formula, the USACE-style equipment cost model, the true
    hourly employee cost model and the loadout pricing aggregator.

    Python [float] values are embedded through an interface [PyFloat]
    with two instances.  The instance at [Q] reads every operation as
    exact rational arithmetic; all general theorems are stated there.
    The instance at [float] is IEEE-754 binary64 as CPython computes it,
    and is used to evaluate the concrete scenarios.  Python [int] values
    are [Z].  Exceptions are values of a small error monad. *)

From Stdlib Require Import ZArith QArith Qabs Lqa Lia List String Ascii Bool.
From Stdlib Require Import PrimFloat Uint63.
Import ListNotations.

Set Implicit Arguments.

(** ** Python numbers *)

Class PyFloat (F : Type) : Type := {
  fadd : F -> F -> F;
  fsub : F -> F -> F;
  fmul : F -> F -> F;
  fdiv : F -> F -> F;
  feqb : F -> F -> bool;
  fltb : F -> F -> bool;
  fleb : F -> F -> bool;
  of_Q : Q -> F
}.

Declare Scope py_scope.
Delimit Scope py_scope with py.
Notation "x + y" := (fadd x y) : py_scope.
Notation "x - y" := (fsub x y) : py_scope.
Notation "x * y" := (fmul x y) : py_scope.
Notation "x / y" := (fdiv x y) : py_scope.
Notation "x =? y" := (feqb x y) : py_scope.
Notation "x <? y" := (fltb x y) : py_scope.
Notation "x <=? y" := (fleb x y) : py_scope.
(** A numeric literal of the source, written as the rational it denotes. *)
Notation "'$' q" := (of_Q q%Q) (at level 1, q at level 0, format "'$' q") : py_scope.

(** Exact arithmetic: the reading of the formulas the specification uses. *)
#[export] Instance Q_float : PyFloat Q := {|
  fadd := Qplus;
  fsub := Qminus;
  fmul := Qmult;
  fdiv := Qdiv;
  feqb := Qeq_bool;
  fltb := fun x y => negb (Qle_bool y x);
  fleb := Qle_bool;
  of_Q := fun q => q
|}.

Definition float_of_Z (z : Z) : float :=
  match z with
  | Zneg p => PrimFloat.opp (PrimFloat.of_uint63 (Uint63.of_Z (Zpos p)))
  | _ => PrimFloat.of_uint63 (Uint63.of_Z z)
  end.

(** Binary64: a decimal literal [n/10^k] is the correctly rounded
    quotient of two exactly representable integers, which is the double
    CPython parses the literal to. *)
#[export] Instance binary64 : PyFloat float := {|
  fadd := PrimFloat.add;
  fsub := PrimFloat.sub;
  fmul := PrimFloat.mul;
  fdiv := PrimFloat.div;
  feqb := PrimFloat.eqb;
  fltb := PrimFloat.ltb;
  fleb := PrimFloat.leb;
  of_Q := fun q => PrimFloat.div (float_of_Z (Qnum q)) (float_of_Z (Zpos (Qden q)))
|}.

(** ** Exceptions *)

Inductive exn : Type :=
| ZeroDivisionError
| ValueError (what : string)
| KeyError (key : string).

Inductive result (A : Type) : Type :=
| Ok (a : A)
| Raise (e : exn).
Arguments Raise {A} e.

Definition bind {A B} (m : result A) (k : A -> result B) : result B :=
  match m with
  | Ok a => k a
  | Raise e => Raise e
  end.

Notation "x <- m ;; k" := (bind m (fun x => k))
  (at level 61, m at next level, right associativity).

Definition rmap {A B} (f : A -> B) (m : result A) : result B :=
  match m with
  | Ok a => Ok (f a)
  | Raise e => Raise e
  end.

Section Python.
Context {F : Type} `{PyFloat F}.
Local Open Scope py_scope.

Definition of_int (n : Z) : F := of_Q (inject_Z n).

(** [a / b] where [b] is not a literal: CPython raises on a zero divisor. *)
Definition truediv (a b : F) : result F :=
  if b =? $0 then Raise ZeroDivisionError else Ok (a / b).

Definition pymax (a b : F) : F := if a <? b then b else a.
Definition pymin (a b : F) : F := if b <? a then b else a.
Definition pyabs (x : F) : F := if x <? $0 then $0 - x else x.

(** [x ** n] for a non-negative integer exponent, by repeated product.
    In binary64 CPython calls the C library's [pow], which may differ from
    the repeated product in the last bits; the binary64 evaluations below
    do not go through it. *)
Fixpoint pypow (x : F) (n : nat) : F :=
  match n with
  | O => $1
  | S k => x * pypow x k
  end.

End Python.

(** ** Python dictionaries, strings and the clock *)

Section Dict.
Variable V : Type.

(** A [dict] with string keys, in insertion order. *)
Definition dict : Type := list (string * V).

Fixpoint dict_get (k : string) (d : dict) : option V :=
  match d with
  | [] => None
  | (k', v) :: r => if String.eqb k k' then Some v else dict_get k r
  end.

(** [d[k] = v] *)
Fixpoint dict_set (k : string) (v : V) (d : dict) : dict :=
  match d with
  | [] => [(k, v)]
  | (k', v') :: r =>
      if String.eqb k k' then (k, v) :: r else (k', v') :: dict_set k v r
  end.

(** [k in d] *)
Definition dict_mem (k : string) (d : dict) : bool :=
  match dict_get k d with
  | Some _ => true
  | None => false
  end.

(** [d[k]] *)
Definition dict_item (k : string) (d : dict) : result V :=
  match dict_get k d with
  | Some v => Ok v
  | None => Raise (KeyError k)
  end.

(** [d.get(k, default)] *)
Definition dict_get_default (k : string) (default : V) (d : dict) : V :=
  match dict_get k d with
  | Some v => v
  | None => default
  end.

End Dict.

Module Str.
Local Open Scope char_scope.

Definition is_space (c : ascii) : bool :=
  match c with
  | " " | "009" | "010" | "011" | "012" | "013"
  | "028" | "029" | "030" | "031" => true
  | _ => false
  end.

Fixpoint lstrip (s : string) : string :=
  match s with
  | EmptyString => EmptyString
  | String c r => if is_space c then lstrip r else s
  end.

Fixpoint rstrip (s : string) : string :=
  match s with
  | EmptyString => EmptyString
  | String c r =>
      match rstrip r with
      | EmptyString => if is_space c then EmptyString else String c EmptyString
      | r' => String c r'
      end
  end.

(** [s.strip()] *)
Definition strip (s : string) : string := rstrip (lstrip s).

(** [s.split(',')[0]] *)
Fixpoint split_comma_0 (s : string) : string :=
  match s with
  | EmptyString => EmptyString
  | String c r => if Ascii.eqb c "," then EmptyString else String c (split_comma_0 r)
  end.

(** [sub in s] *)
Definition contains (sub s : string) : bool :=
  match String.index 0 sub s with
  | Some _ => true
  | None => false
  end.

Definition digit (n : Z) : ascii := ascii_of_nat (48 + Z.to_nat (n mod 10)).

Definition pad2 (n : Z) : string :=
  String (digit (n / 10)) (String (digit n) EmptyString).

Definition pad4 (n : Z) : string :=
  String (digit (n / 1000)) (String (digit (n / 100)) (pad2 n)).

End Str.

(** The wall clock, read by [datetime.now()].  One reading serves a whole
    call: the calls modelled here finish well within a second. *)
Module datetime.

Record t : Type := {
  year : Z;
  month : Z;
  day : Z;
  hour : Z;
  minute : Z;
  second : Z
}.

(** [strftime('%Y%m%d_%H%M%S')], for a four-digit year. *)
Definition strftime (d : t) : string :=
  (Str.pad4 (year d) ++ Str.pad2 (month d) ++ Str.pad2 (day d) ++ "_" ++
   Str.pad2 (hour d) ++ Str.pad2 (minute d) ++ Str.pad2 (second d))%string.

End datetime.

(** ** AFISS scoring (alex_anthropic.py, alex_agent.py) *)

Module AFISS.
Section Defs.
Context {F : Type} `{PyFloat F}.
Local Open Scope py_scope.

Inductive ProjectComplexity : Type := LOW | MODERATE | HIGH | EXTREME.

Definition value (c : ProjectComplexity) : string :=
  match c with
  | LOW => "low"
  | MODERATE => "moderate"
  | HIGH => "high"
  | EXTREME => "extreme"
  end.

(** The [domain_scores] dictionary with its five fixed keys. *)
Record DomainScores : Type := {
  access : F;
  fall_zone : F;
  interference : F;
  severity : F;
  site_conditions : F
}.

Record AFISSAssessment : Type := {
  access_score : F;
  fall_zone_score : F;
  interference_score : F;
  severity_score : F;
  site_conditions_score : F;
  composite_score : F;
  complexity : ProjectComplexity;
  multiplier_range : F * F
}.

Definition _determine_complexity (composite_score : F)
  : ProjectComplexity * (F * F) :=
  if composite_score <=? $28 then (LOW, ($1.12, $1.28))
  else if composite_score <=? $46 then (MODERATE, ($1.45, $1.85))
  else if composite_score <=? $58 then (HIGH, ($2.1, $2.8))
  else (EXTREME, ($2.5, $3.5)).

(** [AFISSKnowledgeBase._parse_assessment_response] from the point where
    the domain scores have been read off the response text. *)
Definition _parse_assessment_response (domain_scores : DomainScores)
  : AFISSAssessment :=
  let composite_score :=
    access domain_scores * $0.20 +
    fall_zone domain_scores * $0.25 +
    interference domain_scores * $0.20 +
    severity domain_scores * $0.30 +
    site_conditions domain_scores * $0.05 in
  let '(complexity, multiplier) := _determine_complexity composite_score in
  {| access_score := access domain_scores;
     fall_zone_score := fall_zone domain_scores;
     interference_score := interference domain_scores;
     severity_score := severity domain_scores;
     site_conditions_score := site_conditions domain_scores;
     composite_score := composite_score;
     complexity := complexity;
     multiplier_range := multiplier |}.

(** Python's [sum(xs)]: a left fold starting from [0]. *)
Definition pysum (xs : list F) : F := fold_left fadd xs $0.

(** [AFISSKnowledgeBase.assess_project] (alex_agent.py) from the point
    where the domain scores have been accumulated. *)
Definition assess_project (domain_scores : DomainScores) : AFISSAssessment :=
  let weighted_scores :=
    [ access domain_scores * $0.20;
      fall_zone domain_scores * $0.25;
      interference domain_scores * $0.20;
      severity domain_scores * $0.30;
      site_conditions domain_scores * $0.05 ] in
  let composite_score := pysum weighted_scores in
  let '(complexity, multiplier) := _determine_complexity composite_score in
  {| access_score := access domain_scores;
     fall_zone_score := fall_zone domain_scores;
     interference_score := interference domain_scores;
     severity_score := severity domain_scores;
     site_conditions_score := site_conditions domain_scores;
     composite_score := composite_score;
     complexity := complexity;
     multiplier_range := multiplier |}.

End Defs.
End AFISS.

(** ** TreeScore (alex_anthropic.py, demo_alex_complete_pricing.py) *)

Module TreeScore.
Section Defs.
Context {F : Type} `{PyFloat F}.
Local Open Scope string_scope.
Local Open Scope py_scope.

(** [AlexTreeAIAgent._extract_treescore]; the [response] argument is unused. *)
Definition _extract_treescore (height canopy_radius dbh : F)
    (service_type : string) : F :=
  if String.eqb service_type "removal" then
    height * (canopy_radius * $2) * (dbh / $12)
  else if String.eqb service_type "stump_grinding" then
    (height + $12) * dbh
  else
    height * canopy_radius * (dbh / $24).

(** [AlexCompletePricingDemo.calculate_treescore]. *)
Definition calculate_treescore (height canopy_radius dbh : F)
    (service_type : string) : F :=
  if String.eqb service_type "removal" then
    height * (canopy_radius * $2) * (dbh / $12)
  else if String.eqb service_type "stump_grinding" then
    (height + $12) * dbh
  else
    height * canopy_radius * (dbh / $24).

End Defs.
End TreeScore.

(** ** Equipment cost model (equipment_cost_intelligence.py) *)

Module Equipment.

Inductive EquipmentCategory : Type :=
| SKID_STEER_MULCHER
| COMPACT_TRACK_LOADER
| MINI_EXCAVATOR
| BUCKET_TRUCK
| CHIPPER
| STUMP_GRINDER
| LOG_TRUCK
| PICKUP_TRUCK.

Definition EquipmentCategory_value (c : EquipmentCategory) : string :=
  match c with
  | SKID_STEER_MULCHER => "skid_steer_mulcher"
  | COMPACT_TRACK_LOADER => "compact_track_loader"
  | MINI_EXCAVATOR => "mini_excavator"
  | BUCKET_TRUCK => "bucket_truck"
  | CHIPPER => "chipper"
  | STUMP_GRINDER => "stump_grinder"
  | LOG_TRUCK => "log_truck"
  | PICKUP_TRUCK => "pickup_truck"
  end.

Definition all_categories : list EquipmentCategory :=
  [SKID_STEER_MULCHER; COMPACT_TRACK_LOADER; MINI_EXCAVATOR; BUCKET_TRUCK;
   CHIPPER; STUMP_GRINDER; LOG_TRUCK; PICKUP_TRUCK].

(** [EquipmentCategory(s)]: lookup by value, [ValueError] when there is none. *)
Definition EquipmentCategory_of_value (s : string) : result EquipmentCategory :=
  match find (fun c => String.eqb (EquipmentCategory_value c) s) all_categories with
  | Some c => Ok c
  | None => Raise (ValueError s)
  end.

Inductive SeverityFactor : Type :=
| LIGHT_RESIDENTIAL
| STANDARD_WORK
| HEAVY_VEGETATION
| DISASTER_RECOVERY.

Section Defs.
Context {F : Type} `{PyFloat F}.
Local Open Scope string_scope.
Local Open Scope py_scope.

Definition SeverityFactor_value (s : SeverityFactor) : F :=
  match s with
  | LIGHT_RESIDENTIAL => $1.0
  | STANDARD_WORK => $1.1
  | HEAVY_VEGETATION => $1.25
  | DISASTER_RECOVERY => $1.45
  end.

Record EquipmentDefaults : Type := {
  category : EquipmentCategory;
  example_models : string;
  msrp_new : F;
  salvage_percent : F;
  life_hours : Z;
  fuel_burn_gph : F;
  maintenance_factor : F;
  notes : string
}.

Record SmallToolCategory : Type := {
  name : string;
  example_items : string;
  avg_cost : F;
  life_years : F;
  basis : string;
  default_cost_per_hour : F
}.

Record EquipmentCostBreakdown : Type := {
  equipment_id : string;
  bd_category : EquipmentCategory;
  make_model : string;
  depreciation_per_hour : F;
  interest_per_hour : F;
  insurance_taxes_storage_per_hour : F;
  total_ownership_per_hour : F;
  fuel_per_hour : F;
  lubrication_per_hour : F;
  repairs_maintenance_per_hour : F;
  wear_parts_per_hour : F;
  total_operating_per_hour : F;
  total_cost_per_hour : F;
  severity_factor : F;
  severity_adjusted_cost : F
}.

(** The attributes of an [EquipmentCostIntelligence] instance. *)
Record EquipmentCostIntelligence : Type := {
  equipment_defaults : EquipmentCategory -> EquipmentDefaults;
  small_tools_defaults : list SmallToolCategory;
  fuel_price : F;
  interest_rate : F;
  annual_hours : Z
}.

Definition _load_equipment_defaults (c : EquipmentCategory) : EquipmentDefaults :=
  match c with
  | SKID_STEER_MULCHER =>
      {| category := SKID_STEER_MULCHER;
         example_models := "Bobcat T770 + Denis Cimaf, Cat 299D3 XE";
         msrp_new := $118000; salvage_percent := $20; life_hours := 6000;
         fuel_burn_gph := $5.5; maintenance_factor := $100;
         notes := "Heavy vegetation factor 1.25" |}
  | COMPACT_TRACK_LOADER =>
      {| category := COMPACT_TRACK_LOADER;
         example_models := "Bobcat T76, Cat 279D3";
         msrp_new := $75000; salvage_percent := $25; life_hours := 6000;
         fuel_burn_gph := $4.0; maintenance_factor := $80;
         notes := "Residential/light work" |}
  | MINI_EXCAVATOR =>
      {| category := MINI_EXCAVATOR;
         example_models := "Cat 305, Bobcat E50";
         msrp_new := $70000; salvage_percent := $25; life_hours := 8000;
         fuel_burn_gph := $3.0; maintenance_factor := $75;
         notes := "" |}
  | BUCKET_TRUCK =>
      {| category := BUCKET_TRUCK;
         example_models := "Altec/Versalift on Ford F750";
         msrp_new := $165000; salvage_percent := $30; life_hours := 10000;
         fuel_burn_gph := $6.5; maintenance_factor := $60;
         notes := "DOT-regulated" |}
  | CHIPPER =>
      {| category := CHIPPER;
         example_models := "Bandit 150XP, Vermeer BC1500";
         msrp_new := $50000; salvage_percent := $25; life_hours := 5000;
         fuel_burn_gph := $2.5; maintenance_factor := $90;
         notes := "Knife sharpening cost separate" |}
  | STUMP_GRINDER =>
      {| category := STUMP_GRINDER;
         example_models := "Carlton 7015, Rayco RG80";
         msrp_new := $45000; salvage_percent := $25; life_hours := 5000;
         fuel_burn_gph := $2.8; maintenance_factor := $90;
         notes := "Teeth wear in wear parts pool" |}
  | LOG_TRUCK =>
      {| category := LOG_TRUCK;
         example_models := "Palfinger/Midwest log loader on Mack";
         msrp_new := $220000; salvage_percent := $35; life_hours := 12000;
         fuel_burn_gph := $7.0; maintenance_factor := $65;
         notes := "" |}
  | PICKUP_TRUCK =>
      {| category := PICKUP_TRUCK;
         example_models := "Ford F-350/F-450 diesel";
         msrp_new := $65000; salvage_percent := $40; life_hours := 8000;
         fuel_burn_gph := $2.5; maintenance_factor := $50;
         notes := "Life hrs ~ mph × 50" |}
  end.

Definition _load_small_tools_defaults : list SmallToolCategory :=
  [ {| name := "Chainsaws & Power Tools";
       example_items := "Stihl MS 500i, MS 362, pole saws, blowers";
       avg_cost := $1000; life_years := $2; basis := "per_unit";
       default_cost_per_hour := $0.42 |};
    {| name := "Climbing Gear";
       example_items := "Rope, saddle, helmet, carabiners, lanyards";
       avg_cost := $1500; life_years := $3; basis := "per_climber";
       default_cost_per_hour := $0.42 |};
    {| name := "Hand Tools";
       example_items := "Loppers, hand saws, rakes, wedges";
       avg_cost := $400; life_years := $2; basis := "per_crew";
       default_cost_per_hour := $0.17 |};
    {| name := "Safety Gear";
       example_items := "Helmets, gloves, glasses, hearing protection";
       avg_cost := $300; life_years := $1; basis := "per_person";
       default_cost_per_hour := $0.25 |};
    {| name := "Rigging Gear";
       example_items := "Slings, blocks, pulleys, ropes";
       avg_cost := $1000; life_years := $3; basis := "per_crew";
       default_cost_per_hour := $0.28 |};
    {| name := "Fuel for Small Tools";
       example_items := "Mixed gas, bar oil";
       avg_cost := $400; life_years := $1; basis := "per_crew";
       default_cost_per_hour := $0.33 |};
    {| name := "PPE Consumables";
       example_items := "Ear plugs, respirator filters";
       avg_cost := $50; life_years := $0.25; basis := "per_person";
       default_cost_per_hour := $0.10 |} ].

(** [EquipmentCostIntelligence.__init__] *)
Definition __init__ : EquipmentCostIntelligence :=
  {| equipment_defaults := _load_equipment_defaults;
     small_tools_defaults := _load_small_tools_defaults;
     fuel_price := $4.25;
     interest_rate := $0.06;
     annual_hours := 1200 |}.

(** [make_model or defaults.example_models.split(',')[0].strip()] *)
Definition make_model_or_default (make_model : option string)
    (defaults : EquipmentDefaults) : string :=
  match make_model with
  | Some (String c r) => String c r
  | _ => Str.strip (Str.split_comma_0 (example_models defaults))
  end.

(** [year and year < datetime.now().year] *)
Definition is_used (year : option Z) (now : datetime.t) : bool :=
  match year with
  | Some y => negb (y =? 0)%Z && (y <? datetime.year now)%Z
  | None => false
  end.

Definition calculate_equipment_cost (self : EquipmentCostIntelligence)
    (now : datetime.t)
    (equipment_type : EquipmentCategory)
    (make_model : option string)
    (purchase_price : option F)
    (year : option Z)
    (severity_factor : SeverityFactor) : result EquipmentCostBreakdown :=
  let defaults := equipment_defaults self equipment_type in
  let purchase_price :=
    match purchase_price with
    | Some p => p
    | None =>
        let purchase_price := msrp_new defaults in
        if is_used year now then
          let age := (datetime.year now - match year with Some y => y | None => 0 end)%Z in
          purchase_price * pypow ($1 - $0.08) (Z.to_nat age)
        else purchase_price
    end in
  let salvage_value := purchase_price * (salvage_percent defaults / $100) in
  depreciation_per_hour <-
    truediv (purchase_price - salvage_value) (of_int (life_hours defaults)) ;;
  let average_investment := (purchase_price + salvage_value) / $2 in
  interest_per_hour <-
    truediv (average_investment * interest_rate self) (of_int (annual_hours self)) ;;
  insurance_taxes_storage_per_hour <-
    truediv (purchase_price * $0.03) (of_int (annual_hours self)) ;;
  let total_ownership_per_hour :=
    depreciation_per_hour + interest_per_hour + insurance_taxes_storage_per_hour in
  let fuel_per_hour := fuel_burn_gph defaults * fuel_price self in
  let lubrication_per_hour := fuel_per_hour * $0.15 in
  let repairs_maintenance_per_hour :=
    depreciation_per_hour * (maintenance_factor defaults / $100) in
  let repairs_maintenance_per_hour :=
    repairs_maintenance_per_hour * SeverityFactor_value severity_factor in
  let wear_parts_per_hour := depreciation_per_hour * $0.20 in
  let total_operating_per_hour :=
    fuel_per_hour + lubrication_per_hour + repairs_maintenance_per_hour +
    wear_parts_per_hour in
  let total_cost_per_hour := total_ownership_per_hour + total_operating_per_hour in
  let severity_adjusted_cost := total_cost_per_hour in
  Ok {| equipment_id :=
          EquipmentCategory_value equipment_type ++ "_" ++ datetime.strftime now;
        bd_category := equipment_type;
        make_model := make_model_or_default make_model defaults;
        depreciation_per_hour := depreciation_per_hour;
        interest_per_hour := interest_per_hour;
        insurance_taxes_storage_per_hour := insurance_taxes_storage_per_hour;
        total_ownership_per_hour := total_ownership_per_hour;
        fuel_per_hour := fuel_per_hour;
        lubrication_per_hour := lubrication_per_hour;
        repairs_maintenance_per_hour := repairs_maintenance_per_hour;
        wear_parts_per_hour := wear_parts_per_hour;
        total_operating_per_hour := total_operating_per_hour;
        total_cost_per_hour := total_cost_per_hour;
        severity_factor := SeverityFactor_value severity_factor;
        severity_adjusted_cost := severity_adjusted_cost |}.

(** One pass of the loop of [calculate_small_tools_pool_cost]. *)
Definition small_tools_step (crew_config : dict Z)
    (acc : F * dict F) (tool_category : SmallToolCategory) : F * dict F :=
  let '(total_cost_per_hour, category_breakdown) := acc in
  let count (k : string) : F := of_int (dict_get_default k 0%Z crew_config) in
  let category_cost :=
    if String.eqb (basis tool_category) "per_unit" && dict_mem "chainsaws" crew_config
    then default_cost_per_hour tool_category * count "chainsaws"
    else if String.eqb (basis tool_category) "per_climber" && dict_mem "climbers" crew_config
    then default_cost_per_hour tool_category * count "climbers"
    else if String.eqb (basis tool_category) "per_crew" && dict_mem "crews" crew_config
    then default_cost_per_hour tool_category * count "crews"
    else if String.eqb (basis tool_category) "per_person"
    then
      let total_people :=
        (dict_get_default "climbers" 0 crew_config +
         dict_get_default "ground_crew" 0 crew_config)%Z in
      default_cost_per_hour tool_category * of_int total_people
    else $0.0 in
  (total_cost_per_hour + category_cost,
   dict_set (name tool_category) category_cost category_breakdown).

Definition calculate_small_tools_pool_cost (self : EquipmentCostIntelligence)
    (crew_config : dict Z) : dict F :=
  let '(total_cost_per_hour, category_breakdown) :=
    fold_left (small_tools_step crew_config) (small_tools_defaults self) ($0.0, []) in
  dict_set "Total Small Tools Pool" total_cost_per_hour category_breakdown.

(** An entry of [equipment_list]: a dictionary with the keys the code reads. *)
Record EquipmentItem : Type := {
  type : string;
  item_make_model : option string;
  purchase_price : option F;
  year : option Z
}.

Record LoadoutEquipmentCost : Type := {
  equipment_details : list EquipmentCostBreakdown;
  heavy_total_cost_per_hour : F;
  category_breakdown : dict F;
  small_tools_total_cost_per_hour : F;
  total_equipment_cost_per_hour : F;
  heavy_equipment_percentage : F;
  small_tools_percentage : F;
  crew_configuration : dict Z;
  loadout_severity_factor : F
}.

(** The loop over [equipment_list] of [calculate_loadout_equipment_cost]. *)
Fixpoint heavy_equipment_loop (self : EquipmentCostIntelligence)
    (now : datetime.t) (severity_factor : SeverityFactor)
    (equipment_list : list EquipmentItem)
    (heavy_equipment_costs : list EquipmentCostBreakdown)
    (total_heavy_equipment_cost : F)
  : result (list EquipmentCostBreakdown * F) :=
  match equipment_list with
  | [] => Ok (heavy_equipment_costs, total_heavy_equipment_cost)
  | equipment :: rest =>
      equipment_type <- EquipmentCategory_of_value (type equipment) ;;
      cost_breakdown <-
        calculate_equipment_cost self now equipment_type
          (item_make_model equipment) (purchase_price equipment)
          (year equipment) severity_factor ;;
      heavy_equipment_loop self now severity_factor rest
        (heavy_equipment_costs ++ [cost_breakdown])
        (total_heavy_equipment_cost + total_cost_per_hour cost_breakdown)
  end.

Definition calculate_loadout_equipment_cost (self : EquipmentCostIntelligence)
    (now : datetime.t)
    (equipment_list : list EquipmentItem)
    (crew_config : dict Z)
    (severity_factor : SeverityFactor) : result LoadoutEquipmentCost :=
  heavy <- heavy_equipment_loop self now severity_factor equipment_list [] $0.0 ;;
  let '(heavy_equipment_costs, total_heavy_equipment_cost) := heavy in
  let small_tools_breakdown := calculate_small_tools_pool_cost self crew_config in
  total_small_tools_cost <- dict_item "Total Small Tools Pool" small_tools_breakdown ;;
  let total_loadout_cost_per_hour :=
    total_heavy_equipment_cost + total_small_tools_cost in
  heavy_ratio <- truediv total_heavy_equipment_cost total_loadout_cost_per_hour ;;
  small_ratio <- truediv total_small_tools_cost total_loadout_cost_per_hour ;;
  Ok {| equipment_details := heavy_equipment_costs;
        heavy_total_cost_per_hour := total_heavy_equipment_cost;
        category_breakdown := small_tools_breakdown;
        small_tools_total_cost_per_hour := total_small_tools_cost;
        total_equipment_cost_per_hour := total_loadout_cost_per_hour;
        heavy_equipment_percentage := heavy_ratio * $100;
        small_tools_percentage := small_ratio * $100;
        crew_configuration := crew_config;
        loadout_severity_factor := SeverityFactor_value severity_factor |}.

End Defs.
End Equipment.

(** ** Employee cost model (true_hourly_employee_cost.py) *)

Module Employee.

Inductive EmployeePosition : Type :=
| ISA_CERTIFIED_ARBORIST
| EXPERIENCED_CLIMBER
| GROUND_CREW_LEAD
| GROUND_CREW_MEMBER
| EQUIPMENT_OPERATOR
| APPRENTICE
| CREW_SUPERVISOR
| SAFETY_MANAGER.

Definition EmployeePosition_value (p : EmployeePosition) : string :=
  match p with
  | ISA_CERTIFIED_ARBORIST => "isa_certified_arborist"
  | EXPERIENCED_CLIMBER => "experienced_climber"
  | GROUND_CREW_LEAD => "ground_crew_lead"
  | GROUND_CREW_MEMBER => "ground_crew_member"
  | EQUIPMENT_OPERATOR => "equipment_operator"
  | APPRENTICE => "apprentice"
  | CREW_SUPERVISOR => "crew_supervisor"
  | SAFETY_MANAGER => "safety_manager"
  end.

Definition all_positions : list EmployeePosition :=
  [ISA_CERTIFIED_ARBORIST; EXPERIENCED_CLIMBER; GROUND_CREW_LEAD;
   GROUND_CREW_MEMBER; EQUIPMENT_OPERATOR; APPRENTICE; CREW_SUPERVISOR;
   SAFETY_MANAGER].

(** [EmployeePosition(s)]: lookup by value, [ValueError] when there is none. *)
Definition EmployeePosition_of_value (s : string) : result EmployeePosition :=
  match find (fun p => String.eqb (EmployeePosition_value p) s) all_positions with
  | Some p => Ok p
  | None => Raise (ValueError s)
  end.

Inductive LocationState : Type :=
| FLORIDA
| GEORGIA
| TEXAS
| CALIFORNIA
| NORTH_CAROLINA.

Definition LocationState_value (s : LocationState) : string :=
  match s with
  | FLORIDA => "florida"
  | GEORGIA => "georgia"
  | TEXAS => "texas"
  | CALIFORNIA => "california"
  | NORTH_CAROLINA => "north_carolina"
  end.

(** [NonProductiveTime], with its dataclass defaults below. *)
Record NonProductiveTime : Type := {
  pto_sick_hours : Z;
  training_hours : Z;
  equipment_maintenance_downtime : Z;
  weather_delay_hours : Z;
  administrative_time : Z
}.

Definition NonProductiveTime_default : NonProductiveTime :=
  {| pto_sick_hours := 100;
     training_hours := 60;
     equipment_maintenance_downtime := 50;
     weather_delay_hours := 80;
     administrative_time := 100 |}.

Definition total_non_productive_hours (t : NonProductiveTime) : Z :=
  pto_sick_hours t + training_hours t + equipment_maintenance_downtime t +
  weather_delay_hours t + administrative_time t.

Section Defs.
Context {F : Type} `{PyFloat F}.
Local Open Scope string_scope.
Local Open Scope py_scope.

(** [EmployeeBurdenFactors], with its dataclass defaults below. *)
Record EmployeeBurdenFactors : Type := {
  payroll_taxes_rate : F;
  federal_unemployment_rate : F;
  state_unemployment_rate : F;
  workers_comp_rate : F;
  health_insurance_annual : F;
  equipment_ppe_annual : F;
  vehicle_allocation_annual : F;
  training_certification_annual : F;
  overhead_allocation_rate : F
}.

Definition EmployeeBurdenFactors_default : EmployeeBurdenFactors :=
  {| payroll_taxes_rate := $0.0765;
     federal_unemployment_rate := $0.006;
     state_unemployment_rate := $0.027;
     workers_comp_rate := $0.12;
     health_insurance_annual := $8000;
     equipment_ppe_annual := $3000;
     vehicle_allocation_annual := $5000;
     training_certification_annual := $2000;
     overhead_allocation_rate := $0.20 |}.

Record EmployeeCostBreakdown : Type := {
  employee_id : string;
  position : EmployeePosition;
  location_state : LocationState;
  hourly_rate : F;
  annual_base_wages : F;
  payroll_taxes : F;
  unemployment_taxes : F;
  workers_compensation : F;
  health_insurance : F;
  equipment_ppe : F;
  vehicle_allocation : F;
  training_certification : F;
  overhead_allocation : F;
  total_annual_burden : F;
  total_scheduled_hours : Z;
  non_productive_hours : Z;
  productive_hours : Z;
  total_annual_cost : F;
  true_hourly_cost : F;
  burden_multiplier : F;
  productive_hour_percentage : F;
  cost_per_productive_hour : F
}.

(** An entry of [state_adjustments]; every entry has all three keys. *)
Record StateAdjustment : Type := {
  adj_workers_comp_rate : F;
  adj_state_unemployment_rate : F;
  adj_weather_delay_hours : Z
}.

(** The attributes of a [TrueHourlyEmployeeCostCalculator] instance. *)
Record TrueHourlyEmployeeCostCalculator : Type := {
  default_burden_factors : EmployeeBurdenFactors;
  default_non_productive_time : NonProductiveTime;
  standard_annual_hours : Z;
  position_base_rates : EmployeePosition -> F;
  state_adjustments : LocationState -> option StateAdjustment
}.

(** [TrueHourlyEmployeeCostCalculator.__init__] *)
Definition __init__ : TrueHourlyEmployeeCostCalculator :=
  {| default_burden_factors := EmployeeBurdenFactors_default;
     default_non_productive_time := NonProductiveTime_default;
     standard_annual_hours := 2080;
     position_base_rates := fun p =>
       match p with
       | ISA_CERTIFIED_ARBORIST => $32.0
       | EXPERIENCED_CLIMBER => $28.0
       | GROUND_CREW_LEAD => $22.0
       | GROUND_CREW_MEMBER => $18.0
       | EQUIPMENT_OPERATOR => $25.0
       | APPRENTICE => $15.0
       | CREW_SUPERVISOR => $35.0
       | SAFETY_MANAGER => $40.0
       end;
     state_adjustments := fun s =>
       match s with
       | FLORIDA =>
           Some {| adj_workers_comp_rate := $0.12;
                   adj_state_unemployment_rate := $0.027;
                   adj_weather_delay_hours := 80 |}
       | GEORGIA =>
           Some {| adj_workers_comp_rate := $0.10;
                   adj_state_unemployment_rate := $0.025;
                   adj_weather_delay_hours := 60 |}
       | TEXAS =>
           Some {| adj_workers_comp_rate := $0.11;
                   adj_state_unemployment_rate := $0.026;
                   adj_weather_delay_hours := 40 |}
       | CALIFORNIA =>
           Some {| adj_workers_comp_rate := $0.15;
                   adj_state_unemployment_rate := $0.034;
                   adj_weather_delay_hours := 20 |}
       | NORTH_CAROLINA =>
           Some {| adj_workers_comp_rate := $0.09;
                   adj_state_unemployment_rate := $0.024;
                   adj_weather_delay_hours := 50 |}
       end |}.

Definition calculate_true_hourly_cost (self : TrueHourlyEmployeeCostCalculator)
    (now : datetime.t)
    (position : EmployeePosition)
    (location_state : LocationState)
    (hourly_rate : option F)
    (custom_burden_factors : option EmployeeBurdenFactors)
    (custom_non_productive_time : option NonProductiveTime)
  : result EmployeeCostBreakdown :=
  let hourly_rate :=
    match hourly_rate with
    | Some r => r
    | None => position_base_rates self position
    end in
  let burden_factors :=
    match custom_burden_factors with
    | Some b => b
    | None => default_burden_factors self
    end in
  let non_productive_time :=
    match custom_non_productive_time with
    | Some t => t
    | None => default_non_productive_time self
    end in
  let '(burden_factors, non_productive_time) :=
    match state_adjustments self location_state with
    | Some adj =>
        ({| payroll_taxes_rate := payroll_taxes_rate burden_factors;
            federal_unemployment_rate := federal_unemployment_rate burden_factors;
            state_unemployment_rate := adj_state_unemployment_rate adj;
            workers_comp_rate := adj_workers_comp_rate adj;
            health_insurance_annual := health_insurance_annual burden_factors;
            equipment_ppe_annual := equipment_ppe_annual burden_factors;
            vehicle_allocation_annual := vehicle_allocation_annual burden_factors;
            training_certification_annual :=
              training_certification_annual burden_factors;
            overhead_allocation_rate := overhead_allocation_rate burden_factors |},
         {| pto_sick_hours := pto_sick_hours non_productive_time;
            training_hours := training_hours non_productive_time;
            equipment_maintenance_downtime :=
              equipment_maintenance_downtime non_productive_time;
            weather_delay_hours := adj_weather_delay_hours adj;
            administrative_time := administrative_time non_productive_time |})
    | None => (burden_factors, non_productive_time)
    end in
  let annual_base_wages := hourly_rate * of_int (standard_annual_hours self) in
  let payroll_taxes := annual_base_wages * payroll_taxes_rate burden_factors in
  let unemployment_taxes :=
    annual_base_wages *
    (federal_unemployment_rate burden_factors + state_unemployment_rate burden_factors) in
  let workers_compensation := annual_base_wages * workers_comp_rate burden_factors in
  let health_insurance := health_insurance_annual burden_factors in
  let equipment_ppe := equipment_ppe_annual burden_factors in
  let vehicle_allocation := vehicle_allocation_annual burden_factors in
  let training_certification := training_certification_annual burden_factors in
  let overhead_allocation :=
    annual_base_wages * overhead_allocation_rate burden_factors in
  let total_annual_burden :=
    payroll_taxes + unemployment_taxes + workers_compensation +
    health_insurance + equipment_ppe + vehicle_allocation +
    training_certification + overhead_allocation in
  let total_scheduled_hours := standard_annual_hours self in
  let total_non_productive_hours := total_non_productive_hours non_productive_time in
  let productive_hours := (total_scheduled_hours - total_non_productive_hours)%Z in
  let total_annual_cost := annual_base_wages + total_annual_burden in
  true_hourly_cost <- truediv total_annual_cost (of_int productive_hours) ;;
  burden_multiplier <- truediv total_annual_cost annual_base_wages ;;
  productive_ratio <-
    truediv (of_int productive_hours) (of_int total_scheduled_hours) ;;
  let productive_hour_percentage := productive_ratio * $100 in
  let cost_per_productive_hour := true_hourly_cost in
  Ok {| employee_id :=
          EmployeePosition_value position ++ "_" ++
          LocationState_value location_state ++ "_" ++ datetime.strftime now;
        position := position;
        location_state := location_state;
        hourly_rate := hourly_rate;
        annual_base_wages := annual_base_wages;
        payroll_taxes := payroll_taxes;
        unemployment_taxes := unemployment_taxes;
        workers_compensation := workers_compensation;
        health_insurance := health_insurance;
        equipment_ppe := equipment_ppe;
        vehicle_allocation := vehicle_allocation;
        training_certification := training_certification;
        overhead_allocation := overhead_allocation;
        total_annual_burden := total_annual_burden;
        total_scheduled_hours := total_scheduled_hours;
        non_productive_hours := total_non_productive_hours;
        productive_hours := productive_hours;
        total_annual_cost := total_annual_cost;
        true_hourly_cost := true_hourly_cost;
        burden_multiplier := burden_multiplier;
        productive_hour_percentage := productive_hour_percentage;
        cost_per_productive_hour := cost_per_productive_hour |}.

(** An entry of [crew_composition]. *)
Record CrewMember : Type := {
  member_position : string;
  member_hourly_rate : option F
}.

(** The running totals of the loop of [calculate_crew_cost]. *)
Record CrewTotals : Type := {
  crew_members : list EmployeeCostBreakdown;
  total_hourly_rate : F;
  total_true_cost : F;
  total_burden_cost : F
}.

Record CrewCostSummary : Type := {
  summary_crew_members : list EmployeeCostBreakdown;
  total_base_hourly_rate : F;
  total_true_hourly_cost : F;
  total_burden_cost_per_hour : F;
  average_burden_multiplier : F;
  crew_size : Z;
  summary_location_state : string
}.

(** The totals before the loop: an empty list and three [0.0]. *)
Definition crew_totals_init : CrewTotals :=
  {| crew_members := [];
     total_hourly_rate := $0.0;
     total_true_cost := $0.0;
     total_burden_cost := $0.0 |}.

Fixpoint crew_loop (self : TrueHourlyEmployeeCostCalculator) (now : datetime.t)
    (location_state : LocationState) (crew_composition : list CrewMember)
    (acc : CrewTotals) : result CrewTotals :=
  match crew_composition with
  | [] => Ok acc
  | member :: rest =>
      position <- EmployeePosition_of_value (member_position member) ;;
      employee_cost <-
        calculate_true_hourly_cost self now position location_state
          (member_hourly_rate member) None None ;;
      crew_loop self now location_state rest
        {| crew_members := crew_members acc ++ [employee_cost];
           total_hourly_rate :=
             total_hourly_rate acc + hourly_rate employee_cost;
           total_true_cost := total_true_cost acc + true_hourly_cost employee_cost;
           total_burden_cost :=
             total_burden_cost acc +
             (true_hourly_cost employee_cost - hourly_rate employee_cost) |}
  end.

Definition calculate_crew_cost (self : TrueHourlyEmployeeCostCalculator)
    (now : datetime.t)
    (crew_composition : list CrewMember)
    (location_state : LocationState) : result CrewCostSummary :=
  totals <- crew_loop self now location_state crew_composition crew_totals_init ;;
  avg_burden_multiplier <-
    truediv (total_true_cost totals) (total_hourly_rate totals) ;;
  Ok {| summary_crew_members := crew_members totals;
        total_base_hourly_rate := total_hourly_rate totals;
        total_true_hourly_cost := total_true_cost totals;
        total_burden_cost_per_hour := total_burden_cost totals;
        average_burden_multiplier := avg_burden_multiplier;
        crew_size := Z.of_nat (List.length crew_composition);
        summary_location_state := LocationState_value location_state |}.

End Defs.
End Employee.

(** ** Loadout pricing (loadout_pricing_intelligence.py) *)

Module Loadout.

Inductive ProjectType : Type :=
| TREE_REMOVAL
| TREE_TRIMMING
| FORESTRY_MULCHING
| STUMP_GRINDING
| EMERGENCY_RESPONSE
| LOT_CLEARING.

Definition ProjectType_value (p : ProjectType) : string :=
  match p with
  | TREE_REMOVAL => "tree_removal"
  | TREE_TRIMMING => "tree_trimming"
  | FORESTRY_MULCHING => "forestry_mulching"
  | STUMP_GRINDING => "stump_grinding"
  | EMERGENCY_RESPONSE => "emergency_response"
  | LOT_CLEARING => "lot_clearing"
  end.

Section Defs.
Context {F : Type} `{PyFloat F}.
Local Open Scope string_scope.
Local Open Scope py_scope.

Record LoadoutConfiguration : Type := {
  name : string;
  project_type : ProjectType;
  equipment_list : list (Equipment.EquipmentItem (F:=F));
  crew_composition : list (Employee.CrewMember (F:=F));
  location_state : Employee.LocationState;
  severity_factor : Equipment.SeverityFactor
}.

Record LoadoutPricingBreakdown : Type := {
  loadout_id : string;
  configuration : LoadoutConfiguration;
  equipment_cost_per_hour : F;
  heavy_equipment_cost : F;
  small_tools_cost : F;
  employee_cost_per_hour : F;
  base_wages_per_hour : F;
  burden_cost_per_hour : F;
  total_cost_per_hour : F;
  recommended_billing_rate : F;
  profit_margin_percentage : F;
  break_even_rate : F;
  competitive_rate_range : F * F;
  cost_efficiency_score : F;
  profitability_score : F
}.

(** The attributes of a [LoadoutPricingIntelligence] instance that
    [calculate_loadout_pricing] reads. *)
Record LoadoutPricingIntelligence : Type := {
  equipment_engine : Equipment.EquipmentCostIntelligence (F:=F);
  employee_calculator : Employee.TrueHourlyEmployeeCostCalculator (F:=F);
  target_profit_margins : ProjectType -> F;
  competitive_rates : ProjectType -> F * F
}.

(** [LoadoutPricingIntelligence.__init__] *)
Definition __init__ : LoadoutPricingIntelligence :=
  {| equipment_engine := Equipment.__init__;
     employee_calculator := Employee.__init__;
     target_profit_margins := fun p =>
       match p with
       | TREE_REMOVAL => $0.35
       | TREE_TRIMMING => $0.40
       | FORESTRY_MULCHING => $0.30
       | STUMP_GRINDING => $0.35
       | EMERGENCY_RESPONSE => $0.50
       | LOT_CLEARING => $0.32
       end;
     competitive_rates := fun p =>
       match p with
       | TREE_REMOVAL => ($200, $350)
       | TREE_TRIMMING => ($150, $280)
       | FORESTRY_MULCHING => ($400, $600)
       | STUMP_GRINDING => ($180, $320)
       | EMERGENCY_RESPONSE => ($300, $500)
       | LOT_CLEARING => ($350, $550)
       end |}.

(** The first entry of [_initialize_loadout_templates]. *)
Definition residential_tree_service : LoadoutConfiguration :=
  {| name := "Residential Tree Service Crew";
     project_type := TREE_REMOVAL;
     equipment_list :=
       [ {| Equipment.type := "bucket_truck";
            Equipment.item_make_model := Some "Altec on Ford F750";
            Equipment.purchase_price := Some $165000;
            Equipment.year := Some 2021%Z |};
         {| Equipment.type := "chipper";
            Equipment.item_make_model := Some "Bandit 150XP";
            Equipment.purchase_price := Some $50000;
            Equipment.year := Some 2020%Z |};
         {| Equipment.type := "pickup_truck";
            Equipment.item_make_model := Some "Ford F-350";
            Equipment.purchase_price := Some $65000;
            Equipment.year := Some 2023%Z |} ];
     crew_composition :=
       [ {| Employee.member_position := "isa_certified_arborist";
            Employee.member_hourly_rate := Some $32.0 |};
         {| Employee.member_position := "experienced_climber";
            Employee.member_hourly_rate := Some $28.0 |};
         {| Employee.member_position := "ground_crew_lead";
            Employee.member_hourly_rate := Some $22.0 |};
         {| Employee.member_position := "ground_crew_member";
            Employee.member_hourly_rate := Some $18.0 |} ];
     location_state := Employee.FLORIDA;
     severity_factor := Equipment.STANDARD_WORK |}.

(** [sum(1 for member in crew if p(member))] *)
Definition count_members (p : string -> bool)
    (crew_composition : list (Employee.CrewMember (F:=F))) : Z :=
  Z.of_nat (List.length
    (filter (fun member => p (Employee.member_position member)) crew_composition)).

Definition _extract_crew_config (crew_composition : list (Employee.CrewMember (F:=F)))
  : dict Z :=
  let climbers :=
    count_members
      (fun p => String.eqb p "isa_certified_arborist" ||
                String.eqb p "experienced_climber")
      crew_composition in
  let ground_crew := count_members (Str.contains "ground_crew") crew_composition in
  let chainsaws := Z.max 2 (climbers * 2 + Z.max 1 (ground_crew / 2))%Z in
  [ ("climbers", climbers); ("ground_crew", ground_crew);
    ("chainsaws", chainsaws); ("crews", 1%Z) ].

(** The [benchmarks] table of [_calculate_cost_efficiency_score], as
    (equipment_ratio, employee_ratio), with the [.get] default. *)
Definition benchmark (project_type : ProjectType) : F * F :=
  match project_type with
  | TREE_REMOVAL => ($0.30, $0.70)
  | FORESTRY_MULCHING => ($0.60, $0.40)
  | STUMP_GRINDING => ($0.45, $0.55)
  | EMERGENCY_RESPONSE => ($0.35, $0.65)
  | _ => ($0.40, $0.60)
  end.

Definition _calculate_cost_efficiency_score (equipment_cost employee_cost : F)
    (project_type : ProjectType) : result F :=
  let total_cost := equipment_cost + employee_cost in
  actual_equipment_ratio <- truediv equipment_cost total_cost ;;
  actual_employee_ratio <- truediv employee_cost total_cost ;;
  let '(equipment_ratio, employee_ratio) := benchmark project_type in
  let equipment_variance := pyabs (actual_equipment_ratio - equipment_ratio) in
  let employee_variance := pyabs (actual_employee_ratio - employee_ratio) in
  let efficiency_score :=
    pymax $0 ($100 - (equipment_variance + employee_variance) * $200) in
  Ok efficiency_score.

Definition _calculate_profitability_score (recommended_rate : F)
    (competitive_range : F * F) (target_margin : F) : result F :=
  let '(min_competitive, max_competitive) := competitive_range in
  base_score <-
    (if (min_competitive <=? recommended_rate) &&
        (recommended_rate <=? max_competitive) then
       range_position <-
         truediv (recommended_rate - min_competitive)
                 (max_competitive - min_competitive) ;;
       Ok ($70 + range_position * $20)
     else if recommended_rate <? min_competitive then
       Ok $50
     else
       excess_ratio <-
         truediv (recommended_rate - max_competitive) max_competitive ;;
       Ok (pymax $30 ($70 - excess_ratio * $100))) ;;
  let margin_bonus := pymin $10 (target_margin * $25) in
  let profitability_score := pymin $100 (base_score + margin_bonus) in
  Ok profitability_score.

Definition calculate_loadout_pricing (self : LoadoutPricingIntelligence)
    (now : datetime.t) (loadout_config : LoadoutConfiguration)
  : result LoadoutPricingBreakdown :=
  let crew_config := _extract_crew_config (crew_composition loadout_config) in
  equipment_cost_data <-
    Equipment.calculate_loadout_equipment_cost (equipment_engine self) now
      (equipment_list loadout_config) crew_config
      (severity_factor loadout_config) ;;
  let equipment_cost_per_hour :=
    Equipment.total_equipment_cost_per_hour equipment_cost_data in
  let heavy_equipment_cost :=
    Equipment.heavy_total_cost_per_hour equipment_cost_data in
  let small_tools_cost :=
    Equipment.small_tools_total_cost_per_hour equipment_cost_data in
  employee_cost_data <-
    Employee.calculate_crew_cost (employee_calculator self) now
      (crew_composition loadout_config) (location_state loadout_config) ;;
  let employee_cost_per_hour := Employee.total_true_hourly_cost employee_cost_data in
  let base_wages_per_hour := Employee.total_base_hourly_rate employee_cost_data in
  let burden_cost_per_hour :=
    Employee.total_burden_cost_per_hour employee_cost_data in
  let total_cost_per_hour := equipment_cost_per_hour + employee_cost_per_hour in
  let target_margin := target_profit_margins self (project_type loadout_config) in
  recommended_billing_rate <- truediv total_cost_per_hour ($1 - target_margin) ;;
  let break_even_rate := total_cost_per_hour in
  let competitive_range := competitive_rates self (project_type loadout_config) in
  cost_efficiency_score <-
    _calculate_cost_efficiency_score equipment_cost_per_hour
      employee_cost_per_hour (project_type loadout_config) ;;
  profitability_score <-
    _calculate_profitability_score recommended_billing_rate competitive_range
      target_margin ;;
  let loadout_id :=
    ProjectType_value (project_type loadout_config) ++ "_" ++
    Employee.LocationState_value (location_state loadout_config) ++ "_" ++
    datetime.strftime now in
  Ok {| loadout_id := loadout_id;
        configuration := loadout_config;
        equipment_cost_per_hour := equipment_cost_per_hour;
        heavy_equipment_cost := heavy_equipment_cost;
        small_tools_cost := small_tools_cost;
        employee_cost_per_hour := employee_cost_per_hour;
        base_wages_per_hour := base_wages_per_hour;
        burden_cost_per_hour := burden_cost_per_hour;
        total_cost_per_hour := total_cost_per_hour;
        recommended_billing_rate := recommended_billing_rate;
        profit_margin_percentage := target_margin * $100;
        break_even_rate := break_even_rate;
        competitive_rate_range := competitive_range;
        cost_efficiency_score := cost_efficiency_score;
        profitability_score := profitability_score |}.

End Defs.
End Loadout.

(** ** Hiring scenarios (true_hourly_employee_cost.py) *)

Module Hiring.
Import Employee.
Section Defs.
Context {F : Type} `{PyFloat F}.
Local Open Scope string_scope.
Local Open Scope py_scope.

(** One entry of the [scenarios] list. *)
Record Scenario : Type := {
  scenario_hourly_rate : F;
  scenario_true_hourly_cost : F;
  annual_cost : F;
  scenario_burden_multiplier : F;
  cost_difference_vs_rate : F
}.

Record HiringComparison : Type := {
  comparison_position : string;
  comparison_location_state : string;
  scenarios : list Scenario
}.

(** The loop over [hourly_rates] of [compare_hiring_scenarios]. *)
Fixpoint scenarios_loop (self : TrueHourlyEmployeeCostCalculator)
    (now : datetime.t) (position : EmployeePosition)
    (location_state : LocationState) (hourly_rates : list F)
    (scenarios : list Scenario) : result (list Scenario) :=
  match hourly_rates with
  | [] => Ok scenarios
  | rate :: rest =>
      cost_breakdown <-
        calculate_true_hourly_cost self now position location_state (Some rate)
          None None ;;
      scenarios_loop self now position location_state rest
        (scenarios ++
         [ {| scenario_hourly_rate := rate;
              scenario_true_hourly_cost := true_hourly_cost cost_breakdown;
              annual_cost := total_annual_cost cost_breakdown;
              scenario_burden_multiplier := burden_multiplier cost_breakdown;
              cost_difference_vs_rate :=
                true_hourly_cost cost_breakdown - rate |} ])
  end.

Definition compare_hiring_scenarios (self : TrueHourlyEmployeeCostCalculator)
    (now : datetime.t) (position : EmployeePosition)
    (location_state : LocationState) (hourly_rates : list F)
  : result HiringComparison :=
  scenarios <- scenarios_loop self now position location_state hourly_rates [] ;;
  Ok {| comparison_position := EmployeePosition_value position;
        comparison_location_state := LocationState_value location_state;
        scenarios := scenarios |}.

End Defs.
End Hiring.


(** ** Scenario comparison and loadout optimisation
       (loadout_pricing_intelligence.py) *)

(** The two [str] methods the optimiser applies to an enum value.  The
    values are ASCII, and on ASCII text the definitions below are what
    CPython computes. *)
Module StrCase.

Definition is_lower (c : ascii) : bool :=
  (97 <=? nat_of_ascii c)%nat && (nat_of_ascii c <=? 122)%nat.

Definition is_upper (c : ascii) : bool :=
  (65 <=? nat_of_ascii c)%nat && (nat_of_ascii c <=? 90)%nat.

Definition upper (c : ascii) : ascii :=
  if is_lower c then ascii_of_nat (nat_of_ascii c - 32) else c.

Definition lower (c : ascii) : ascii :=
  if is_upper c then ascii_of_nat (nat_of_ascii c + 32) else c.

(** [s.replace(a, b)] for single characters [a] and [b]. *)
Fixpoint replace (a b : ascii) (s : string) : string :=
  match s with
  | EmptyString => EmptyString
  | String c r => String (if Ascii.eqb c a then b else c) (replace a b r)
  end.

(** [s.title()]: a letter is upper-cased when the character before it is
    not a letter, and lower-cased otherwise. *)
Fixpoint title_from (previous_is_cased : bool) (s : string) : string :=
  match s with
  | EmptyString => EmptyString
  | String c r =>
      String (if previous_is_cased then lower c else upper c)
             (title_from (is_lower c || is_upper c) r)
  end.

Definition title (s : string) : string := title_from false s.

End StrCase.

Module Scenarios.
Import Loadout.

Definition all_project_types : list ProjectType :=
  [TREE_REMOVAL; TREE_TRIMMING; FORESTRY_MULCHING; STUMP_GRINDING;
   EMERGENCY_RESPONSE; LOT_CLEARING].

(** [ProjectType(s)]: lookup by value, [ValueError] when there is none. *)
Definition ProjectType_of_value (s : string) : result ProjectType :=
  match find (fun p => String.eqb (ProjectType_value p) s) all_project_types with
  | Some p => Ok p
  | None => Raise (ValueError s)
  end.

Definition all_states : list Employee.LocationState :=
  [Employee.FLORIDA; Employee.GEORGIA; Employee.TEXAS; Employee.CALIFORNIA;
   Employee.NORTH_CAROLINA].

(** [LocationState(s)]: lookup by value, [ValueError] when there is none. *)
Definition LocationState_of_value (s : string) : result Employee.LocationState :=
  match find (fun p => String.eqb (Employee.LocationState_value p) s) all_states with
  | Some p => Ok p
  | None => Raise (ValueError s)
  end.

(** [severity_mapping.get(complexity, SeverityFactor.STANDARD_WORK)] *)
Definition severity_mapping (complexity : string) : Equipment.SeverityFactor :=
  if String.eqb complexity "low" then Equipment.LIGHT_RESIDENTIAL
  else if String.eqb complexity "standard" then Equipment.STANDARD_WORK
  else if String.eqb complexity "high" then Equipment.HEAVY_VEGETATION
  else if String.eqb complexity "extreme" then Equipment.DISASTER_RECOVERY
  else Equipment.STANDARD_WORK.

(** The key of the template [optimize_loadout_for_project] starts from. *)
Definition template_key (project_type : ProjectType) : string :=
  match project_type with
  | FORESTRY_MULCHING => "forestry_mulching_operation"
  | STUMP_GRINDING => "stump_grinding_crew"
  | EMERGENCY_RESPONSE => "emergency_response_team"
  | _ => "residential_tree_service"
  end.

(** [list[i] = v] on a list that has an index [i]. *)
Fixpoint list_set {A} (l : list A) (i : nat) (v : A) : list A :=
  match l, i with
  | [], _ => []
  | _ :: r, O => v :: r
  | x :: r, S j => x :: list_set r j v
  end.

Section Defs.
Context {F : Type} `{PyFloat F}.
Local Open Scope string_scope.
Local Open Scope py_scope.

(** *** compare_loadout_scenarios *)

(** The loop over [scenarios]. *)
Fixpoint scenario_loop (self : LoadoutPricingIntelligence (F:=F))
    (now : datetime.t) (scenarios : list (LoadoutConfiguration (F:=F)))
    (scenario_results : list (LoadoutPricingBreakdown (F:=F)))
  : result (list (LoadoutPricingBreakdown (F:=F))) :=
  match scenarios with
  | [] => Ok scenario_results
  | scenario :: rest =>
      pricing <- calculate_loadout_pricing self now scenario ;;
      scenario_loop self now rest (scenario_results ++ [pricing])
  end.

(** [max(xs, key=k)]: the first element with the largest key; an element
    replaces the running maximum when its key is greater.  The text of
    the ValueError for an empty list depends on the interpreter version. *)
Definition max_by {A} (k : A -> F) (xs : list A) : result A :=
  match xs with
  | [] => Raise (ValueError "max() arg is an empty sequence")
  | x :: r => Ok (fold_left (fun best y => if k best <? k y then y else best) r x)
  end.

(** [min(xs, key=k)]: the first element with the smallest key. *)
Definition min_by {A} (k : A -> F) (xs : list A) : result A :=
  match xs with
  | [] => Raise (ValueError "min() arg is an empty sequence")
  | x :: r => Ok (fold_left (fun best y => if k y <? k best then y else best) r x)
  end.

(** The loop of [_generate_scenario_recommendations]. *)
Fixpoint recommendation_loop (avg_total_cost avg_profitability : F)
    (scenario_results : list (LoadoutPricingBreakdown (F:=F)))
    (recommendations : list string) : list string :=
  match scenario_results with
  | [] => recommendations
  | scenario :: rest =>
      let name := name (configuration scenario) in
      let total_cost := total_cost_per_hour scenario in
      let profitability := profitability_score scenario in
      recommendation_loop avg_total_cost avg_profitability rest
        (if (total_cost <? avg_total_cost * $0.9) &&
            (avg_profitability <? profitability) then
           recommendations ++
             [name ++ ": Excellent balance of low cost and high profitability"]
         else if $85 <? profitability then
           recommendations ++
             [name ++ ": High profitability scenario - premium pricing opportunity"]
         else if total_cost <? avg_total_cost * $0.8 then
           recommendations ++
             [name ++ ": Low-cost leader - competitive advantage on price"]
         else recommendations)
  end.

Definition _generate_scenario_recommendations
    (scenario_results : list (LoadoutPricingBreakdown (F:=F)))
  : result (list string) :=
  avg_total_cost <-
    truediv (AFISS.pysum (map (@total_cost_per_hour F) scenario_results))
            (of_int (Z.of_nat (List.length scenario_results))) ;;
  avg_profitability <-
    truediv (AFISS.pysum (map (@profitability_score F) scenario_results))
            (of_int (Z.of_nat (List.length scenario_results))) ;;
  Ok (recommendation_loop avg_total_cost avg_profitability scenario_results []).

(** The [comparison] dictionary. *)
Record Comparison : Type := {
  comparison_scenarios : list (LoadoutPricingBreakdown (F:=F));
  best_cost_efficiency : string;
  best_profitability : string;
  lowest_total_cost : string;
  recommendations : list string
}.

Definition compare_loadout_scenarios (self : LoadoutPricingIntelligence (F:=F))
    (now : datetime.t) (scenarios : list (LoadoutConfiguration (F:=F)))
  : result Comparison :=
  scenario_results <- scenario_loop self now scenarios [] ;;
  best_cost_efficiency <- max_by (@cost_efficiency_score F) scenario_results ;;
  best_profitability <- max_by (@profitability_score F) scenario_results ;;
  lowest_total_cost <- min_by (@total_cost_per_hour F) scenario_results ;;
  recommendations <- _generate_scenario_recommendations scenario_results ;;
  Ok {| comparison_scenarios := scenario_results;
        best_cost_efficiency := name (configuration best_cost_efficiency);
        best_profitability := name (configuration best_profitability);
        lowest_total_cost := name (configuration lowest_total_cost);
        recommendations := recommendations |}.

(** *** The loadout templates and optimize_loadout_for_project *)

(** The other three entries of [_initialize_loadout_templates]. *)
Definition forestry_mulching_operation : LoadoutConfiguration :=
  {| name := "Forestry Mulching Operation";
     project_type := FORESTRY_MULCHING;
     equipment_list :=
       [ {| Equipment.type := "skid_steer_mulcher";
            Equipment.item_make_model := Some "Bobcat T770 + Denis Cimaf";
            Equipment.purchase_price := Some $118000;
            Equipment.year := Some 2022%Z |};
         {| Equipment.type := "pickup_truck";
            Equipment.item_make_model := Some "Ford F-350 Diesel";
            Equipment.purchase_price := Some $65000;
            Equipment.year := Some 2023%Z |} ];
     crew_composition :=
       [ {| Employee.member_position := "equipment_operator";
            Employee.member_hourly_rate := Some $25.0 |};
         {| Employee.member_position := "ground_crew_lead";
            Employee.member_hourly_rate := Some $22.0 |};
         {| Employee.member_position := "ground_crew_member";
            Employee.member_hourly_rate := Some $18.0 |} ];
     location_state := Employee.FLORIDA;
     severity_factor := Equipment.HEAVY_VEGETATION |}.

Definition stump_grinding_crew : LoadoutConfiguration :=
  {| name := "Stump Grinding Crew";
     project_type := STUMP_GRINDING;
     equipment_list :=
       [ {| Equipment.type := "stump_grinder";
            Equipment.item_make_model := Some "Carlton 7015";
            Equipment.purchase_price := Some $45000;
            Equipment.year := Some 2020%Z |};
         {| Equipment.type := "pickup_truck";
            Equipment.item_make_model := Some "Ford F-350";
            Equipment.purchase_price := Some $65000;
            Equipment.year := Some 2023%Z |} ];
     crew_composition :=
       [ {| Employee.member_position := "equipment_operator";
            Employee.member_hourly_rate := Some $25.0 |};
         {| Employee.member_position := "ground_crew_member";
            Employee.member_hourly_rate := Some $18.0 |} ];
     location_state := Employee.FLORIDA;
     severity_factor := Equipment.STANDARD_WORK |}.

Definition emergency_response_team : LoadoutConfiguration :=
  {| name := "Emergency Response Team";
     project_type := EMERGENCY_RESPONSE;
     equipment_list :=
       [ {| Equipment.type := "bucket_truck";
            Equipment.item_make_model := Some "Altec on Ford F750";
            Equipment.purchase_price := Some $165000;
            Equipment.year := Some 2021%Z |};
         {| Equipment.type := "chipper";
            Equipment.item_make_model := Some "Bandit 150XP";
            Equipment.purchase_price := Some $50000;
            Equipment.year := Some 2020%Z |};
         {| Equipment.type := "pickup_truck";
            Equipment.item_make_model := Some "Ford F-350";
            Equipment.purchase_price := Some $65000;
            Equipment.year := Some 2023%Z |} ];
     crew_composition :=
       [ {| Employee.member_position := "isa_certified_arborist";
            Employee.member_hourly_rate := Some $35.0 |};
         {| Employee.member_position := "experienced_climber";
            Employee.member_hourly_rate := Some $30.0 |};
         {| Employee.member_position := "ground_crew_lead";
            Employee.member_hourly_rate := Some $25.0 |};
         {| Employee.member_position := "ground_crew_member";
            Employee.member_hourly_rate := Some $20.0 |};
         {| Employee.member_position := "safety_manager";
            Employee.member_hourly_rate := Some $40.0 |} ];
     location_state := Employee.FLORIDA;
     severity_factor := Equipment.DISASTER_RECOVERY |}.

(** The crew member dictionaries are mutable objects, and the optimiser
    writes to them through a shallow copy of the crew list.  They live in
    a heap, addressed by position; a crew list is a list of addresses.
    The equipment dictionaries are never written to and stay values. *)
Definition ref : Type := nat.
Definition Heap : Type := list (Employee.CrewMember (F:=F)).

(** A [LoadoutConfiguration] object whose crew list holds references. *)
Record LoadoutObject : Type := {
  object_name : string;
  object_project_type : ProjectType;
  object_equipment_list : list (Equipment.EquipmentItem (F:=F));
  object_crew_composition : list ref;
  object_location_state : Employee.LocationState;
  object_severity_factor : Equipment.SeverityFactor
}.

(** The configuration an object stands for in a heap. *)
Definition load (h : Heap) (o : LoadoutObject) : option LoadoutConfiguration :=
  match
    fold_right
      (fun r acc =>
         match nth_error h r, acc with
         | Some m, Some l => Some (m :: l)
         | _, _ => None
         end)
      (Some []) (object_crew_composition o)
  with
  | Some crew =>
      Some {| name := object_name o;
              project_type := object_project_type o;
              equipment_list := object_equipment_list o;
              crew_composition := crew;
              location_state := object_location_state o;
              severity_factor := object_severity_factor o |}
  | None => None
  end.

(** Building the template dictionary: the crew member dictionaries of
    each template are allocated in turn. *)
Fixpoint allocate_templates (ts : list (string * LoadoutConfiguration))
    (h : Heap) : dict LoadoutObject * Heap :=
  match ts with
  | [] => ([], h)
  | (k, c) :: rest =>
      let o :=
        {| object_name := name c;
           object_project_type := project_type c;
           object_equipment_list := equipment_list c;
           object_crew_composition :=
             seq (List.length h) (List.length (crew_composition c));
           object_location_state := location_state c;
           object_severity_factor := severity_factor c |} in
      let '(d, h') := allocate_templates rest (h ++ crew_composition c)%list in
      ((k, o) :: d, h')
  end.

Definition _initialize_loadout_templates : dict LoadoutObject * Heap :=
  allocate_templates
    [ ("residential_tree_service", residential_tree_service);
      ("forestry_mulching_operation", forestry_mulching_operation);
      ("stump_grinding_crew", stump_grinding_crew);
      ("emergency_response_team", emergency_response_team) ]
    [].

(** [for member in crew: member["hourly_rate"] *= 1.15], on the heap.  A
    member without an hourly rate raises KeyError and leaves the earlier
    members raised.  An address outside the heap does not occur: every
    reference comes from an allocation. *)
Fixpoint raise_rates (crew : list ref) (h : Heap) : result unit * Heap :=
  match crew with
  | [] => (Ok tt, h)
  | r :: rest =>
      match nth_error h r with
      | Some member =>
          match Employee.member_hourly_rate member with
          | Some rate =>
              raise_rates rest
                (list_set h r
                   {| Employee.member_position := Employee.member_position member;
                      Employee.member_hourly_rate := Some (rate * $1.15) |})
          | None => (Raise (KeyError "hourly_rate"), h)
          end
      | None => (Raise (KeyError "hourly_rate"), h)
      end
  end.

(** [optimize_loadout_for_project], with [self.loadout_templates] and the
    heap before the call; it returns the heap after the call next to the
    result. *)
Definition optimize_loadout_for_project (loadout_templates : dict LoadoutObject)
    (project_requirements : dict string) (h : Heap)
  : result LoadoutObject * Heap :=
  match ProjectType_of_value
          (dict_get_default "project_type" "tree_removal" project_requirements) with
  | Raise e => (Raise e, h)
  | Ok project_type =>
  match LocationState_of_value
          (dict_get_default "location_state" "florida" project_requirements) with
  | Raise e => (Raise e, h)
  | Ok location_state =>
  let complexity := dict_get_default "complexity" "standard" project_requirements in
  let severity_factor := severity_mapping complexity in
  match dict_item (template_key project_type) loadout_templates with
  | Raise e => (Raise e, h)
  | Ok base_config =>
      let optimized_config (crew : list ref) :=
        {| object_name :=
             "Optimized " ++
             StrCase.title
               (StrCase.replace "_"%char " "%char (ProjectType_value project_type)) ++
             " Loadout";
           object_project_type := project_type;
           object_equipment_list := object_equipment_list base_config;
           object_crew_composition := crew;
           object_location_state := location_state;
           object_severity_factor := severity_factor |} in
      if String.eqb complexity "extreme" then
        let safety_manager := List.length h in
        let h1 :=
          (h ++ [ {| Employee.member_position := "safety_manager";
                     Employee.member_hourly_rate := Some $40.0 |} ])%list in
        let crew := (object_crew_composition base_config ++ [safety_manager])%list in
        let '(raised, h2) := raise_rates crew h1 in
        (rmap (fun _ => optimized_config crew) raised, h2)
      else
        (Ok (optimized_config (object_crew_composition base_config)), h)
  end
  end
  end.

End Defs.
End Scenarios.

(** ** The pricing demo (demo_alex_complete_pricing.py) *)

Module Demo.
Section Defs.
Context {F : Type} `{PyFloat F}.
Local Open Scope string_scope.
Local Open Scope py_scope.

(** [str.lower], which is locale-free but not ASCII-only, is left to the
    caller: every statement below holds for any function put here. *)
Variable lower : string -> string.

(** The dictionary [assess_afiss_factors] returns. *)
Record AfissFactors : Type := {
  access_score : F;
  fall_zone_score : F;
  interference_score : F;
  severity_score : F;
  site_conditions_score : F;
  composite_score : F;
  complexity : string;
  multiplier_range : F * F;
  afiss_bonus : F
}.

Definition assess_afiss_factors (project_description : string) : AfissFactors :=
  let desc_lower := lower project_description in
  let access_score := $5.0 in
  let access_score :=
    if Str.contains "narrow" desc_lower || Str.contains "driveway" desc_lower
    then access_score + $10.0 else access_score in
  let access_score :=
    if Str.contains "steep" desc_lower
    then access_score + $8.0 else access_score in
  let fall_zone_score := $8.0 in
  let fall_zone_score :=
    if Str.contains "house" desc_lower || Str.contains "building" desc_lower
    then fall_zone_score + $20.0 else fall_zone_score in
  let fall_zone_score :=
    if Str.contains "20 feet" desc_lower || Str.contains "close" desc_lower
    then fall_zone_score + $15.0 else fall_zone_score in
  let interference_score := $6.0 in
  let interference_score :=
    if Str.contains "power line" desc_lower || Str.contains "electrical" desc_lower
    then interference_score + $25.0 else interference_score in
  let interference_score :=
    if Str.contains "overhead" desc_lower
    then interference_score + $10.0 else interference_score in
  let severity_score := $4.0 in
  let severity_score :=
    if Str.contains "large" desc_lower
    then severity_score + $8.0 else severity_score in
  let severity_score :=
    if Str.contains "80 feet" desc_lower || Str.contains "tall" desc_lower
    then severity_score + $12.0 else severity_score in
  let site_conditions_score := $2.0 in
  let site_conditions_score :=
    if Str.contains "concrete" desc_lower
    then site_conditions_score + $5.0 else site_conditions_score in
  let site_conditions_score :=
    if Str.contains "residential" desc_lower
    then site_conditions_score + $3.0 else site_conditions_score in
  let composite_score :=
    access_score * $0.20 +
    fall_zone_score * $0.25 +
    interference_score * $0.20 +
    severity_score * $0.30 +
    site_conditions_score * $0.05 in
  let '(complexity, multiplier_range) :=
    if composite_score <=? $28 then ("low", ($1.12, $1.28))
    else if composite_score <=? $46 then ("moderate", ($1.45, $1.85))
    else if composite_score <=? $58 then ("high", ($2.1, $2.8))
    else ("extreme", ($2.5, $3.5)) in
  {| access_score := access_score;
     fall_zone_score := fall_zone_score;
     interference_score := interference_score;
     severity_score := severity_score;
     site_conditions_score := site_conditions_score;
     composite_score := composite_score;
     complexity := complexity;
     multiplier_range := multiplier_range;
     afiss_bonus := composite_score * $2.5 |}.

(** [pph_rates.get(complexity, 350)] *)
Definition pph_rates (complexity : string) : F :=
  if String.eqb complexity "low" then $400
  else if String.eqb complexity "moderate" then $350
  else if String.eqb complexity "high" then $280
  else if String.eqb complexity "extreme" then $220
  else $350.

Definition estimate_project_hours (total_treescore : F) (complexity : string) : F :=
  let pph := pph_rates complexity in
  let hours := total_treescore / pph in
  pymax $2.0 hours.

End Defs.
End Demo.

(** ** Statement vocabulary: ranges, scenarios and orders used below *)

Local Open Scope Q_scope.

Module AFISSSpec.
Import AFISS.

Definition in_range (d : DomainScores (F:=Q)) : Prop :=
  (0 <= access d <= 100) /\ (0 <= fall_zone d <= 100) /\
  (0 <= interference d <= 100) /\ (0 <= severity d <= 100) /\
  (0 <= site_conditions d <= 100).

(** The weighted sum of the specification. *)
Definition weighted_sum (d : DomainScores (F:=Q)) : Q :=
  access d * 0.20 + fall_zone d * 0.25 + interference d * 0.20 +
  severity d * 0.30 + site_conditions d * 0.05.

Definition scenario : DomainScores (F:=Q) :=
  {| access := 15; fall_zone := 35; interference := 25;
     severity := 20; site_conditions := 8 |}.

Definition scenario64 : DomainScores (F:=float) :=
  {| access := of_Q 15; fall_zone := of_Q 35; interference := of_Q 25;
     severity := of_Q 20; site_conditions := of_Q 8 |}.

Definition all_scores64 (q : Q) : DomainScores (F:=float) :=
  {| access := of_Q q; fall_zone := of_Q q; interference := of_Q q;
     severity := of_Q q; site_conditions := of_Q q |}.

Definition tier_rank (c : ProjectComplexity) : nat :=
  match c with
  | LOW => 0
  | MODERATE => 1
  | HIGH => 2
  | EXTREME => 3
  end.

End AFISSSpec.

Module EquipmentSpec.
Import Equipment.

(** An explicit purchase price, when given, is not negative. *)
Definition price_ok (purchase_price : option Q) : Prop :=
  match purchase_price with
  | Some p => 0 <= p
  | None => True
  end.

(** A well-formed entry of [equipment_list]: a known category and a
    purchase price that is not negative. *)
Definition item_ok (e : EquipmentItem (F:=Q)) : Prop :=
  (exists c, EquipmentCategory_of_value (type e) = Ok c) /\
  price_ok (purchase_price e).

(** The seven cost components listed by the specification. *)
Definition components_sum (b : EquipmentCostBreakdown (F:=Q)) : Q :=
  depreciation_per_hour b + interest_per_hour b +
  insurance_taxes_storage_per_hour b + fuel_per_hour b +
  lubrication_per_hour b + repairs_maintenance_per_hour b +
  wear_parts_per_hour b.

End EquipmentSpec.

(** A clock reading used in the closed examples. *)
Definition clock0 : datetime.t :=
  {| datetime.year := 2025; datetime.month := 3; datetime.day := 9;
     datetime.hour := 14; datetime.minute := 5; datetime.second := 59 |}.

(** A reading later in the same year. *)
Definition clock0_later : datetime.t :=
  {| datetime.year := 2025; datetime.month := 11; datetime.day := 30;
     datetime.hour := 23; datetime.minute := 59; datetime.second := 1 |}.

(** A reading in the following year. *)
Definition clock1 : datetime.t :=
  {| datetime.year := 2026; datetime.month := 1; datetime.day := 2;
     datetime.hour := 8; datetime.minute := 30; datetime.second := 0 |}.

Module EmployeeSpec.
Import Employee.

(** The hourly rate a call works with: the one given, else the base rate
    of the position. *)
Definition effective_rate (p : EmployeePosition) (hourly_rate : option Q) : Q :=
  match hourly_rate with
  | Some r => r
  | None => position_base_rates __init__ p
  end.

(** An explicit hourly rate, when given, is positive. *)
Definition rate_ok (hourly_rate : option Q) : Prop :=
  match hourly_rate with
  | Some r => 0 < r
  | None => True
  end.

(** A well-formed entry of [crew_composition]: a known position and a
    positive hourly rate. *)
Definition member_ok (m : CrewMember (F:=Q)) : Prop :=
  (exists p, EmployeePosition_of_value (member_position m) = Ok p) /\
  rate_ok (member_hourly_rate m).

End EmployeeSpec.

Module LoadoutSpec.
Import Loadout.

Section Generic.
Context {F : Type} `{PyFloat F}.
Local Open Scope string_scope.
Local Open Scope py_scope.

(** The default pricing engine with its margin table replaced: what a
    caller obtains by assigning to [target_profit_margins]. *)
Definition with_margins (m : ProjectType -> F) : LoadoutPricingIntelligence (F:=F) :=
  {| equipment_engine := Equipment.__init__;
     employee_calculator := Employee.__init__;
     target_profit_margins := m;
     competitive_rates := competitive_rates __init__ |}.

(** The residential crew with one bucket truck, entered at a negative
    purchase price. *)
Definition negative_price_loadout : LoadoutConfiguration (F:=F) :=
  {| name := "negative price";
     project_type := TREE_REMOVAL;
     equipment_list :=
       [ {| Equipment.type := "bucket_truck";
            Equipment.item_make_model := None;
            Equipment.purchase_price := Some ($0 - $10000000);
            Equipment.year := None |} ];
     crew_composition := crew_composition residential_tree_service;
     location_state := Employee.FLORIDA;
     severity_factor := Equipment.STANDARD_WORK |}.

(** The residential template without its crew. *)
Definition no_crew_loadout : LoadoutConfiguration (F:=F) :=
  {| name := "no crew";
     project_type := TREE_REMOVAL;
     equipment_list := equipment_list residential_tree_service;
     crew_composition := [];
     location_state := Employee.FLORIDA;
     severity_factor := Equipment.STANDARD_WORK |}.

End Generic.

(** A well-formed loadout: known equipment categories with prices that are
    not negative, and a non-empty crew of known positions with positive
    hourly rates. *)
Definition well_formed (c : LoadoutConfiguration (F:=Q)) : Prop :=
  Forall EquipmentSpec.item_ok (equipment_list c) /\
  crew_composition c <> [] /\
  Forall EmployeeSpec.member_ok (crew_composition c).

(** [x] rounds to [y] at two decimals. *)
Definition approx2 (x y : Q) : Prop := Qabs (x - y) <= 0.005.

End LoadoutSpec.

(** Results with their time-stamped identifiers blanked: what two calls at
    different clock readings can be compared on. *)
Module ClockSpec.
Section Generic.
Context {F : Type} `{PyFloat F}.
Local Open Scope string_scope.

Definition forget_equipment_id (b : Equipment.EquipmentCostBreakdown (F:=F))
  : Equipment.EquipmentCostBreakdown :=
  {| Equipment.equipment_id := "";
     Equipment.bd_category := Equipment.bd_category b;
     Equipment.make_model := Equipment.make_model b;
     Equipment.depreciation_per_hour := Equipment.depreciation_per_hour b;
     Equipment.interest_per_hour := Equipment.interest_per_hour b;
     Equipment.insurance_taxes_storage_per_hour :=
       Equipment.insurance_taxes_storage_per_hour b;
     Equipment.total_ownership_per_hour := Equipment.total_ownership_per_hour b;
     Equipment.fuel_per_hour := Equipment.fuel_per_hour b;
     Equipment.lubrication_per_hour := Equipment.lubrication_per_hour b;
     Equipment.repairs_maintenance_per_hour :=
       Equipment.repairs_maintenance_per_hour b;
     Equipment.wear_parts_per_hour := Equipment.wear_parts_per_hour b;
     Equipment.total_operating_per_hour := Equipment.total_operating_per_hour b;
     Equipment.total_cost_per_hour := Equipment.total_cost_per_hour b;
     Equipment.severity_factor := Equipment.severity_factor b;
     Equipment.severity_adjusted_cost := Equipment.severity_adjusted_cost b |}.

Definition forget_equipment_ids (d : Equipment.LoadoutEquipmentCost (F:=F))
  : Equipment.LoadoutEquipmentCost :=
  {| Equipment.equipment_details :=
       map forget_equipment_id (Equipment.equipment_details d);
     Equipment.heavy_total_cost_per_hour := Equipment.heavy_total_cost_per_hour d;
     Equipment.category_breakdown := Equipment.category_breakdown d;
     Equipment.small_tools_total_cost_per_hour :=
       Equipment.small_tools_total_cost_per_hour d;
     Equipment.total_equipment_cost_per_hour :=
       Equipment.total_equipment_cost_per_hour d;
     Equipment.heavy_equipment_percentage := Equipment.heavy_equipment_percentage d;
     Equipment.small_tools_percentage := Equipment.small_tools_percentage d;
     Equipment.crew_configuration := Equipment.crew_configuration d;
     Equipment.loadout_severity_factor := Equipment.loadout_severity_factor d |}.

Definition forget_employee_id (b : Employee.EmployeeCostBreakdown (F:=F))
  : Employee.EmployeeCostBreakdown :=
  {| Employee.employee_id := "";
     Employee.position := Employee.position b;
     Employee.location_state := Employee.location_state b;
     Employee.hourly_rate := Employee.hourly_rate b;
     Employee.annual_base_wages := Employee.annual_base_wages b;
     Employee.payroll_taxes := Employee.payroll_taxes b;
     Employee.unemployment_taxes := Employee.unemployment_taxes b;
     Employee.workers_compensation := Employee.workers_compensation b;
     Employee.health_insurance := Employee.health_insurance b;
     Employee.equipment_ppe := Employee.equipment_ppe b;
     Employee.vehicle_allocation := Employee.vehicle_allocation b;
     Employee.training_certification := Employee.training_certification b;
     Employee.overhead_allocation := Employee.overhead_allocation b;
     Employee.total_annual_burden := Employee.total_annual_burden b;
     Employee.total_scheduled_hours := Employee.total_scheduled_hours b;
     Employee.non_productive_hours := Employee.non_productive_hours b;
     Employee.productive_hours := Employee.productive_hours b;
     Employee.total_annual_cost := Employee.total_annual_cost b;
     Employee.true_hourly_cost := Employee.true_hourly_cost b;
     Employee.burden_multiplier := Employee.burden_multiplier b;
     Employee.productive_hour_percentage := Employee.productive_hour_percentage b;
     Employee.cost_per_productive_hour := Employee.cost_per_productive_hour b |}.

Definition forget_totals_ids (t : Employee.CrewTotals (F:=F))
  : Employee.CrewTotals :=
  {| Employee.crew_members := map forget_employee_id (Employee.crew_members t);
     Employee.total_hourly_rate := Employee.total_hourly_rate t;
     Employee.total_true_cost := Employee.total_true_cost t;
     Employee.total_burden_cost := Employee.total_burden_cost t |}.

Definition forget_crew_ids (s : Employee.CrewCostSummary (F:=F))
  : Employee.CrewCostSummary :=
  {| Employee.summary_crew_members :=
       map forget_employee_id (Employee.summary_crew_members s);
     Employee.total_base_hourly_rate := Employee.total_base_hourly_rate s;
     Employee.total_true_hourly_cost := Employee.total_true_hourly_cost s;
     Employee.total_burden_cost_per_hour := Employee.total_burden_cost_per_hour s;
     Employee.average_burden_multiplier := Employee.average_burden_multiplier s;
     Employee.crew_size := Employee.crew_size s;
     Employee.summary_location_state := Employee.summary_location_state s |}.

Definition forget_loadout_id (b : Loadout.LoadoutPricingBreakdown (F:=F))
  : Loadout.LoadoutPricingBreakdown :=
  {| Loadout.loadout_id := "";
     Loadout.configuration := Loadout.configuration b;
     Loadout.equipment_cost_per_hour := Loadout.equipment_cost_per_hour b;
     Loadout.heavy_equipment_cost := Loadout.heavy_equipment_cost b;
     Loadout.small_tools_cost := Loadout.small_tools_cost b;
     Loadout.employee_cost_per_hour := Loadout.employee_cost_per_hour b;
     Loadout.base_wages_per_hour := Loadout.base_wages_per_hour b;
     Loadout.burden_cost_per_hour := Loadout.burden_cost_per_hour b;
     Loadout.total_cost_per_hour := Loadout.total_cost_per_hour b;
     Loadout.recommended_billing_rate := Loadout.recommended_billing_rate b;
     Loadout.profit_margin_percentage := Loadout.profit_margin_percentage b;
     Loadout.break_even_rate := Loadout.break_even_rate b;
     Loadout.competitive_rate_range := Loadout.competitive_rate_range b;
     Loadout.cost_efficiency_score := Loadout.cost_efficiency_score b;
     Loadout.profitability_score := Loadout.profitability_score b |}.

End Generic.
End ClockSpec.

(** ** Further statement vocabulary *)

Module EmployeeTables.
Import Employee.

(** One plus the wage-proportional burden rates that apply in a state:
    payroll tax, federal and state unemployment, workers' compensation
    and overhead, the middle two read from the state table. *)
Definition wage_factor (st : LocationState) : Q :=
  let bf := default_burden_factors (F:=Q) __init__ in
  match state_adjustments (F:=Q) __init__ st with
  | Some adj =>
      1 + payroll_taxes_rate bf +
      (federal_unemployment_rate bf + adj_state_unemployment_rate adj) +
      adj_workers_comp_rate adj + overhead_allocation_rate bf
  | None =>
      1 + payroll_taxes_rate bf +
      (federal_unemployment_rate bf + state_unemployment_rate bf) +
      workers_comp_rate bf + overhead_allocation_rate bf
  end.

(** The fixed annual costs per employee: health insurance, PPE, vehicle
    and training. *)
Definition fixed_annual : Q :=
  let bf := default_burden_factors (F:=Q) __init__ in
  health_insurance_annual bf + equipment_ppe_annual bf +
  vehicle_allocation_annual bf + training_certification_annual bf.

(** Weather delay hours of a state. *)
Definition state_weather (st : LocationState) : Z :=
  match state_adjustments (F:=Q) __init__ st with
  | Some adj => adj_weather_delay_hours adj
  | None => weather_delay_hours (default_non_productive_time (F:=Q) __init__)
  end.

(** Productive hours in a state with the default non-productive time. *)
Definition state_productive_hours (st : LocationState) : Z :=
  let t := default_non_productive_time (F:=Q) __init__ in
  standard_annual_hours (F:=Q) __init__ -
  (pto_sick_hours t + training_hours t + equipment_maintenance_downtime t +
   state_weather st + administrative_time t).

Section Generic.
Context {F : Type} `{PyFloat F}.

(** Burden factors that agree on everything but the two rates the state
    table sets. *)
Definition same_but_state_rates (a b : EmployeeBurdenFactors (F:=F)) : Prop :=
  payroll_taxes_rate a = payroll_taxes_rate b /\
  federal_unemployment_rate a = federal_unemployment_rate b /\
  health_insurance_annual a = health_insurance_annual b /\
  equipment_ppe_annual a = equipment_ppe_annual b /\
  vehicle_allocation_annual a = vehicle_allocation_annual b /\
  training_certification_annual a = training_certification_annual b /\
  overhead_allocation_rate a = overhead_allocation_rate b.

End Generic.

(** Non-productive times that agree on everything but the weather delay. *)
Definition same_but_weather (a b : NonProductiveTime) : Prop :=
  pto_sick_hours a = pto_sick_hours b /\
  training_hours a = training_hours b /\
  equipment_maintenance_downtime a = equipment_maintenance_downtime b /\
  administrative_time a = administrative_time b.

(** Non-productive hours of a custom schedule once the weather delay of
    the state has replaced its own. *)
Definition adjusted_non_productive (t : NonProductiveTime) (st : LocationState) : Z :=
  pto_sick_hours t + training_hours t + equipment_maintenance_downtime t +
  state_weather st + administrative_time t.

End EmployeeTables.

Module EquipmentTables.
Import Equipment.

(** The order of the severity factors by their multiplier. *)
Definition sev_le (s1 s2 : SeverityFactor) : Prop :=
  SeverityFactor_value (F:=Q) s1 <= SeverityFactor_value s2.

(** The price the cost calculation works with: the purchase price when
    one is given, else the list price of the category, depreciated by 8%
    for every year of age when a model year before the current one is
    given. *)
Definition priced_at (now : datetime.t) (cat : EquipmentCategory)
    (pp : option Q) (yr : option Z) : Q :=
  match pp with
  | Some p => p
  | None =>
      if is_used yr now then
        msrp_new (equipment_defaults (F:=Q) __init__ cat) *
        pypow (1 - 0.08)
          (Z.to_nat (datetime.year now - match yr with Some y => y | None => 0 end))
      else msrp_new (equipment_defaults (F:=Q) __init__ cat)
  end.

(** How many of a thing the small tools pool bills: the entry of the crew
    configuration when present, else nothing. *)
Definition billed (k : string) (crew_config : dict Z) : Q :=
  match dict_get k crew_config with
  | Some n => inject_Z n
  | None => 0
  end.

(** The head count the per-person categories bill. *)
Definition people (crew_config : dict Z) : Q :=
  inject_Z (dict_get_default "climbers"%string 0%Z crew_config +
            dict_get_default "ground_crew"%string 0%Z crew_config).

End EquipmentTables.

Module LoadoutTables.

(** The positions counted as climbers. *)
Definition is_climber (p : string) : bool :=
  (String.eqb p "isa_certified_arborist" ||
   String.eqb p "experienced_climber")%bool.

End LoadoutTables.

Module RaiseDefs.
Import Loadout Employee.

(** A crew member and the same member at a higher hourly rate. *)
Definition raised_member (m m' : CrewMember (F:=Q)) : Prop :=
  member_position m' = member_position m /\
  exists r r',
    member_hourly_rate m = Some r /\ member_hourly_rate m' = Some r' /\
    0 < r /\ r < r'.

(** Two loadouts that differ in the hourly rates of the crew only, the
    second paying every member more. *)
Definition raised_crew (cfg cfg' : LoadoutConfiguration (F:=Q)) : Prop :=
  project_type cfg' = project_type cfg /\
  equipment_list cfg' = equipment_list cfg /\
  Loadout.location_state cfg' = Loadout.location_state cfg /\
  severity_factor cfg' = severity_factor cfg /\
  Forall2 raised_member (crew_composition cfg) (crew_composition cfg').

End RaiseDefs.

Module OptimizeDefs.
Import Loadout Scenarios.
Local Open Scope string_scope.

(** The hourly rate and the position stored at an address. *)
Definition rate_at (h : Heap (F:=Q)) (r : ref) : option Q :=
  match nth_error h r with
  | Some m => Employee.member_hourly_rate m
  | None => None
  end.

Definition position_at (h : Heap (F:=Q)) (r : ref) : option string :=
  option_map (@Employee.member_position Q) (nth_error h r).

(** The template dictionary and the heap after [__init__]. *)
Definition templates0 : dict (LoadoutObject (F:=Q)) :=
  fst _initialize_loadout_templates.
Definition heap0 : Heap (F:=Q) := snd _initialize_loadout_templates.

(** Every crew member of every template has an hourly rate. *)
Definition templates_rated (h : Heap (F:=Q)) : Prop :=
  forall k o r,
    dict_get k templates0 = Some o -> In r (object_crew_composition o) ->
    exists x, rate_at h r = Some x.

(** The heap after [n] calls with the same requirements, starting from
    the heap after [__init__]. *)
Fixpoint after_calls (project_requirements : dict string) (n : nat) : Heap (F:=Q) :=
  match n with
  | O => heap0
  | S k =>
      snd (optimize_loadout_for_project templates0 project_requirements
             (after_calls project_requirements k))
  end.

(** The names the optimiser gives. *)
Definition optimized_name (project_type : ProjectType) : string :=
  match project_type with
  | TREE_REMOVAL => "Optimized Tree Removal Loadout"
  | TREE_TRIMMING => "Optimized Tree Trimming Loadout"
  | FORESTRY_MULCHING => "Optimized Forestry Mulching Loadout"
  | STUMP_GRINDING => "Optimized Stump Grinding Loadout"
  | EMERGENCY_RESPONSE => "Optimized Emergency Response Loadout"
  | LOT_CLEARING => "Optimized Lot Clearing Loadout"
  end.

(** The three entries of the requirements a call reads, with their
    defaults. *)
Definition requested_type (project_requirements : dict string) : string :=
  dict_get_default "project_type" "tree_removal" project_requirements.
Definition requested_state (project_requirements : dict string) : string :=
  dict_get_default "location_state" "florida" project_requirements.
Definition requested_complexity (project_requirements : dict string) : string :=
  dict_get_default "complexity" "standard" project_requirements.

End OptimizeDefs.

(** A check over both values of a flag, for statements decided by
    evaluation. *)
Definition allb (p : bool -> bool) : bool := p true && p false.
(** * Theorems *)

(** Case analysis on the comparisons of the exact-arithmetic instance. *)
Lemma Qle_bool_false (x y : Q) : Qle_bool x y = false -> y < x.
Proof.
  intro E. apply Qnot_le_lt. intro L.
  apply Qle_bool_iff in L. congruence.
Qed.

Lemma Qeq_bool_false (x y : Q) : Qeq_bool x y = false -> ~ x == y.
Proof.
  intros E L. apply Qeq_bool_iff in L. congruence.
Qed.

Ltac qcase :=
  match goal with
  | |- context [Qle_bool ?a ?b] =>
      let E := fresh "E" in
      destruct (Qle_bool a b) eqn:E;
      [apply Qle_bool_iff in E | apply Qle_bool_false in E]
  | |- context [Qeq_bool ?a ?b] =>
      let E := fresh "E" in
      destruct (Qeq_bool a b) eqn:E;
      [apply Qeq_bool_iff in E | apply Qeq_bool_false in E]
  end.

Ltac qcases := repeat (qcase; cbn [negb]).


(** Division in the error monad, at the exact-arithmetic instance. *)
Lemma truediv_ok (a b : Q) : ~ b == 0 -> truediv a b = Ok (a / b).
Proof.
  intro Hb. unfold truediv; cbn.
  destruct (Qeq_bool b 0) eqn:E; [| reflexivity].
  apply Qeq_bool_iff in E. contradiction.
Qed.

Lemma truediv_zero (a b : Q) : b == 0 -> truediv a b = Raise ZeroDivisionError.
Proof.
  intro Hb. unfold truediv; cbn.
  apply Qeq_bool_iff in Hb. now rewrite Hb.
Qed.

Lemma truediv_inv (a b r : Q) : truediv a b = Ok r -> ~ b == 0 /\ r = a / b.
Proof.
  unfold truediv; cbn.
  destruct (Qeq_bool b 0) eqn:E; [discriminate |].
  intro E'. injection E' as <-. split; [| reflexivity].
  now apply Qeq_bool_false.
Qed.

Lemma Qdiv_pos (x y : Q) : 0 < x -> 0 < y -> 0 < x / y.
Proof.
  intros Hx Hy. apply Qlt_shift_div_l; [exact Hy | lra].
Qed.

Lemma Qdiv_nonneg (x y : Q) : 0 <= x -> 0 < y -> 0 <= x / y.
Proof.
  intros Hx Hy. apply Qle_shift_div_l; [exact Hy | lra].
Qed.

(** Reduce the embedding while keeping rational arithmetic folded. *)
Ltac pycbn :=
  cbn -[Qplus Qmult Qminus Qdiv Qinv Qopp Qeq_bool Qle_bool Qeq Qle Qlt of_int].
Ltac pycbn_in H :=
  cbn -[Qplus Qmult Qminus Qdiv Qinv Qopp Qeq_bool Qle_bool Qeq Qle Qlt of_int]
    in H.

(** Integers as rationals, in the form [lra] reads. *)
Ltac of_int_norm :=
  unfold of_int in *; cbn [of_Q Q_float] in *; unfold inject_Z in *.

(** A closed rational is not zero. *)
Ltac nonzero :=
  let E := fresh "E" in intro E; vm_compute in E; discriminate E.

(** Turn divisions by closed rationals into products, for [lra]. *)
Ltac qinv_const :=
  unfold Qdiv;
  repeat match goal with
  | |- context [Qinv ?c] =>
      let v := eval vm_compute in (Qinv c) in
      progress change (Qinv c) with v
  end.

Lemma of_int_nonneg (n : Z) : (0 <= n)%Z -> 0 <= of_int (F:=Q) n.
Proof.
  intro Hn. unfold of_int; cbn. unfold Qle; cbn. lia.
Qed.

Lemma pypow_pos (x : Q) (n : nat) : 0 < x -> 0 < pypow x n.
Proof.
  intro Hx. induction n as [| n IH]; cbn -[Qmult Qlt].
  - reflexivity.
  - apply Qmult_lt_0_compat; assumption.
Qed.
Module AFISSFacts.
Import AFISS AFISSSpec.

Lemma composite_parse (d : DomainScores (F:=Q)) :
  composite_score (_parse_assessment_response d) = weighted_sum d.
Proof.
  unfold _parse_assessment_response.
  destruct (_determine_complexity _) as [c m]. reflexivity.
Qed.

Lemma composite_assess (d : DomainScores (F:=Q)) :
  composite_score (assess_project d) == weighted_sum d.
Proof.
  unfold assess_project.
  destruct (_determine_complexity _) as [c m].
  unfold weighted_sum, pysum; cbn. ring.
Qed.

Lemma weighted_sum_bounds (d : DomainScores (F:=Q)) :
  in_range d -> 0 <= weighted_sum d <= 100.
Proof.
  unfold in_range, weighted_sum.
  intros (Ha & Hf & Hi & Hs & Hc). split; lra.
Qed.

(** C1: for domain scores in [0,100] the composite score of both scorers
    is the weighted sum with weights 0.20, 0.25, 0.20, 0.30, 0.05 and lies
    in [0,100]; the scenario 15/35/25/20/8 scores 23.15, tier low, with
    multiplier range (1.12, 1.28). *)
Theorem composite_score_weighted_sum :
  (forall d : DomainScores (F:=Q), in_range d ->
     composite_score (_parse_assessment_response d) ==
       access d * 0.20 + fall_zone d * 0.25 + interference d * 0.20 +
       severity d * 0.30 + site_conditions d * 0.05 /\
     composite_score (assess_project d) ==
       composite_score (_parse_assessment_response d) /\
     0 <= composite_score (_parse_assessment_response d) <= 100 /\
     0 <= composite_score (assess_project d) <= 100) /\
  (composite_score (_parse_assessment_response scenario) == 23.15 /\
   complexity (_parse_assessment_response scenario) = LOW /\
   value (complexity (_parse_assessment_response scenario)) = "low"%string /\
   multiplier_range (_parse_assessment_response scenario) = (1.12, 1.28)).
Proof.
  split.
  - intros d Hd.
    pose proof (weighted_sum_bounds Hd) as Hb.
    pose proof (composite_assess d) as Ha.
    rewrite composite_parse. fold (weighted_sum d).
    repeat split; try reflexivity; try tauto; rewrite ?Ha; tauto.
  - repeat split; reflexivity.
Qed.

Lemma composite_score_weighted_sum_witness :
  in_range scenario /\
  0 <= composite_score (_parse_assessment_response scenario) <= 100.
Proof.
  assert (Hr : in_range scenario).
  { unfold in_range, scenario; cbn. repeat split; lra. }
  split; [exact Hr |].
  exact (proj1 (proj2 (proj2 (proj1 composite_score_weighted_sum scenario Hr)))).
Defined.

(** The same scenario evaluated in binary64: the composite is the double
    nearest to 23.15 and the tier is low; the extreme inputs, all 0 and all
    100, score exactly 0 and 100. *)
Example composite_score_binary64 :
  composite_score (_parse_assessment_response scenario64) = of_Q 23.15 /\
  composite_score (assess_project scenario64) = of_Q 23.15 /\
  complexity (_parse_assessment_response scenario64) = LOW /\
  composite_score (_parse_assessment_response (all_scores64 0)) = of_Q 0 /\
  composite_score (_parse_assessment_response (all_scores64 100)) = of_Q 100.
Proof. repeat split; vm_compute; reflexivity. Qed.

Lemma determine_complexity_cases (s : Q) :
  (s <= 28 /\ _determine_complexity s = (LOW, (1.12, 1.28))) \/
  (28 < s /\ s <= 46 /\ _determine_complexity s = (MODERATE, (1.45, 1.85))) \/
  (46 < s /\ s <= 58 /\ _determine_complexity s = (HIGH, (2.1, 2.8))) \/
  (58 < s /\ _determine_complexity s = (EXTREME, (2.5, 3.5))).
Proof.
  unfold _determine_complexity; cbn.
  qcases; auto 10.
Qed.

(** C2: the tier breakpoints are 28, 46 and 58 with [<=] semantics and the
    stated multiplier ranges; 28 is low and 28.01 is moderate; the tier
    never decreases when the composite score increases. *)
Theorem determine_complexity_breakpoints :
  (forall s : Q,
     (s <= 28 -> _determine_complexity s = (LOW, (1.12, 1.28))) /\
     (28 < s -> s <= 46 ->
        _determine_complexity s = (MODERATE, (1.45, 1.85))) /\
     (46 < s -> s <= 58 -> _determine_complexity s = (HIGH, (2.1, 2.8))) /\
     (58 < s -> _determine_complexity s = (EXTREME, (2.5, 3.5)))) /\
  (fst (_determine_complexity 28) = LOW /\
   fst (_determine_complexity 28.01) = MODERATE /\
   fst (_determine_complexity 46) = MODERATE /\
   fst (_determine_complexity 58) = HIGH) /\
  (forall s t : Q, s <= t ->
     (tier_rank (fst (_determine_complexity s)) <=
      tier_rank (fst (_determine_complexity t)))%nat).
Proof.
  split; [| split].
  - intro s.
    destruct (determine_complexity_cases s)
      as [(L & E) | [(L1 & L2 & E) | [(L1 & L2 & E) | (L & E)]]];
      rewrite E; repeat split; intros; first [reflexivity | lra].
  - repeat split; reflexivity.
  - intros s t Hst.
    destruct (determine_complexity_cases s)
      as [(L & E) | [(L1 & L2 & E) | [(L1 & L2 & E) | (L & E)]]];
      destruct (determine_complexity_cases t)
      as [(M & E') | [(M1 & M2 & E') | [(M1 & M2 & E') | (M & E')]]];
      rewrite E, E'; cbn; first [lia | lra].
Qed.

Lemma determine_complexity_breakpoints_witness :
  _determine_complexity (F:=Q) 40 = (MODERATE, (1.45, 1.85)) /\
  (tier_rank (fst (_determine_complexity (F:=Q) 28%Q)) <=
   tier_rank (fst (_determine_complexity (F:=Q) 28.01%Q)))%nat.
Proof.
  split.
  - apply (proj1 (proj2 (proj1 determine_complexity_breakpoints 40))); lra.
  - apply (proj2 (proj2 determine_complexity_breakpoints) 28 28.01). lra.
Defined.

End AFISSFacts.

Module TreeScoreFacts.
Import TreeScore.
Local Open Scope string_scope.

Lemma Qmult_nonpos_nonneg (x y : Q) : x <= 0 -> 0 <= y -> x * y <= 0.
Proof.
  intros Hx Hy.
  assert (0 <= (- x) * y) by (apply Qmult_le_0_compat; lra).
  lra.
Qed.

(** C5: for service type removal the TreeScore of both implementations is
    height * (canopy_radius * 2) * (dbh / 12); for height 80, canopy
    radius 30 and DBH 36 the base points are 14400. *)
Theorem treescore_removal :
  (forall h c d : Q, 0 < h -> 0 < c -> 0 < d ->
     _extract_treescore h c d "removal" = h * (c * 2) * (d / 12) /\
     calculate_treescore h c d "removal" = h * (c * 2) * (d / 12)) /\
  _extract_treescore 80 30 36 "removal" == 14400 /\
  calculate_treescore 80 30 36 "removal" == 14400.
Proof.
  split; [| split].
  - intros h c d _ _ _. split; reflexivity.
  - reflexivity.
  - reflexivity.
Qed.

Lemma treescore_removal_witness :
  _extract_treescore 50 20 24 "removal" = 50 * (20 * 2) * (24 / 12) /\
  _extract_treescore 50 20 24 "removal" == 4000.
Proof.
  split.
  - apply (proj1 treescore_removal 50 20 24); reflexivity.
  - rewrite (proj1 (proj1 treescore_removal 50 20 24 eq_refl eq_refl eq_refl)).
    reflexivity.
Defined.

(** The scenario in binary64: exactly 14400.0. *)
Example treescore_removal_binary64 :
  _extract_treescore (F:=float) (of_Q 80) (of_Q 30) (of_Q 36) "removal"
    = of_Q 14400 /\
  calculate_treescore (F:=float) (of_Q 80) (of_Q 30) (of_Q 36) "removal"
    = of_Q 14400.
Proof. split; vm_compute; reflexivity. Qed.

(** C8, as stated, fails: a negative height is not rejected, the
    calculation returns the negative number -100; a zero height returns 0. *)
Lemma treescore_accepts_nonpositive_height :
  _extract_treescore (-10) 5 12 "removal" == -100 /\
  ~ 0 <= _extract_treescore (-10) 5 12 "removal" /\
  calculate_treescore (-10) 5 12 "removal" == -100 /\
  ~ 0 <= calculate_treescore (-10) 5 12 "removal" /\
  _extract_treescore 0 5 12 "removal" == 0 /\
  _extract_treescore 80 30 0 "removal" == 0.
Proof.
  repeat split; try reflexivity; intro L; vm_compute in L; apply L; reflexivity.
Qed.

Lemma treescore_nonneg (f : Q -> Q -> Q -> string -> Q) (h c d : Q)
    (st : string) :
  (f = _extract_treescore \/ f = calculate_treescore) ->
  0 <= h -> 0 <= c -> 0 <= d -> 0 <= f h c d st.
Proof.
  intros Hf Hh Hc Hd.
  assert (H12 : 0 <= d / 12) by (apply Qdiv_nonneg; lra).
  assert (H24 : 0 <= d / 24) by (apply Qdiv_nonneg; lra).
  destruct Hf; subst f; unfold _extract_treescore, calculate_treescore;
    cbn -[Qdiv Qmult Qplus Qle];
    destruct (String.eqb st "removal");
    try destruct (String.eqb st "stump_grinding");
    repeat apply Qmult_le_0_compat; first [assumption | lra | now vm_compute].
Qed.

(** C8, amended: on non-negative height, canopy radius and DBH every
    service type yields base points >= 0; the calculation validates
    nothing, so for a height <= 0 (other dimensions non-negative) removal
    returns a number <= 0 rather than failing. *)
Theorem treescore_base_points_nonneg (h c d : Q) (st : string) :
  0 <= c -> 0 <= d ->
  (0 <= h ->
     0 <= _extract_treescore h c d st /\ 0 <= calculate_treescore h c d st) /\
  (h <= 0 ->
     _extract_treescore h c d "removal" <= 0 /\
     calculate_treescore h c d "removal" <= 0).
Proof.
  intros Hc Hd. split.
  - intro Hh. split; apply treescore_nonneg; auto.
  - intro Hh.
    assert (0 <= d / 12) by (apply Qdiv_nonneg; lra).
    assert (E : forall x y z : Q, x * y * z == x * (y * z)) by (intros; ring).
    split; cbn; rewrite E; apply Qmult_nonpos_nonneg; try assumption;
      apply Qmult_le_0_compat; lra.
Qed.

Lemma treescore_base_points_nonneg_witness :
  0 <= _extract_treescore 80 30 36 "trimming" /\
  _extract_treescore (-10) 5 12 "removal" <= 0.
Proof.
  split.
  - apply (proj1 (@treescore_base_points_nonneg 80 30 36 "trimming"
                    ltac:(lra) ltac:(lra))); lra.
  - apply (proj2 (@treescore_base_points_nonneg (-10) 5 12 "removal"
                    ltac:(lra) ltac:(lra))); lra.
Defined.

End TreeScoreFacts.

Module EquipmentFacts.
Import Equipment EquipmentSpec.

(** The cost of one machine with the default engine: the call returns, the
    total is the sum of the seven components, and a non-negative price
    gives a positive total. *)
Lemma calculate_equipment_cost_total now cat mk pp yr sev :
  exists b,
    calculate_equipment_cost (F:=Q) __init__ now cat mk pp yr sev = Ok b /\
    total_cost_per_hour b == components_sum b /\
    (price_ok pp -> 0 < total_cost_per_hour b).
Proof.
  unfold calculate_equipment_cost.
  match goal with
  | |- context [truediv (fsub ?p _) _] => set (P := p)
  end.
  assert (HP : price_ok pp -> 0 <= P).
  { subst P. destruct pp as [p |]; cbn -[Qle]; [tauto | intros _].
    destruct (is_used yr now).
    - apply Qmult_le_0_compat; [destruct cat; now vm_compute |].
      apply Qlt_le_weak, pypow_pos. reflexivity.
    - destruct cat; now vm_compute. }
  clearbody P.
  rewrite !truediv_ok by (try destruct cat; nonzero).
  pycbn. eexists; split; [reflexivity |]. pycbn. split.
  - unfold components_sum; pycbn. ring.
  - intro Hpp. specialize (HP Hpp).
    destruct cat, sev; pycbn; of_int_norm; qinv_const; lra.
Qed.

(** C7: for every equipment category (any severity, price and year) the
    equipment cost returns a breakdown whose total_cost_per_hour is the sum
    of depreciation, interest, insurance/taxes/storage, fuel, lubrication,
    repairs/maintenance and wear parts; for a bucket truck at the default
    MSRP the depreciation is 11.55 per hour and the fuel 27.625 per hour. *)
Theorem equipment_total_is_sum_of_components :
  (forall now cat mk pp yr sev, exists b,
     calculate_equipment_cost (F:=Q) __init__ now cat mk pp yr sev = Ok b /\
     total_cost_per_hour b ==
       depreciation_per_hour b + interest_per_hour b +
       insurance_taxes_storage_per_hour b + fuel_per_hour b +
       lubrication_per_hour b + repairs_maintenance_per_hour b +
       wear_parts_per_hour b) /\
  (msrp_new (equipment_defaults (F:=Q) __init__ BUCKET_TRUCK) == 165000 /\
   life_hours (equipment_defaults (F:=Q) __init__ BUCKET_TRUCK) = 10000%Z /\
   salvage_percent (equipment_defaults (F:=Q) __init__ BUCKET_TRUCK) == 30 /\
   fuel_burn_gph (equipment_defaults (F:=Q) __init__ BUCKET_TRUCK) == 6.5 /\
   fuel_price (F:=Q) __init__ == 4.25) /\
  (forall now mk sev, exists b,
     calculate_equipment_cost (F:=Q) __init__ now BUCKET_TRUCK mk None None sev
       = Ok b /\
     depreciation_per_hour b == 11.55 /\
     fuel_per_hour b == 27.625).
Proof.
  split; [| split].
  - intros now cat mk pp yr sev.
    destruct (calculate_equipment_cost_total now cat mk pp yr sev)
      as (b & Hb & Hsum & _).
    exists b. split; [exact Hb | exact Hsum].
  - repeat split; reflexivity.
  - intros now mk sev.
    unfold calculate_equipment_cost.
    rewrite !truediv_ok by nonzero.
    pycbn. eexists; split; [reflexivity |]. pycbn. split; reflexivity.
Qed.

(** The bucket truck scenario in binary64: depreciation is the double
    nearest to 11.55, fuel is exactly 27.625, and the total differs from
    the flat sum of the seven components by less than 1e-9. *)
Example bucket_truck_binary64 :
  match calculate_equipment_cost (F:=float) __init__
          {| datetime.year := 2025; datetime.month := 3; datetime.day := 9;
             datetime.hour := 14; datetime.minute := 5; datetime.second := 59 |}
          BUCKET_TRUCK None None None STANDARD_WORK with
  | Ok b =>
      depreciation_per_hour b = of_Q 11.55 /\
      fuel_per_hour b = of_Q 27.625 /\
      PrimFloat.ltb
        (PrimFloat.abs
           (total_cost_per_hour b -
            (depreciation_per_hour b + interest_per_hour b +
             insurance_taxes_storage_per_hour b + fuel_per_hour b +
             lubrication_per_hour b + repairs_maintenance_per_hour b +
             wear_parts_per_hour b))%float)
        (of_Q (1 # 1000000000)) = true
  | Raise _ => False
  end.
Proof. vm_compute. repeat split. Qed.

End EquipmentFacts.

Module EmployeeFacts.
Import Employee EmployeeSpec.

Lemma effective_rate_pos (p : EmployeePosition) (r : option Q) :
  rate_ok r -> 0 < effective_rate p r.
Proof.
  destruct r as [r |]; cbn -[Qlt]; [tauto | intros _].
  destruct p; reflexivity.
Qed.

(** With the default calculator and a positive hourly rate the call
    returns, reports the rate it was given and a true hourly cost above it. *)
Lemma calculate_true_hourly_cost_above_rate now p st r :
  rate_ok r ->
  exists b,
    calculate_true_hourly_cost (F:=Q) __init__ now p st r None None = Ok b /\
    hourly_rate b = effective_rate p r /\
    hourly_rate b < true_hourly_cost b.
Proof.
  intro Hr. apply (effective_rate_pos p) in Hr.
  unfold calculate_true_hourly_cost.
  fold (effective_rate p r). set (R := effective_rate p r) in *. clearbody R.
  assert (Hw : ~ R * of_int 2080 == 0).
  { intro E. of_int_norm. lra. }
  destruct st; pycbn;
    (rewrite truediv_ok by nonzero);
    (rewrite truediv_ok by exact Hw);
    (rewrite truediv_ok by nonzero);
    pycbn; (eexists; split; [reflexivity |]); pycbn;
    (split; [reflexivity |]);
    (apply Qlt_shift_div_l; [reflexivity |]);
    of_int_norm; lra.
Qed.

(** A zero hourly rate makes the burden multiplier a division by zero. *)
Lemma calculate_true_hourly_cost_zero_rate now p st :
  calculate_true_hourly_cost (F:=Q) __init__ now p st (Some 0) None None
    = Raise ZeroDivisionError.
Proof.
  unfold calculate_true_hourly_cost.
  destruct st; pycbn;
    (rewrite truediv_ok by nonzero);
    (rewrite truediv_zero by (of_int_norm; ring));
    reflexivity.
Qed.

(** C6, as stated, fails at hourly rate 0, which is non-negative: the call
    raises ZeroDivisionError and yields no true hourly cost; binary64
    agrees. *)
Lemma true_hourly_cost_zero_rate_raises :
  calculate_true_hourly_cost (F:=Q) __init__ clock0
    ISA_CERTIFIED_ARBORIST FLORIDA (Some 0) None None
    = Raise ZeroDivisionError /\
  calculate_true_hourly_cost (F:=float) __init__ clock0
    ISA_CERTIFIED_ARBORIST FLORIDA (Some (of_Q 0)) None None
    = Raise ZeroDivisionError.
Proof.
  split; [apply calculate_true_hourly_cost_zero_rate | vm_compute; reflexivity].
Qed.

(** C6, amended: for every position and state and every strictly positive
    hourly rate the call returns a breakdown for that rate whose
    true_hourly_cost is strictly greater than the rate; the same holds
    when the rate is omitted and the base rate of the position is used. *)
Theorem true_hourly_cost_exceeds_rate now p st (rate : Q) :
  0 < rate ->
  (exists b,
     calculate_true_hourly_cost (F:=Q) __init__ now p st (Some rate) None None
       = Ok b /\
     hourly_rate b = rate /\
     rate < true_hourly_cost b) /\
  (exists b,
     calculate_true_hourly_cost (F:=Q) __init__ now p st None None None
       = Ok b /\
     hourly_rate b = position_base_rates __init__ p /\
     hourly_rate b < true_hourly_cost b).
Proof.
  intro Hrate. split.
  - destruct (@calculate_true_hourly_cost_above_rate now p st (Some rate) Hrate)
      as (b & Hb & Hr & Hlt).
    exists b. cbn in Hr. rewrite Hr in Hlt. auto.
  - destruct (@calculate_true_hourly_cost_above_rate now p st None I)
      as (b & Hb & Hr & Hlt).
    exists b. auto.
Qed.

Lemma true_hourly_cost_exceeds_rate_witness :
  exists b,
    calculate_true_hourly_cost (F:=Q) __init__ clock0
      ISA_CERTIFIED_ARBORIST FLORIDA (Some 32) None None = Ok b /\
    hourly_rate b = 32 /\
    32 < true_hourly_cost b.
Proof.
  apply (@true_hourly_cost_exceeds_rate clock0 ISA_CERTIFIED_ARBORIST FLORIDA 32).
  reflexivity.
Defined.

End EmployeeFacts.

Module LoadoutFacts.
Import Loadout LoadoutSpec EquipmentSpec EmployeeSpec.

Lemma bind_inv {A B} (m : result A) (k : A -> result B) (b : B) :
  bind m k = Ok b -> exists a, m = Ok a /\ k a = Ok b.
Proof. destruct m as [a | e]; cbn; [eauto | discriminate]. Qed.

Lemma small_tools_total (c g ch : Z) :
  (0 <= c)%Z -> (0 <= g)%Z -> (0 <= ch)%Z ->
  exists t,
    dict_item "Total Small Tools Pool"
      (Equipment.calculate_small_tools_pool_cost (F:=Q) Equipment.__init__
         [("climbers"%string, c); ("ground_crew"%string, g);
          ("chainsaws"%string, ch); ("crews"%string, 1%Z)]) = Ok t /\
    0 < t.
Proof.
  intros Hc Hg Hch.
  pose proof (of_int_nonneg Hc) as Hc'.
  pose proof (of_int_nonneg Hg) as Hg'.
  pose proof (of_int_nonneg Hch) as Hch'.
  assert (Hcg : 0 <= of_int (F:=Q) (c + g)) by (apply of_int_nonneg; lia).
  unfold Equipment.calculate_small_tools_pool_cost. pycbn.
  eexists; split; [reflexivity |].
  set (x := of_int c) in *. set (y := of_int (c + g)) in *.
  set (z := of_int ch) in *. clearbody x y z.
  of_int_norm. lra.
Qed.

Lemma heavy_equipment_loop_ok now sev items costs acc :
  Forall item_ok items ->
  exists costs' total,
    Equipment.heavy_equipment_loop (F:=Q) Equipment.__init__ now sev items costs acc
      = Ok (costs', total) /\
    acc <= total.
Proof.
  intro Hok. revert costs acc.
  induction Hok as [| e items [[c Hc] Hp] _ IH]; intros costs acc.
  - cbn. exists costs, acc. split; [reflexivity | lra].
  - cbn [Equipment.heavy_equipment_loop]. rewrite Hc. cbn [bind].
    destruct (EquipmentFacts.calculate_equipment_cost_total now c
                (Equipment.item_make_model e) (Equipment.purchase_price e)
                (Equipment.year e) sev) as (b & Hb & _ & Hpos).
    rewrite Hb. cbn [bind].
    destruct (IH (costs ++ [b]) (fadd acc (Equipment.total_cost_per_hour b)))
      as (costs' & total & Hloop & Hle).
    exists costs', total. split; [exact Hloop |].
    specialize (Hpos Hp). cbn in Hle. lra.
Qed.

Lemma crew_counts_nonneg (p : string -> bool) (crew : list (Employee.CrewMember (F:=Q))) :
  (0 <= count_members p crew)%Z.
Proof. unfold count_members. lia. Qed.

Lemma calculate_loadout_equipment_cost_ok now items
    (crew : list (Employee.CrewMember (F:=Q))) sev :
  Forall item_ok items ->
  exists d,
    Equipment.calculate_loadout_equipment_cost (F:=Q) Equipment.__init__ now items
      (_extract_crew_config crew) sev = Ok d /\
    0 < Equipment.total_equipment_cost_per_hour d.
Proof.
  intro Hok.
  unfold Equipment.calculate_loadout_equipment_cost.
  destruct (heavy_equipment_loop_ok now sev [] 0.0 Hok)
    as (costs & total & Hloop & Hle).
  change (@of_Q Q Q_float 0.0) with 0.0.
  rewrite Hloop. cbn [bind].
  unfold _extract_crew_config.
  match goal with
  | |- context [("climbers"%string, ?c) :: ("ground_crew"%string, ?g) ::
                ("chainsaws"%string, ?ch) :: _] =>
      destruct (@small_tools_total c g ch) as (t & Ht & Hpos);
      [apply crew_counts_nonneg | apply crew_counts_nonneg | lia |]
  end.
  rewrite Ht. cbn [bind].
  assert (Hnz : ~ fadd total t == 0) by (cbn; intro E; lra).
  rewrite !truediv_ok by exact Hnz.
  cbn [bind]. eexists; split; [reflexivity |]. cbn. lra.
Qed.

Lemma crew_loop_ok now st crew acc :
  Forall member_ok crew ->
  exists t,
    Employee.crew_loop (F:=Q) Employee.__init__ now st crew acc = Ok t /\
    Employee.total_hourly_rate acc <= Employee.total_hourly_rate t /\
    (crew <> [] -> Employee.total_hourly_rate acc < Employee.total_hourly_rate t) /\
    Employee.total_true_cost acc - Employee.total_hourly_rate acc <=
      Employee.total_true_cost t - Employee.total_hourly_rate t.
Proof.
  intro Hok. revert acc.
  induction Hok as [| m crew [[p Hp] Hr] _ IH]; intro acc.
  - cbn. exists acc. repeat split; [lra | congruence | lra].
  - cbn [Employee.crew_loop]. rewrite Hp. cbn [bind].
    destruct (@EmployeeFacts.calculate_true_hourly_cost_above_rate now p st
                (Employee.member_hourly_rate m) Hr) as (b & Hb & Hrate & Hlt).
    rewrite Hb. cbn [bind].
    pose proof (EmployeeFacts.effective_rate_pos p _ Hr) as Hpos. rewrite <- Hrate in Hpos.
    match goal with
    | |- context [Employee.crew_loop _ _ _ _ ?a] =>
        destruct (IH a) as (t & Ht & Hle & _ & Hdiff)
    end.
    exists t. split; [exact Ht |].
    cbn in Hle, Hdiff. repeat split; intros; lra.
Qed.

Lemma calculate_crew_cost_ok now st crew :
  crew <> [] -> Forall member_ok crew ->
  exists s,
    Employee.calculate_crew_cost (F:=Q) Employee.__init__ now crew st = Ok s /\
    0 < Employee.total_base_hourly_rate s /\
    Employee.total_base_hourly_rate s <= Employee.total_true_hourly_cost s.
Proof.
  intros Hne Hok. unfold Employee.calculate_crew_cost.
  match goal with
  | |- context [Employee.crew_loop _ _ _ _ ?a] =>
      destruct (crew_loop_ok now st a Hok) as (t & Ht & _ & Hlt & Hdiff)
  end.
  rewrite Ht. cbn [bind]. specialize (Hlt Hne). cbn in Hlt, Hdiff.
  rewrite truediv_ok by (intro E; lra).
  cbn [bind]. eexists; split; [reflexivity |]. cbn. split; lra.
Qed.

Lemma cost_efficiency_ok (e w : Q) pt :
  0 < e + w ->
  exists s, _calculate_cost_efficiency_score e w pt = Ok s.
Proof.
  intro Hpos. unfold _calculate_cost_efficiency_score.
  rewrite !truediv_ok by (cbn; intro E; lra).
  cbn [bind]. destruct (benchmark pt). eexists; reflexivity.
Qed.

Lemma profitability_ok (r m : Q) pt :
  exists s,
    _calculate_profitability_score r (competitive_rates (F:=Q) __init__ pt) m = Ok s.
Proof.
  unfold _calculate_profitability_score.
  destruct pt; pycbn;
    repeat match goal with
    | |- context [if ?c then _ else _] => destruct c
    end;
    pycbn; rewrite ?truediv_ok by nonzero; pycbn; eexists; reflexivity.
Qed.

(** What the pricing call does on a well-formed loadout, for any margin
    table: a positive total cost, and then either a division by zero (the
    margin is 1) or a breakdown with the quotient as recommended rate. *)
Lemma calculate_loadout_pricing_cases m now cfg :
  well_formed cfg ->
  exists total, 0 < total /\
    ((1 - m (project_type cfg) == 0 /\
      calculate_loadout_pricing (with_margins m) now cfg = Raise ZeroDivisionError) \/
     (~ 1 - m (project_type cfg) == 0 /\
      exists b,
        calculate_loadout_pricing (with_margins m) now cfg = Ok b /\
        total_cost_per_hour b = total /\
        break_even_rate b = total /\
        recommended_billing_rate b = total / (1 - m (project_type cfg)))).
Proof.
  intros (Hitems & Hne & Hcrew).
  unfold calculate_loadout_pricing.
  cbn [with_margins equipment_engine employee_calculator target_profit_margins
       competitive_rates].
  destruct (calculate_loadout_equipment_cost_ok now (crew_composition cfg)
              (severity_factor cfg) Hitems) as (d & Hd & Hdpos).
  rewrite Hd. cbn [bind].
  destruct (calculate_crew_cost_ok now (location_state cfg) Hne Hcrew)
    as (s & Hs & Hspos & Hsle).
  rewrite Hs. cbn [bind].
  set (total := fadd (Equipment.total_equipment_cost_per_hour d)
                     (Employee.total_true_hourly_cost s)).
  assert (Htotal : 0 < total) by (subst total; cbn; lra).
  exists total. split; [exact Htotal |].
  destruct (Qeq_dec (1 - m (project_type cfg)) 0) as [Hz | Hnz].
  - left. split; [exact Hz |].
    rewrite truediv_zero by exact Hz. reflexivity.
  - right. split; [exact Hnz |].
    rewrite truediv_ok by exact Hnz. cbn [bind].
    destruct (@cost_efficiency_ok (Equipment.total_equipment_cost_per_hour d)
                (Employee.total_true_hourly_cost s) (project_type cfg) Htotal)
      as (ce & Hce).
    rewrite Hce. cbn [bind].
    destruct (profitability_ok (total / (1 - m (project_type cfg)))
                (m (project_type cfg)) (project_type cfg)) as (ps & Hps).
    cbn [fsub Q_float of_Q] in *.
    rewrite Hps. cbn [bind].
    eexists; split; [reflexivity |]. cbn. auto.
Qed.

Lemma residential_well_formed : well_formed residential_tree_service.
Proof.
  unfold well_formed, residential_tree_service; cbn. split; [| split].
  - repeat constructor; cbn; try (eexists; reflexivity); now vm_compute.
  - discriminate.
  - repeat constructor; cbn; try (eexists; reflexivity); reflexivity.
Qed.

Lemma Qdiv_margin_gt (t m : Q) : 0 < m -> m < 1 -> 0 < t -> t < t / (1 - m).
Proof.
  intros Hm0 Hm1 Ht.
  apply Qlt_shift_div_l; [lra |].
  assert (0 < t * m) by (apply Qmult_lt_0_compat; assumption).
  lra.
Qed.

Lemma Qdiv_margin_neg (t m : Q) : 1 < m -> 0 < t -> t / (1 - m) < 0.
Proof.
  intros Hm Ht.
  assert (E : t / (1 - m) == - (t / (m - 1))) by (field; lra).
  rewrite E.
  assert (0 < t / (m - 1)) by (apply Qdiv_pos; lra).
  lra.
Qed.

(** Any engine, any loadout: a returned breakdown carries the quotient. *)
Lemma recommended_rate_is_quotient self now cfg b :
  calculate_loadout_pricing (F:=Q) self now cfg = Ok b ->
  ~ 1 - target_profit_margins self (project_type cfg) == 0 /\
  recommended_billing_rate b =
    total_cost_per_hour b / (1 - target_profit_margins self (project_type cfg)) /\
  break_even_rate b = total_cost_per_hour b.
Proof.
  unfold calculate_loadout_pricing. intro Hb.
  apply bind_inv in Hb as (d & _ & Hb).
  apply bind_inv in Hb as (s & _ & Hb).
  apply bind_inv in Hb as (r & Hr & Hb).
  apply bind_inv in Hb as (ce & _ & Hb).
  apply bind_inv in Hb as (ps & _ & Hb).
  apply truediv_inv in Hr as (Hnz & ->).
  injection Hb as <-. cbn. auto.
Qed.

(** C3, as stated, fails when the total cost is not positive: with a
    negative purchase price entered for the bucket truck the pricing
    returns, the margin is 0.35, and the recommended rate is below the
    total cost. *)
Lemma recommended_rate_below_negative_cost :
  exists b,
    calculate_loadout_pricing (F:=Q) __init__ clock0 negative_price_loadout = Ok b /\
    target_profit_margins (F:=Q) __init__ (project_type (configuration b)) == 0.35 /\
    total_cost_per_hour b < 0 /\
    recommended_billing_rate b < total_cost_per_hour b.
Proof.
  eexists. split; [vm_compute; reflexivity |].
  repeat split; vm_compute; reflexivity.
Qed.

(** C3, amended: every returned breakdown has recommended_billing_rate =
    total_cost_per_hour / (1 - target_margin), and for a margin strictly
    between 0 and 1 the rate is strictly greater than the total cost
    whenever that cost is positive; it is positive, and the pricing
    returns, for every loadout whose equipment has known categories and
    non-negative prices and whose crew is non-empty with known positions
    and positive hourly rates.  With total cost 239.02 and the tree
    removal margin 0.35 the rate is 367.72 to two decimals. *)
Theorem recommended_billing_rate_formula :
  (forall self now cfg b,
     calculate_loadout_pricing (F:=Q) self now cfg = Ok b ->
     recommended_billing_rate b ==
       total_cost_per_hour b /
       (1 - target_profit_margins self (project_type cfg)) /\
     (0 < target_profit_margins self (project_type cfg) ->
      target_profit_margins self (project_type cfg) < 1 ->
      0 < total_cost_per_hour b ->
      total_cost_per_hour b < recommended_billing_rate b)) /\
  (forall m now cfg,
     well_formed cfg ->
     0 < m (project_type cfg) -> m (project_type cfg) < 1 ->
     exists b,
       calculate_loadout_pricing (with_margins m) now cfg = Ok b /\
       0 < total_cost_per_hour b /\
       recommended_billing_rate b ==
         total_cost_per_hour b / (1 - m (project_type cfg)) /\
       total_cost_per_hour b < recommended_billing_rate b) /\
  (exists r,
     truediv 239.02 (1 - target_profit_margins (F:=Q) __init__ TREE_REMOVAL)
       = Ok r /\
     approx2 r 367.72).
Proof.
  split; [| split].
  - intros self now cfg b Hb.
    apply recommended_rate_is_quotient in Hb as (_ & Hr & _).
    rewrite Hr. split; [reflexivity |].
    intros Hm0 Hm1 Ht. now apply Qdiv_margin_gt.
  - intros m now cfg Hwf Hm0 Hm1.
    destruct (calculate_loadout_pricing_cases m now Hwf)
      as (total & Htotal & [[Hz _] | (_ & b & Hb & Ht & _ & Hr)]); [lra |].
    exists b. rewrite Hr, Ht.
    repeat split; try assumption; try reflexivity.
    now apply Qdiv_margin_gt.
  - eexists. split; [vm_compute; reflexivity |].
    unfold approx2. vm_compute. discriminate.
Qed.

Lemma recommended_billing_rate_formula_witness :
  exists b,
    calculate_loadout_pricing (F:=Q) __init__ clock0 residential_tree_service
      = Ok b /\
    0 < total_cost_per_hour b /\
    recommended_billing_rate b == total_cost_per_hour b / (1 - 0.35) /\
    total_cost_per_hour b < recommended_billing_rate b.
Proof.
  exact (proj1 (proj2 recommended_billing_rate_formula)
           (target_profit_margins __init__) clock0 residential_tree_service
           residential_well_formed eq_refl eq_refl).
Defined.

(** The scenario division in binary64: 239.02 / (1 - 0.35) lies within
    0.005 of 367.72. *)
Example recommended_rate_binary64 :
  match truediv (F:=float) (of_Q 239.02)
          (fsub (of_Q 1) (target_profit_margins __init__ TREE_REMOVAL)) with
  | Ok r =>
      PrimFloat.leb (PrimFloat.abs (r - of_Q 367.72)%float) (of_Q 0.005) = true
  | Raise _ => False
  end.
Proof. vm_compute. reflexivity. Qed.

(** C4, as stated, fails: with the margin table set to 1.0 the pricing
    does divide by zero (Python's ZeroDivisionError, in exact arithmetic
    and in binary64), and with 1.5 it returns a negative recommended
    rate. *)
Lemma margin_of_one_divides_by_zero :
  calculate_loadout_pricing (with_margins (fun _ => 1)) clock0
    residential_tree_service = Raise ZeroDivisionError /\
  calculate_loadout_pricing (F:=float) (with_margins (fun _ => of_Q 1)) clock0
    residential_tree_service = Raise ZeroDivisionError /\
  (exists b,
     calculate_loadout_pricing (with_margins (fun _ => 1.5)) clock0
       residential_tree_service = Ok b /\
     recommended_billing_rate b < 0).
Proof.
  split; [| split].
  - vm_compute; reflexivity.
  - vm_compute; reflexivity.
  - eexists. split; vm_compute; reflexivity.
Qed.

(** C4, amended: the code has no margin check.  The margins of the
    default table lie in [0.30, 0.50], so on every well-formed loadout the
    division succeeds and the recommended rate is positive.  If the table
    is overridden, a margin equal to 1 makes the pricing raise
    ZeroDivisionError and a margin greater than 1 makes it return a
    negative recommended rate. *)
Theorem margin_division_behaviour :
  (forall pt, 0.30 <= target_profit_margins (F:=Q) __init__ pt <= 0.50) /\
  (forall now cfg,
     well_formed cfg ->
     exists b,
       calculate_loadout_pricing (F:=Q) __init__ now cfg = Ok b /\
       0 < recommended_billing_rate b) /\
  (forall m now cfg,
     well_formed cfg -> m (project_type cfg) == 1 ->
     calculate_loadout_pricing (with_margins m) now cfg
       = Raise ZeroDivisionError) /\
  (forall m now cfg,
     well_formed cfg -> 1 < m (project_type cfg) ->
     exists b,
       calculate_loadout_pricing (with_margins m) now cfg = Ok b /\
       recommended_billing_rate b < 0).
Proof.
  split; [| split; [| split]].
  - intro pt. destruct pt; cbn; split; lra.
  - intros now cfg Hwf.
    destruct (calculate_loadout_pricing_cases (target_profit_margins __init__)
                now Hwf)
      as (total & Htotal & [[Hz _] | (_ & b & Hb & _ & _ & Hr)]).
    + destruct (project_type cfg); vm_compute in Hz; discriminate Hz.
    + exists b. split; [exact Hb |]. rewrite Hr.
      apply Qdiv_pos; [exact Htotal |].
      destruct (project_type cfg); reflexivity.
  - intros m now cfg Hwf Hm.
    destruct (calculate_loadout_pricing_cases m now Hwf)
      as (total & Htotal & [[_ Hraise] | (Hnz & _)]); [exact Hraise |].
    exfalso. apply Hnz. lra.
  - intros m now cfg Hwf Hm.
    destruct (calculate_loadout_pricing_cases m now Hwf)
      as (total & Htotal & [[Hz _] | (_ & b & Hb & _ & _ & Hr)]); [lra |].
    exists b. split; [exact Hb |]. rewrite Hr.
    now apply Qdiv_margin_neg.
Qed.

Lemma margin_division_behaviour_witness :
  (exists b,
     calculate_loadout_pricing (F:=Q) __init__ clock0 residential_tree_service
       = Ok b /\
     0 < recommended_billing_rate b) /\
  calculate_loadout_pricing (with_margins (fun _ => 1)) clock0
    residential_tree_service = Raise ZeroDivisionError /\
  (exists b,
     calculate_loadout_pricing (with_margins (fun _ => 2)) clock0
       residential_tree_service = Ok b /\
     recommended_billing_rate b < 0).
Proof.
  split; [| split].
  - apply (proj1 (proj2 margin_division_behaviour) clock0
             residential_tree_service residential_well_formed).
  - apply (proj1 (proj2 (proj2 margin_division_behaviour)) (fun _ => 1) clock0
             residential_tree_service residential_well_formed).
    reflexivity.
  - apply (proj2 (proj2 (proj2 margin_division_behaviour)) (fun _ => 2) clock0
             residential_tree_service residential_well_formed).
    reflexivity.
Defined.

End LoadoutFacts.

Module CrewFacts.
Import Employee EmployeeSpec.

Lemma calculate_crew_cost_empty (self : TrueHourlyEmployeeCostCalculator (F:=Q))
    now st :
  calculate_crew_cost self now [] st = Raise ZeroDivisionError.
Proof. reflexivity. Qed.

Lemma calculate_crew_cost_of_totals
    (self : TrueHourlyEmployeeCostCalculator (F:=Q)) now st crew t :
  crew_loop self now st crew crew_totals_init = Ok t ->
  0 < total_hourly_rate t ->
  exists s,
    calculate_crew_cost self now crew st = Ok s /\
    total_base_hourly_rate s = total_hourly_rate t /\
    total_true_hourly_cost s = total_true_cost t /\
    average_burden_multiplier s = total_true_cost t / total_hourly_rate t.
Proof.
  intros Ht Hpos. unfold calculate_crew_cost.
  rewrite Ht. cbn [bind].
  rewrite truediv_ok by (intro E; lra).
  cbn [bind]. eexists; split; [reflexivity |]. cbn. auto.
Qed.

(** C10: with an empty crew_composition, calculate_crew_cost divides 0.0
    by 0.0 and raises ZeroDivisionError, and so does
    calculate_loadout_pricing once the equipment has been priced (exact
    arithmetic and binary64); for a non-empty crew whose loop ends with a
    positive total base hourly rate the division is defined and yields
    total true cost / total base rate, which is the case for every
    non-empty crew of known positions with positive rates. *)
Theorem empty_crew_divides_by_zero :
  (forall (self : TrueHourlyEmployeeCostCalculator (F:=Q)) now st,
     calculate_crew_cost self now [] st = Raise ZeroDivisionError) /\
  (forall now (cfg : Loadout.LoadoutConfiguration (F:=Q)),
     Loadout.crew_composition cfg = [] ->
     Forall EquipmentSpec.item_ok (Loadout.equipment_list cfg) ->
     Loadout.calculate_loadout_pricing Loadout.__init__ now cfg
       = Raise ZeroDivisionError) /\
  (calculate_crew_cost (F:=float) __init__ clock0 [] FLORIDA
     = Raise ZeroDivisionError /\
   Loadout.calculate_loadout_pricing (F:=float) Loadout.__init__ clock0
     LoadoutSpec.no_crew_loadout = Raise ZeroDivisionError) /\
  (forall (self : TrueHourlyEmployeeCostCalculator (F:=Q)) now st crew t,
     crew <> [] ->
     crew_loop self now st crew crew_totals_init = Ok t ->
     0 < total_hourly_rate t ->
     exists s,
       calculate_crew_cost self now crew st = Ok s /\
       average_burden_multiplier s == total_true_cost t / total_hourly_rate t) /\
  (forall now st (crew : list (CrewMember (F:=Q))),
     crew <> [] -> Forall member_ok crew ->
     exists s,
       calculate_crew_cost __init__ now crew st = Ok s /\
       0 < total_base_hourly_rate s /\
       average_burden_multiplier s ==
         total_true_hourly_cost s / total_base_hourly_rate s).
Proof.
  split; [| split; [| split; [| split]]].
  - intros. apply calculate_crew_cost_empty.
  - intros now cfg Hcrew Hitems.
    unfold Loadout.calculate_loadout_pricing. rewrite Hcrew.
    destruct (LoadoutFacts.calculate_loadout_equipment_cost_ok now []
                (Loadout.severity_factor cfg) Hitems) as (d & Hd & _).
    cbn [Loadout.__init__ Loadout.equipment_engine Loadout.employee_calculator].
    rewrite Hd. reflexivity.
  - split; vm_compute; reflexivity.
  - intros self now st crew t _ Ht Hpos.
    destruct (calculate_crew_cost_of_totals self now st crew Ht Hpos)
      as (s & Hs & _ & _ & Havg).
    exists s. split; [exact Hs |]. rewrite Havg. reflexivity.
  - intros now st crew Hne Hok.
    destruct (LoadoutFacts.crew_loop_ok now st crew_totals_init Hok)
      as (t & Ht & _ & Hlt & _).
    specialize (Hlt Hne). cbn in Hlt.
    destruct (calculate_crew_cost_of_totals __init__ now st crew Ht)
      as (s & Hs & Hbase & Htrue & Havg); [lra |].
    exists s. rewrite Havg, Hbase, Htrue.
    split; [exact Hs | split; [lra | reflexivity]].
Qed.

Lemma empty_crew_divides_by_zero_witness :
  exists s,
    calculate_crew_cost (F:=Q) __init__ clock0
      (Loadout.crew_composition Loadout.residential_tree_service) FLORIDA = Ok s /\
    0 < total_base_hourly_rate s /\
    average_burden_multiplier s ==
      total_true_hourly_cost s / total_base_hourly_rate s.
Proof.
  apply (proj2 (proj2 (proj2 (proj2 empty_crew_divides_by_zero)))).
  - discriminate.
  - exact (proj2 (proj2 LoadoutFacts.residential_well_formed)).
Defined.

End CrewFacts.

Module ClockFacts.
Import ClockSpec.

Section Clock.
Context {F : Type} `{PyFloat F}.

Ltac split_div :=
  repeat match goal with
  | |- context [truediv ?a ?b] =>
      destruct (truediv a b); cbn [bind rmap]; try reflexivity
  end.

Lemma equipment_cost_clock (self : Equipment.EquipmentCostIntelligence (F:=F))
    t1 t2 cat mk pp yr sev :
  datetime.year t1 = datetime.year t2 ->
  rmap forget_equipment_id
    (Equipment.calculate_equipment_cost self t1 cat mk pp yr sev) =
  rmap forget_equipment_id
    (Equipment.calculate_equipment_cost self t2 cat mk pp yr sev).
Proof.
  intro Hy. unfold Equipment.calculate_equipment_cost, Equipment.is_used.
  rewrite Hy. split_div.
Qed.

Lemma employee_cost_clock (self : Employee.TrueHourlyEmployeeCostCalculator (F:=F))
    t1 t2 p st r cb cn :
  rmap forget_employee_id
    (Employee.calculate_true_hourly_cost self t1 p st r cb cn) =
  rmap forget_employee_id
    (Employee.calculate_true_hourly_cost self t2 p st r cb cn).
Proof.
  unfold Employee.calculate_true_hourly_cost.
  destruct (Employee.state_adjustments self st); split_div.
Qed.

Lemma rmap_eq_inv {A B} (f : A -> B) (r1 r2 : result A) :
  rmap f r1 = rmap f r2 ->
  (exists a1 a2, r1 = Ok a1 /\ r2 = Ok a2 /\ f a1 = f a2) \/
  (exists e, r1 = Raise e /\ r2 = Raise e).
Proof.
  destruct r1 as [a1 | e1], r2 as [a2 | e2]; cbn; intro E;
    try discriminate.
  - left. exists a1, a2. injection E as E. auto.
  - right. exists e1. injection E as ->. auto.
Qed.
Arguments rmap_eq_inv {A B f r1 r2} _.

Lemma crew_loop_clock (self : Employee.TrueHourlyEmployeeCostCalculator (F:=F))
    t1 t2 st crew acc1 acc2 :
  forget_totals_ids acc1 = forget_totals_ids acc2 ->
  rmap forget_totals_ids (Employee.crew_loop self t1 st crew acc1) =
  rmap forget_totals_ids (Employee.crew_loop self t2 st crew acc2).
Proof.
  revert acc1 acc2.
  induction crew as [| m crew IH]; intros acc1 acc2 Hacc.
  - cbn. now rewrite Hacc.
  - cbn [Employee.crew_loop].
    destruct (Employee.EmployeePosition_of_value (Employee.member_position m))
      as [p | e]; cbn [bind rmap]; [| reflexivity].
    destruct (rmap_eq_inv
                (employee_cost_clock self t1 t2 p st
                   (Employee.member_hourly_rate m) None None))
      as [(b1 & b2 & E1 & E2 & Eb) | (e & E1 & E2)];
      rewrite E1, E2; cbn [bind rmap]; [| reflexivity].
    apply IH.
    pose proof (f_equal (@Employee.crew_members F) Hacc) as Hm.
    pose proof (f_equal (@Employee.total_hourly_rate F) Hacc) as Hr.
    pose proof (f_equal (@Employee.total_true_cost F) Hacc) as Ht.
    pose proof (f_equal (@Employee.total_burden_cost F) Hacc) as Hb.
    pose proof (f_equal (@Employee.hourly_rate F) Eb) as Hbr.
    pose proof (f_equal (@Employee.true_hourly_cost F) Eb) as Hbt.
    cbn in Hm, Hr, Ht, Hb, Hbr, Hbt.
    unfold forget_totals_ids; cbn.
    rewrite !map_app, Hm, Hr, Ht, Hb, Hbr, Hbt. cbn [map].
    now rewrite Eb.
Qed.

Lemma crew_cost_clock (self : Employee.TrueHourlyEmployeeCostCalculator (F:=F))
    t1 t2 crew st :
  rmap forget_crew_ids (Employee.calculate_crew_cost self t1 crew st) =
  rmap forget_crew_ids (Employee.calculate_crew_cost self t2 crew st).
Proof.
  unfold Employee.calculate_crew_cost.
  destruct (rmap_eq_inv
              (@crew_loop_clock self t1 t2 st crew Employee.crew_totals_init
                 Employee.crew_totals_init eq_refl))
    as [(a1 & a2 & E1 & E2 & Ea) | (e & E1 & E2)];
    rewrite E1, E2; cbn [bind rmap]; [| reflexivity].
  pose proof (f_equal (@Employee.crew_members F) Ea) as Hm.
  pose proof (f_equal (@Employee.total_hourly_rate F) Ea) as Hr.
  pose proof (f_equal (@Employee.total_true_cost F) Ea) as Ht.
  pose proof (f_equal (@Employee.total_burden_cost F) Ea) as Hb.
  cbn in Hm, Hr, Ht, Hb. rewrite Hr, Ht.
  split_div. unfold forget_crew_ids; cbn. now rewrite Hm, Hb.
Qed.

Lemma heavy_loop_clock (self : Equipment.EquipmentCostIntelligence (F:=F))
    t1 t2 sev items costs1 costs2 acc :
  datetime.year t1 = datetime.year t2 ->
  map forget_equipment_id costs1 = map forget_equipment_id costs2 ->
  rmap (fun r => (map forget_equipment_id (fst r), snd r))
    (Equipment.heavy_equipment_loop self t1 sev items costs1 acc) =
  rmap (fun r => (map forget_equipment_id (fst r), snd r))
    (Equipment.heavy_equipment_loop self t2 sev items costs2 acc).
Proof.
  intro Hy. revert costs1 costs2 acc.
  induction items as [| e items IH]; intros costs1 costs2 acc Hc.
  - cbn. now rewrite Hc.
  - cbn [Equipment.heavy_equipment_loop].
    destruct (Equipment.EquipmentCategory_of_value (Equipment.type e))
      as [c | err]; cbn [bind rmap]; [| reflexivity].
    destruct (rmap_eq_inv
                (equipment_cost_clock self t1 t2 c (Equipment.item_make_model e)
                   (Equipment.purchase_price e) (Equipment.year e) sev Hy))
      as [(b1 & b2 & E1 & E2 & Eb) | (err & E1 & E2)];
      rewrite E1, E2; cbn [bind rmap]; [| reflexivity].
    pose proof (f_equal (@Equipment.total_cost_per_hour F) Eb) as Et.
    cbn in Et. rewrite Et. apply IH.
    rewrite !map_app. cbn. now rewrite Hc, Eb.
Qed.

Lemma loadout_equipment_cost_clock
    (self : Equipment.EquipmentCostIntelligence (F:=F))
    t1 t2 items crew_config sev :
  datetime.year t1 = datetime.year t2 ->
  rmap forget_equipment_ids
    (Equipment.calculate_loadout_equipment_cost self t1 items crew_config sev) =
  rmap forget_equipment_ids
    (Equipment.calculate_loadout_equipment_cost self t2 items crew_config sev).
Proof.
  intro Hy. unfold Equipment.calculate_loadout_equipment_cost.
  destruct (rmap_eq_inv
              (@heavy_loop_clock self t1 t2 sev items [] [] (of_Q 0.0) Hy
                 eq_refl))
    as [([c1 a1] & [c2 a2] & E1 & E2 & Ea) | (e & E1 & E2)];
    rewrite E1, E2; cbn [bind rmap]; [| reflexivity].
  cbn in Ea. injection Ea as Ec ->.
  destruct (dict_item _ _); cbn [bind rmap]; [| reflexivity].
  split_div. unfold forget_equipment_ids; cbn. now rewrite Ec.
Qed.

Lemma loadout_pricing_clock (self : Loadout.LoadoutPricingIntelligence (F:=F))
    t1 t2 cfg :
  datetime.year t1 = datetime.year t2 ->
  rmap forget_loadout_id (Loadout.calculate_loadout_pricing self t1 cfg) =
  rmap forget_loadout_id (Loadout.calculate_loadout_pricing self t2 cfg).
Proof.
  intro Hy. unfold Loadout.calculate_loadout_pricing.
  destruct (rmap_eq_inv
              (loadout_equipment_cost_clock (Loadout.equipment_engine self)
                 t1 t2 (Loadout.equipment_list cfg)
                 (Loadout._extract_crew_config (Loadout.crew_composition cfg))
                 (Loadout.severity_factor cfg) Hy))
    as [(d1 & d2 & E1 & E2 & Ed) | (e & E1 & E2)];
    rewrite E1, E2; cbn [bind rmap]; [| reflexivity].
  destruct (rmap_eq_inv
              (crew_cost_clock (Loadout.employee_calculator self) t1 t2
                 (Loadout.crew_composition cfg) (Loadout.location_state cfg)))
    as [(s1 & s2 & E3 & E4 & Es) | (e & E3 & E4)];
    rewrite E3, E4; cbn [bind rmap]; [| reflexivity].
  pose proof (f_equal (@Equipment.total_equipment_cost_per_hour F) Ed) as Hd1.
  pose proof (f_equal (@Equipment.heavy_total_cost_per_hour F) Ed) as Hd2.
  pose proof (f_equal (@Equipment.small_tools_total_cost_per_hour F) Ed) as Hd3.
  pose proof (f_equal (@Employee.total_true_hourly_cost F) Es) as Hs1.
  pose proof (f_equal (@Employee.total_base_hourly_rate F) Es) as Hs2.
  pose proof (f_equal (@Employee.total_burden_cost_per_hour F) Es) as Hs3.
  cbn in Hd1, Hd2, Hd3, Hs1, Hs2, Hs3.
  rewrite Hd1, Hd2, Hd3, Hs1, Hs2, Hs3.
  split_div.
  destruct (Loadout._calculate_cost_efficiency_score _ _ _);
    cbn [bind rmap]; [| reflexivity].
  destruct (Loadout._calculate_profitability_score _ _ _);
    cbn [bind rmap]; reflexivity.
Qed.


Lemma equipment_cost_clock_priced
    (self : Equipment.EquipmentCostIntelligence (F:=F))
    t1 t2 cat mk pp yr sev :
  pp <> None \/ yr = None ->
  rmap forget_equipment_id
    (Equipment.calculate_equipment_cost self t1 cat mk pp yr sev) =
  rmap forget_equipment_id
    (Equipment.calculate_equipment_cost self t2 cat mk pp yr sev).
Proof.
  intro Hp. unfold Equipment.calculate_equipment_cost.
  destruct pp as [p |]; [| destruct Hp as [Hp | ->]; [congruence |]];
    cbn [Equipment.is_used]; split_div.
Qed.

End Clock.

(** C9, as stated, fails: the same call at two readings of the clock
    returns different results.  The identifiers of the equipment, employee
    and loadout breakdowns embed the time of the call, and a machine given
    by model year without a price is depreciated by the current year. *)
Lemma same_inputs_different_results :
  (exists b0 b1,
     Equipment.calculate_equipment_cost (F:=Q) Equipment.__init__ clock0
       Equipment.BUCKET_TRUCK None None None Equipment.STANDARD_WORK = Ok b0 /\
     Equipment.calculate_equipment_cost (F:=Q) Equipment.__init__ clock1
       Equipment.BUCKET_TRUCK None None None Equipment.STANDARD_WORK = Ok b1 /\
     Equipment.equipment_id b0 = "bucket_truck_20250309_140559"%string /\
     Equipment.equipment_id b1 = "bucket_truck_20260102_083000"%string /\
     b0 <> b1) /\
  (exists b0 b1,
     Equipment.calculate_equipment_cost (F:=Q) Equipment.__init__ clock0
       Equipment.CHIPPER None None (Some 2020%Z) Equipment.STANDARD_WORK = Ok b0 /\
     Equipment.calculate_equipment_cost (F:=Q) Equipment.__init__ clock1
       Equipment.CHIPPER None None (Some 2020%Z) Equipment.STANDARD_WORK = Ok b1 /\
     ~ Equipment.total_cost_per_hour b0 == Equipment.total_cost_per_hour b1) /\
  (exists b0 b1,
     Employee.calculate_true_hourly_cost (F:=Q) Employee.__init__ clock0
       Employee.ISA_CERTIFIED_ARBORIST Employee.FLORIDA (Some 32) None None
       = Ok b0 /\
     Employee.calculate_true_hourly_cost (F:=Q) Employee.__init__ clock1
       Employee.ISA_CERTIFIED_ARBORIST Employee.FLORIDA (Some 32) None None
       = Ok b1 /\
     Employee.employee_id b0 <> Employee.employee_id b1) /\
  (exists b0 b1,
     Loadout.calculate_loadout_pricing (F:=Q) Loadout.__init__ clock0
       Loadout.residential_tree_service = Ok b0 /\
     Loadout.calculate_loadout_pricing (F:=Q) Loadout.__init__ clock1
       Loadout.residential_tree_service = Ok b1 /\
     Loadout.loadout_id b0 <> Loadout.loadout_id b1).
Proof.
  split; [| split; [| split]].
  - do 2 eexists.
    split; [vm_compute; reflexivity |].
    split; [vm_compute; reflexivity |].
    split; [reflexivity |]. split; [reflexivity |].
    intro E. apply (f_equal (@Equipment.equipment_id Q)) in E.
    vm_compute in E. discriminate E.
  - do 2 eexists.
    split; [vm_compute; reflexivity |].
    split; [vm_compute; reflexivity |].
    intro E. vm_compute in E. discriminate E.
  - do 2 eexists.
    split; [vm_compute; reflexivity |].
    split; [vm_compute; reflexivity |].
    intro E. vm_compute in E. discriminate E.
  - do 2 eexists.
    split; [vm_compute; reflexivity |].
    split; [vm_compute; reflexivity |].
    intro E. vm_compute in E. discriminate E.
Qed.

(** C9, amended: the clock is the only state outside the arguments, and it
    reaches a result only through the time-stamped identifier fields and
    through the current year.  For any two readings of the clock, the
    employee cost and the crew cost agree on every field but the
    identifiers; the equipment cost agrees on every field but the
    identifier when the purchase price is given or no model year is; and
    when both readings fall in the same year, the equipment cost and the
    loadout pricing agree on every field but the identifiers for all
    inputs.  This holds for any arithmetic, binary64 included.  AFISS
    scoring and TreeScore do not read the clock. *)
Theorem clock_reaches_only_ids_and_year
    (F : Type) (PF : PyFloat F) (t1 t2 : datetime.t) :
  (forall self p st r cb cn,
     rmap forget_employee_id
       (Employee.calculate_true_hourly_cost (F:=F) self t1 p st r cb cn) =
     rmap forget_employee_id
       (Employee.calculate_true_hourly_cost self t2 p st r cb cn)) /\
  (forall self crew st,
     rmap forget_crew_ids (Employee.calculate_crew_cost (F:=F) self t1 crew st) =
     rmap forget_crew_ids (Employee.calculate_crew_cost self t2 crew st)) /\
  (forall self cat mk pp yr sev,
     pp <> None \/ yr = None ->
     rmap forget_equipment_id
       (Equipment.calculate_equipment_cost (F:=F) self t1 cat mk pp yr sev) =
     rmap forget_equipment_id
       (Equipment.calculate_equipment_cost self t2 cat mk pp yr sev)) /\
  (datetime.year t1 = datetime.year t2 ->
   (forall self cat mk pp yr sev,
      rmap forget_equipment_id
        (Equipment.calculate_equipment_cost (F:=F) self t1 cat mk pp yr sev) =
      rmap forget_equipment_id
        (Equipment.calculate_equipment_cost self t2 cat mk pp yr sev)) /\
   (forall self cfg,
      rmap forget_loadout_id
        (Loadout.calculate_loadout_pricing (F:=F) self t1 cfg) =
      rmap forget_loadout_id
        (Loadout.calculate_loadout_pricing self t2 cfg))).
Proof.
  split; [| split; [| split]].
  - intros. apply employee_cost_clock.
  - intros. apply crew_cost_clock.
  - intros. now apply equipment_cost_clock_priced.
  - intro Hy. split; intros.
    + now apply equipment_cost_clock.
    + now apply loadout_pricing_clock.
Qed.

Lemma clock_reaches_only_ids_and_year_witness :
  rmap forget_equipment_id
    (Equipment.calculate_equipment_cost (F:=Q) Equipment.__init__ clock0
       Equipment.CHIPPER None None (Some 2020%Z) Equipment.STANDARD_WORK) =
  rmap forget_equipment_id
    (Equipment.calculate_equipment_cost (F:=Q) Equipment.__init__ clock0_later
       Equipment.CHIPPER None None (Some 2020%Z) Equipment.STANDARD_WORK) /\
  rmap forget_equipment_id
    (Equipment.calculate_equipment_cost (F:=Q) Equipment.__init__ clock0
       Equipment.BUCKET_TRUCK None (Some 165000) (Some 2021%Z)
       Equipment.STANDARD_WORK) =
  rmap forget_equipment_id
    (Equipment.calculate_equipment_cost (F:=Q) Equipment.__init__ clock1
       Equipment.BUCKET_TRUCK None (Some 165000) (Some 2021%Z)
       Equipment.STANDARD_WORK).
Proof.
  split.
  - apply (proj2 (proj2 (proj2
             (clock_reaches_only_ids_and_year Q_float clock0 clock0_later)))).
    reflexivity.
  - apply (proj1 (proj2 (proj2
             (clock_reaches_only_ids_and_year Q_float clock0 clock1)))).
    left. discriminate.
Defined.

End ClockFacts.

(** * Further properties of the cost engines *)

(** Reduction that keeps rational and integer arithmetic folded. *)
Ltac pycbnz :=
  cbn -[Qplus Qmult Qminus Qdiv Qinv Qopp Qeq_bool Qle_bool Qeq Qle Qlt of_int
        Z.add Z.sub Z.opp Z.mul].
Ltac pycbnz_in H :=
  cbn -[Qplus Qmult Qminus Qdiv Qinv Qopp Qeq_bool Qle_bool Qeq Qle Qlt of_int
        Z.add Z.sub Z.opp Z.mul] in H.

(** Case analysis on every comparison of the goal and the context. *)
Ltac qcase_all :=
  repeat match goal with
  | |- context [Qle_bool ?a ?b] =>
      let E := fresh "E" in
      destruct (Qle_bool a b) eqn:E;
      [apply Qle_bool_iff in E | apply Qle_bool_false in E]; cbn [negb andb]
  | H : context [Qle_bool ?a ?b] |- _ =>
      let E := fresh "E" in
      destruct (Qle_bool a b) eqn:E;
      [apply Qle_bool_iff in E | apply Qle_bool_false in E];
      cbn [negb andb] in H
  end;
  cbn [negb andb] in *.

Lemma bind_ok {A B} (m : result A) (k : A -> result B) (b : B) :
  bind m k = Ok b -> exists a, m = Ok a /\ k a = Ok b.
Proof. destruct m as [a | e]; cbn; [eauto | discriminate]. Qed.

Lemma Qdiv_lt_cross (a b c d : Q) :
  0 < b -> 0 < d -> a * d < c * b -> a / b < c / d.
Proof.
  intros Hb Hd H.
  apply Qlt_shift_div_l; [exact Hd |].
  assert (E : a / b * d == a * d / b) by (field; lra).
  rewrite E. apply Qlt_shift_div_r; [exact Hb | exact H].
Qed.

Lemma Qdiv_unit (a b : Q) : 0 <= a -> a <= b -> 0 < b -> 0 <= a / b <= 1.
Proof.
  intros Ha Hab Hb. split.
  - apply Qle_shift_div_l; lra.
  - apply Qle_shift_div_r; lra.
Qed.

(** ** The employee cost model (true_hourly_employee_cost.py) *)

Module EmployeeMore.
Import Employee EmployeeSpec EmployeeTables.

(** X1. Whatever the calculator's tables and the custom factors, a
    breakdown that [calculate_true_hourly_cost] returns balances: the true
    hourly cost times the productive hours is the total annual cost, the
    burden multiplier times the base wages is that same total, the total
    is wages plus burden, the wages are the rate times the scheduled
    hours, productive and non-productive hours add up to the scheduled
    hours, the cost per productive hour is the true hourly cost, and the
    productive percentage is the share of productive hours. *)
Theorem true_hourly_cost_accounts
    (self : TrueHourlyEmployeeCostCalculator (F:=Q)) now p st r cb cn b :
  calculate_true_hourly_cost self now p st r cb cn = Ok b ->
  true_hourly_cost b * of_int (productive_hours b) == total_annual_cost b /\
  burden_multiplier b * annual_base_wages b == total_annual_cost b /\
  total_annual_cost b == annual_base_wages b + total_annual_burden b /\
  annual_base_wages b == hourly_rate b * of_int (standard_annual_hours self) /\
  (productive_hours b + non_productive_hours b = total_scheduled_hours b)%Z /\
  cost_per_productive_hour b = true_hourly_cost b /\
  productive_hour_percentage b * of_int (total_scheduled_hours b) ==
    100 * of_int (productive_hours b).
Proof.
  unfold calculate_true_hourly_cost. intro Hb.
  destruct (match state_adjustments self st with Some _ => _ | None => _ end)
    as [bf npt].
  apply bind_ok in Hb as (t & Ht & Hb).
  apply bind_ok in Hb as (m & Hm & Hb).
  apply bind_ok in Hb as (pr & Hpr & Hb).
  apply truediv_inv in Ht as (Hnz1 & ->).
  apply truediv_inv in Hm as (Hnz2 & ->).
  apply truediv_inv in Hpr as (Hnz3 & ->).
  injection Hb as <-. pycbn.
  unfold of_int in *; cbn [of_Q Q_float fmul] in *.
  set (R := match r with Some x => x | None => _ end) in *.
  assert (HR : ~ R == 0) by (intro E; apply Hnz2; rewrite E; ring).
  repeat split; try reflexivity; try lia; field; repeat split; assumption.
Qed.

Lemma true_hourly_cost_accounts_witness :
  exists b,
    calculate_true_hourly_cost (F:=Q) __init__ clock0 GROUND_CREW_MEMBER FLORIDA
      (Some 18) None None = Ok b /\
    true_hourly_cost b * of_int (productive_hours b) == total_annual_cost b /\
    burden_multiplier b * annual_base_wages b == total_annual_cost b.
Proof.
  eexists. split; [vm_compute; reflexivity |].
  refine (let H := @true_hourly_cost_accounts __init__ clock0 GROUND_CREW_MEMBER
                     FLORIDA (Some 18) None None _ _ in
          conj (proj1 H) (proj1 (proj2 H))).
  vm_compute; reflexivity.
Defined.

Lemma closed_form now p st r :
  rate_ok r ->
  exists b,
    calculate_true_hourly_cost (F:=Q) __init__ now p st r None None = Ok b /\
    hourly_rate b = effective_rate p r /\
    total_annual_cost b ==
      effective_rate p r * 2080 * wage_factor st + fixed_annual /\
    true_hourly_cost b ==
      (effective_rate p r * 2080 * wage_factor st + fixed_annual) /
      inject_Z (state_productive_hours st) /\
    burden_multiplier b ==
      wage_factor st + fixed_annual / (effective_rate p r * 2080).
Proof.
  intro Hr. apply (EmployeeFacts.effective_rate_pos p) in Hr.
  unfold calculate_true_hourly_cost.
  fold (effective_rate p r). set (R := effective_rate p r) in *. clearbody R.
  assert (Hw : ~ R * of_int 2080 == 0).
  { intro E. of_int_norm. lra. }
  destruct st; pycbn;
    (rewrite truediv_ok by nonzero);
    (rewrite truediv_ok by exact Hw);
    (rewrite truediv_ok by nonzero);
    pycbn; (eexists; split; [reflexivity |]); pycbn;
    (split; [reflexivity |]);
    of_int_norm; unfold wage_factor, fixed_annual, state_productive_hours,
      state_weather; pycbn; unfold inject_Z;
    (split; [ring | split; (field; first [lra | nonzero])]).
Qed.

Lemma wage_factor_pos st : 1 < wage_factor st.
Proof. destruct st; reflexivity. Qed.

Lemma productive_hours_pos st : 0 < inject_Z (state_productive_hours st).
Proof. destruct st; reflexivity. Qed.


(** X2. With the default tables and one and the same positive hourly
    rate, Florida is the state with the highest true hourly cost: every
    other state is strictly cheaper per productive hour.  California has
    the higher total annual cost, but its smaller weather delay spreads it
    over more productive hours. *)
Theorem florida_costliest now p r st :
  rate_ok r -> st <> FLORIDA ->
  exists bf bs,
    calculate_true_hourly_cost (F:=Q) __init__ now p FLORIDA r None None = Ok bf /\
    calculate_true_hourly_cost (F:=Q) __init__ now p st r None None = Ok bs /\
    true_hourly_cost bs < true_hourly_cost bf /\
    (st = CALIFORNIA -> total_annual_cost bf < total_annual_cost bs).
Proof.
  intros Hr Hst.
  destruct (@closed_form now p FLORIDA r Hr) as (bf & Hbf & _ & Haf & Htf & _).
  destruct (@closed_form now p st r Hr) as (bs & Hbs & _ & Has & Hts & _).
  exists bf, bs. split; [exact Hbf |]. split; [exact Hbs |].
  apply (EmployeeFacts.effective_rate_pos p) in Hr.
  set (R := effective_rate p r) in *. clearbody R.
  split.
  - rewrite Htf, Hts.
    apply Qdiv_lt_cross; try apply productive_hours_pos.
    destruct st; try congruence;
      unfold wage_factor, fixed_annual, state_productive_hours, state_weather;
      pycbn; unfold inject_Z; lra.
  - intros ->. rewrite Haf, Has.
    unfold wage_factor, fixed_annual; pycbn. lra.
Qed.


Lemma florida_costliest_witness :
  exists bf bs,
    calculate_true_hourly_cost (F:=Q) __init__ clock0 GROUND_CREW_MEMBER FLORIDA
      (Some 18) None None = Ok bf /\
    calculate_true_hourly_cost (F:=Q) __init__ clock0 GROUND_CREW_MEMBER
      CALIFORNIA (Some 18) None None = Ok bs /\
    true_hourly_cost bs < true_hourly_cost bf /\
    (CALIFORNIA = CALIFORNIA -> total_annual_cost bf < total_annual_cost bs).
Proof.
  apply (@florida_costliest clock0 GROUND_CREW_MEMBER (Some 18) CALIFORNIA).
  - reflexivity.
  - discriminate.
Defined.

(** X3. With the default tables, a higher hourly rate gives a strictly
    higher true hourly cost and a strictly lower burden multiplier, which
    stays above the wage-proportional factor of the state. *)
Theorem cost_grows_multiplier_shrinks now p st (r1 r2 : Q) :
  0 < r1 -> r1 < r2 ->
  exists b1 b2,
    calculate_true_hourly_cost (F:=Q) __init__ now p st (Some r1) None None = Ok b1 /\
    calculate_true_hourly_cost (F:=Q) __init__ now p st (Some r2) None None = Ok b2 /\
    true_hourly_cost b1 < true_hourly_cost b2 /\
    burden_multiplier b2 < burden_multiplier b1 /\
    wage_factor st < burden_multiplier b2.
Proof.
  intros H1 H12.
  assert (H2 : 0 < r2) by lra.
  destruct (@closed_form now p st (Some r1) H1) as (b1 & Hb1 & _ & _ & Ht1 & Hm1).
  destruct (@closed_form now p st (Some r2) H2) as (b2 & Hb2 & _ & _ & Ht2 & Hm2).
  exists b1, b2. split; [exact Hb1 |]. split; [exact Hb2 |].
  cbn [effective_rate] in *.
  pose proof (wage_factor_pos st) as Hk.
  pose proof (productive_hours_pos st) as Hp.
  assert (Hf : 0 < fixed_annual) by reflexivity.
  assert (Hk1 : 0 < r1 * wage_factor st) by (apply Qmult_lt_0_compat; lra).
  assert (Hd : 0 < (r2 - r1) * wage_factor st) by (apply Qmult_lt_0_compat; lra).
  split; [| split].
  - rewrite Ht1, Ht2. apply Qdiv_lt_cross; try assumption.
    apply Qmult_lt_r; [assumption |]. lra.
  - rewrite Hm1, Hm2.
    assert (fixed_annual / (r2 * 2080) < fixed_annual / (r1 * 2080)).
    { apply Qdiv_lt_cross; try lra.
      assert (0 < fixed_annual * (r2 - r1)) by (apply Qmult_lt_0_compat; lra).
      lra. }
    lra.
  - rewrite Hm2.
    assert (0 < fixed_annual / (r2 * 2080)) by (apply Qdiv_pos; lra).
    lra.
Qed.


Lemma cost_grows_multiplier_shrinks_witness :
  exists b1 b2,
    calculate_true_hourly_cost (F:=Q) __init__ clock0 APPRENTICE TEXAS
      (Some 18) None None = Ok b1 /\
    calculate_true_hourly_cost (F:=Q) __init__ clock0 APPRENTICE TEXAS
      (Some 25) None None = Ok b2 /\
    true_hourly_cost b1 < true_hourly_cost b2 /\
    burden_multiplier b2 < burden_multiplier b1 /\
    wage_factor TEXAS < burden_multiplier b2.
Proof.
  apply (@cost_grows_multiplier_shrinks clock0 APPRENTICE TEXAS 18 25);
    reflexivity.
Defined.

(** X4. Every state has an entry in the adjustment table, so the state
    unemployment rate, the workers' compensation rate and the weather
    delay of custom factors never reach the result: two calls whose custom
    factors differ only there return the same value (in any arithmetic). *)
Theorem state_table_overrides_custom (F : Type) (PF : PyFloat F)
    now p st r (cb cb' : EmployeeBurdenFactors (F:=F)) cn cn' :
  same_but_state_rates cb cb' -> same_but_weather cn cn' ->
  calculate_true_hourly_cost __init__ now p st r (Some cb) (Some cn) =
  calculate_true_hourly_cost __init__ now p st r (Some cb') (Some cn').
Proof.
  intros (E1 & E2 & E3 & E4 & E5 & E6 & E7) (N1 & N2 & N3 & N4).
  destruct cb, cb', cn, cn'. cbn in *. subst.
  destruct st; reflexivity.
Qed.


Lemma state_table_overrides_custom_witness :
  let cb := EmployeeBurdenFactors_default (F:=Q) in
  let cb' :=
    {| payroll_taxes_rate := payroll_taxes_rate cb;
       federal_unemployment_rate := federal_unemployment_rate cb;
       state_unemployment_rate := 0.5;
       workers_comp_rate := 0.9;
       health_insurance_annual := health_insurance_annual cb;
       equipment_ppe_annual := equipment_ppe_annual cb;
       vehicle_allocation_annual := vehicle_allocation_annual cb;
       training_certification_annual := training_certification_annual cb;
       overhead_allocation_rate := overhead_allocation_rate cb |} in
  let cn := NonProductiveTime_default in
  let cn' :=
    {| pto_sick_hours := 100; training_hours := 60;
       equipment_maintenance_downtime := 50; weather_delay_hours := 1000;
       administrative_time := 100 |} in
  calculate_true_hourly_cost __init__ clock0 APPRENTICE GEORGIA None
    (Some cb) (Some cn) =
  calculate_true_hourly_cost __init__ clock0 APPRENTICE GEORGIA None
    (Some cb') (Some cn').
Proof.
  intros cb cb' cn cn'.
  apply (@state_table_overrides_custom Q Q_float clock0 APPRENTICE GEORGIA None
           cb cb' cn cn').
  - repeat split.
  - repeat split.
Defined.

(** X5. The non-productive hours of a custom schedule are not checked
    against the 2080 scheduled hours.  When, with the state's weather
    delay, they come to exactly 2080 the call raises ZeroDivisionError;
    when they exceed 2080 it returns negative productive hours and a
    negative true hourly cost. *)
Theorem non_productive_hours_unchecked now p st (rate : Q) cn :
  0 < rate ->
  ((adjusted_non_productive cn st = 2080)%Z ->
   calculate_true_hourly_cost (F:=Q) __init__ now p st (Some rate) None (Some cn)
     = Raise ZeroDivisionError) /\
  ((2080 < adjusted_non_productive cn st)%Z ->
   exists b,
     calculate_true_hourly_cost (F:=Q) __init__ now p st (Some rate) None (Some cn)
       = Ok b /\
     (productive_hours b < 0)%Z /\
     true_hourly_cost b < 0).
Proof.
  intro Hr.
  assert (Hw : ~ rate * of_int 2080 == 0).
  { intro E. of_int_norm. lra. }
  unfold adjusted_non_productive, state_weather.
  split; intro Hn.
  - unfold calculate_true_hourly_cost, total_non_productive_hours.
    destruct st; pycbnz; pycbnz_in Hn;
      rewrite truediv_zero; try reflexivity;
      match goal with |- of_int ?z == 0 => replace z with 0%Z by lia end;
      reflexivity.
  - unfold calculate_true_hourly_cost, total_non_productive_hours.
    destruct st; pycbnz; pycbnz_in Hn;
      match goal with
      | |- context [truediv _ (of_int (?x - ?y)%Z)] =>
          set (ph := (x - y)%Z) in *;
          assert (Hph : (ph < 0)%Z) by (subst ph; lia);
          clearbody ph;
          assert (Hq : of_int (F:=Q) ph < 0)
            by (unfold of_int; cbn; unfold Qlt; cbn; lia)
      end;
      (rewrite (@truediv_ok _ (of_int ph)) by (intro E0; rewrite E0 in Hq; discriminate Hq));
      (rewrite truediv_ok by exact Hw);
      (rewrite truediv_ok by nonzero);
      pycbn; (eexists; split; [reflexivity |]); pycbn;
      (split; [exact Hph |]);
      match goal with
      | |- ?a / ?b < 0 =>
          assert (Ha : 0 < a) by (of_int_norm; lra);
          assert (E : a / b == - (a / (- b))) by (field; lra);
          rewrite E;
          assert (0 < a / (- b)) by (apply Qdiv_pos; lra);
          lra
      end.
Qed.


Lemma non_productive_hours_unchecked_witness :
  let cn k :=
    {| pto_sick_hours := k; training_hours := 60;
       equipment_maintenance_downtime := 50; weather_delay_hours := 80;
       administrative_time := 100 |} in
  calculate_true_hourly_cost (F:=Q) __init__ clock0 APPRENTICE FLORIDA
    (Some 18) None (Some (cn 1790%Z)) = Raise ZeroDivisionError /\
  exists b,
    calculate_true_hourly_cost (F:=Q) __init__ clock0 APPRENTICE FLORIDA
      (Some 18) None (Some (cn 2000%Z)) = Ok b /\
    (productive_hours b < 0)%Z /\
    true_hourly_cost b < 0.
Proof.
  intro cn. split.
  - apply (proj1 (@non_productive_hours_unchecked clock0 APPRENTICE FLORIDA 18
                    (cn 1790%Z) eq_refl)).
    reflexivity.
  - apply (proj2 (@non_productive_hours_unchecked clock0 APPRENTICE FLORIDA 18
                    (cn 2000%Z) eq_refl)).
    reflexivity.
Defined.

Lemma position_of_value_cases (s : string) :
  (exists p, EmployeePosition_of_value s = Ok p /\ EmployeePosition_value p = s) \/
  EmployeePosition_of_value s = Raise (ValueError s).
Proof.
  unfold EmployeePosition_of_value.
  destruct (find _ all_positions) as [p |] eqn:E; [left | right; reflexivity].
  exists p. split; [reflexivity |].
  apply find_some in E as [_ E]. now apply String.eqb_eq in E.
Qed.


(** X6. Looking a position up by value inverts [value]: every position is
    found under its own value, a string that is found is the value of the
    position returned, and any other string raises ValueError carrying
    that string. *)
Theorem position_lookup_round_trip :
  (forall p, EmployeePosition_of_value (EmployeePosition_value p) = Ok p) /\
  (forall s p, EmployeePosition_of_value s = Ok p -> EmployeePosition_value p = s) /\
  (forall s, (exists p, EmployeePosition_of_value s = Ok p) \/
             EmployeePosition_of_value s = Raise (ValueError s)).
Proof.
  split; [| split].
  - intro p. destruct p; reflexivity.
  - intros s p Hp.
    destruct (position_of_value_cases s) as [(q & Hq & Hv) | Hr]; congruence.
  - intro s.
    destruct (position_of_value_cases s) as [(q & Hq & _) | Hr]; eauto.
Qed.

Lemma crew_loop_invariant (self : TrueHourlyEmployeeCostCalculator (F:=Q))
    now st crew acc t :
  crew_loop self now st crew acc = Ok t ->
  List.length (crew_members t) =
    (List.length (crew_members acc) + List.length crew)%nat /\
  total_burden_cost t - total_burden_cost acc ==
    (total_true_cost t - total_true_cost acc) -
    (total_hourly_rate t - total_hourly_rate acc).
Proof.
  revert acc. induction crew as [| m crew IH]; intros acc Ht.
  - cbn in Ht. injection Ht as <-. split; [cbn; lia | ring].
  - cbn [crew_loop] in Ht.
    apply bind_ok in Ht as (pos & _ & Ht).
    apply bind_ok in Ht as (b & _ & Ht).
    apply IH in Ht as [Hl Hb]. cbn in Hl, Hb.
    rewrite length_app in Hl. cbn in Hl. split; [cbn; lia | lra].
Qed.


(** X7. Whatever the calculator's tables, a summary that
    [calculate_crew_cost] returns balances: the burden per hour is the
    true cost minus the base rates, the average burden multiplier times
    the base rates is the true cost, the base rates are not zero, and the
    crew size and the number of member breakdowns are the length of the
    crew list. *)
Theorem crew_cost_accounts (self : TrueHourlyEmployeeCostCalculator (F:=Q))
    now crew st s :
  calculate_crew_cost self now crew st = Ok s ->
  total_burden_cost_per_hour s ==
    total_true_hourly_cost s - total_base_hourly_rate s /\
  average_burden_multiplier s * total_base_hourly_rate s ==
    total_true_hourly_cost s /\
  ~ total_base_hourly_rate s == 0 /\
  crew_size s = Z.of_nat (List.length crew) /\
  List.length (summary_crew_members s) = List.length crew.
Proof.
  unfold calculate_crew_cost. intro Hs.
  apply bind_ok in Hs as (t & Ht & Hs).
  apply bind_ok in Hs as (avg & Havg & Hs).
  apply truediv_inv in Havg as (Hnz & ->).
  injection Hs as <-. cbn.
  apply crew_loop_invariant in Ht as [Hl Hb]. cbn in Hl, Hb.
  repeat split; try assumption; try (field; assumption); lra.
Qed.


Lemma crew_cost_accounts_witness :
  exists s,
    calculate_crew_cost (F:=Q) __init__ clock0
      (Loadout.crew_composition Loadout.residential_tree_service) FLORIDA
      = Ok s /\
    total_burden_cost_per_hour s ==
      total_true_hourly_cost s - total_base_hourly_rate s /\
    crew_size s = 4%Z.
Proof.
  eexists. split; [vm_compute; reflexivity |].
  refine (let H := @crew_cost_accounts __init__ clock0
                     (Loadout.crew_composition Loadout.residential_tree_service)
                     FLORIDA _ _ in
          conj (proj1 H) (proj1 (proj2 (proj2 (proj2 H))))).
  vm_compute; reflexivity.
Defined.

Lemma crew_loop_raises now st pre bad rest acc e :
  Forall member_ok pre ->
  (forall acc', crew_loop (F:=Q) __init__ now st (bad :: rest) acc' = Raise e) ->
  crew_loop (F:=Q) __init__ now st (pre ++ bad :: rest) acc = Raise e.
Proof.
  intros Hok Hbad. revert acc.
  induction Hok as [| m pre [[p Hp] Hr] _ IH]; intro acc.
  - apply Hbad.
  - cbn [app crew_loop]. rewrite Hp. cbn [bind].
    destruct (@EmployeeFacts.calculate_true_hourly_cost_above_rate now p st
                (member_hourly_rate m) Hr) as (b & Hb & _).
    rewrite Hb. cbn [bind]. apply IH.
Qed.


(** X8. A crew list fails at its first bad member: after any number of
    well-formed members, a member whose position is not a position value
    makes [calculate_crew_cost] raise ValueError with that string, and a
    member with a known position and hourly rate 0 makes it raise
    ZeroDivisionError; the members after it are not looked at. *)
Theorem crew_cost_bad_member now st pre bad rest :
  Forall member_ok pre ->
  (EmployeePosition_of_value (member_position bad)
     = Raise (ValueError (member_position bad)) ->
   calculate_crew_cost (F:=Q) __init__ now (pre ++ bad :: rest) st
     = Raise (ValueError (member_position bad))) /\
  ((exists p, EmployeePosition_of_value (member_position bad) = Ok p) ->
   member_hourly_rate bad = Some 0 ->
   calculate_crew_cost (F:=Q) __init__ now (pre ++ bad :: rest) st
     = Raise ZeroDivisionError).
Proof.
  intro Hok. split.
  - intro Hbad. unfold calculate_crew_cost.
    rewrite (@crew_loop_raises now st pre bad rest crew_totals_init
               (ValueError (member_position bad)) Hok); [reflexivity |].
    intro acc'. cbn [crew_loop]. now rewrite Hbad.
  - intros [p Hp] Hz. unfold calculate_crew_cost.
    rewrite (@crew_loop_raises now st pre bad rest crew_totals_init
               ZeroDivisionError Hok); [reflexivity |].
    intro acc'. cbn [crew_loop]. rewrite Hp, Hz. cbn [bind].
    now rewrite EmployeeFacts.calculate_true_hourly_cost_zero_rate.
Qed.


Lemma crew_cost_bad_member_witness :
  let good := {| member_position := "apprentice"; member_hourly_rate := Some 15 |} in
  calculate_crew_cost (F:=Q) __init__ clock0
    ([good] ++ {| member_position := "janitor"; member_hourly_rate := Some 15 |}
       :: [good]) FLORIDA
    = Raise (ValueError "janitor") /\
  calculate_crew_cost (F:=Q) __init__ clock0
    ([good] ++ {| member_position := "apprentice"; member_hourly_rate := Some 0 |}
       :: [good]) FLORIDA
    = Raise ZeroDivisionError.
Proof.
  intro good.
  assert (Hok : Forall member_ok [good]).
  { constructor; [split; [eexists; reflexivity | reflexivity] | constructor]. }
  split.
  - apply (proj1 (@crew_cost_bad_member clock0 FLORIDA [good]
                    {| member_position := "janitor";
                       member_hourly_rate := Some 15 |} [good] Hok)).
    reflexivity.
  - apply (proj2 (@crew_cost_bad_member clock0 FLORIDA [good]
                    {| member_position := "apprentice";
                       member_hourly_rate := Some 0 |} [good] Hok)).
    + eexists; reflexivity.
    + reflexivity.
Defined.

Import Hiring.

Lemma scenarios_loop_ok now p st rates acc :
  Forall (fun r => 0 < r) rates ->
  exists new,
    scenarios_loop (F:=Q) __init__ now p st rates acc = Ok (acc ++ new) /\
    map (@scenario_hourly_rate Q) new = rates /\
    Forall (fun s => 0 < cost_difference_vs_rate s /\
                     cost_difference_vs_rate s ==
                       scenario_true_hourly_cost s - scenario_hourly_rate s) new.
Proof.
  intro Hok. revert acc.
  induction Hok as [| r rates Hr _ IH]; intro acc.
  - exists []. cbn. rewrite app_nil_r. auto.
  - cbn [scenarios_loop].
    destruct (@EmployeeFacts.calculate_true_hourly_cost_above_rate now p st
                (Some r) Hr) as (b & Hb & Hrate & Hlt).
    rewrite Hb. cbn [bind]. cbn in Hrate. rewrite Hrate in Hlt.
    match goal with
    | |- context [scenarios_loop _ _ _ _ _ (acc ++ [?s])] =>
        destruct (IH (acc ++ [s])) as (new & Hnew & Hmap & Hall);
        exists (s :: new)
    end.
    rewrite Hnew, <- app_assoc. cbn. rewrite Hmap.
    repeat split; try reflexivity.
    constructor; [cbn; split; [lra | reflexivity] | exact Hall].
Qed.


Lemma hiring_scenarios_ok now p st rates :
  Forall (fun r => 0 < r) rates ->
  exists c,
    compare_hiring_scenarios (F:=Q) __init__ now p st rates = Ok c /\
    map (@scenario_hourly_rate Q) (scenarios c) = rates /\
    Forall (fun s => scenario_hourly_rate s < scenario_true_hourly_cost s /\
                     0 < cost_difference_vs_rate s) (scenarios c).
Proof.
  intro Hok. unfold compare_hiring_scenarios.
  destruct (@scenarios_loop_ok now p st rates [] Hok) as (new & Hnew & Hmap & Hall).
  rewrite Hnew. cbn. eexists; split; [reflexivity |]. cbn.
  split; [exact Hmap |].
  eapply Forall_impl; [| exact Hall]. cbn. intros s [H1 H2]. split; lra.
Qed.

Lemma hiring_scenarios_zero now p st pre rest :
  Forall (fun r => 0 < r) pre ->
  compare_hiring_scenarios (F:=Q) __init__ now p st (pre ++ 0 :: rest)
    = Raise ZeroDivisionError.
Proof.
  intro Hok. unfold compare_hiring_scenarios.
  assert (E : forall acc,
             scenarios_loop (F:=Q) __init__ now p st (pre ++ 0 :: rest) acc
               = Raise ZeroDivisionError).
  { induction Hok as [| r pre Hr _ IH]; intro acc.
    - cbn [app scenarios_loop].
      now rewrite EmployeeFacts.calculate_true_hourly_cost_zero_rate.
    - cbn [app scenarios_loop].
      destruct (@EmployeeFacts.calculate_true_hourly_cost_above_rate now p st
                  (Some r) Hr) as (b & Hb & _).
      rewrite Hb. cbn [bind]. apply IH. }
  now rewrite E.
Qed.

(** X9. For a list of positive hourly rates [compare_hiring_scenarios]
    returns one scenario per rate, in the order of the rates, each with a
    true hourly cost above its rate and a positive cost difference.  A
    rate of 0 in the list makes it raise ZeroDivisionError, whatever the
    positive rates before it and the rates after it. *)
Theorem hiring_scenarios_follow_rates now p st :
  (forall rates,
     Forall (fun r => 0 < r) rates ->
     exists c,
       compare_hiring_scenarios (F:=Q) __init__ now p st rates = Ok c /\
       map (@scenario_hourly_rate Q) (scenarios c) = rates /\
       Forall (fun s => scenario_hourly_rate s < scenario_true_hourly_cost s /\
                        0 < cost_difference_vs_rate s) (scenarios c)) /\
  (forall pre rest,
     Forall (fun r => 0 < r) pre ->
     compare_hiring_scenarios (F:=Q) __init__ now p st (pre ++ 0 :: rest)
       = Raise ZeroDivisionError).
Proof.
  split.
  - intros rates Hok. now apply hiring_scenarios_ok.
  - intros pre rest Hok. now apply hiring_scenarios_zero.
Qed.

Lemma hiring_scenarios_follow_rates_witness :
  (exists c,
     compare_hiring_scenarios (F:=Q) __init__ clock0 GROUND_CREW_MEMBER FLORIDA
       [16; 18; 20] = Ok c /\
     map (@scenario_hourly_rate Q) (scenarios c) = [16; 18; 20] /\
     Forall (fun s => scenario_hourly_rate s < scenario_true_hourly_cost s /\
                      0 < cost_difference_vs_rate s) (scenarios c)) /\
  compare_hiring_scenarios (F:=Q) __init__ clock0 GROUND_CREW_MEMBER FLORIDA
    ([16; 18] ++ 0 :: [20]) = Raise ZeroDivisionError.
Proof.
  split.
  - apply (proj1 (@hiring_scenarios_follow_rates clock0 GROUND_CREW_MEMBER FLORIDA)
             [16; 18; 20]).
    repeat constructor.
  - apply (proj2 (@hiring_scenarios_follow_rates clock0 GROUND_CREW_MEMBER FLORIDA)
             [16; 18] [20]).
    repeat constructor.
Defined.

End EmployeeMore.

(** ** The equipment cost model (equipment_cost_intelligence.py) *)

Module EquipmentMore.
Import Equipment EquipmentSpec EquipmentTables.

(** X10. With the default tables, the hourly cost of a category does not
    decrease when the explicit purchase price increases, whatever the
    model years given; fuel and lubrication do not depend on the price. *)
Theorem cost_monotone_in_price now cat mk (p1 p2 : Q) yr1 yr2 sev :
  p1 <= p2 ->
  exists b1 b2,
    calculate_equipment_cost (F:=Q) __init__ now cat mk (Some p1) yr1 sev = Ok b1 /\
    calculate_equipment_cost (F:=Q) __init__ now cat mk (Some p2) yr2 sev = Ok b2 /\
    total_cost_per_hour b1 <= total_cost_per_hour b2 /\
    fuel_per_hour b1 = fuel_per_hour b2 /\
    lubrication_per_hour b1 = lubrication_per_hour b2.
Proof.
  intro Hp. unfold calculate_equipment_cost.
  rewrite !truediv_ok by (try destruct cat; nonzero).
  pycbn. do 2 eexists. split; [reflexivity |]. split; [reflexivity |]. pycbn.
  split; [| split; reflexivity].
  destruct cat, sev; pycbn; of_int_norm; qinv_const; lra.
Qed.


Lemma cost_monotone_in_price_witness :
  exists b1 b2,
    calculate_equipment_cost (F:=Q) __init__ clock0 CHIPPER None (Some 40000)
      (Some 2020%Z) STANDARD_WORK = Ok b1 /\
    calculate_equipment_cost (F:=Q) __init__ clock0 CHIPPER None (Some 50000)
      None STANDARD_WORK = Ok b2 /\
    total_cost_per_hour b1 <= total_cost_per_hour b2 /\
    fuel_per_hour b1 = fuel_per_hour b2 /\
    lubrication_per_hour b1 = lubrication_per_hour b2.
Proof.
  apply (@cost_monotone_in_price clock0 CHIPPER None 40000 50000
           (Some 2020%Z) None STANDARD_WORK).
  discriminate.
Defined.

(** X11. With the default tables and a purchase price that is not
    negative, a higher severity factor changes the repairs and
    maintenance component only: ownership, fuel, lubrication and wear
    parts stay the same, repairs do not decrease, and the total moves by
    exactly the difference in repairs. *)
Theorem severity_raises_only_repairs now cat mk pp yr s1 s2 :
  price_ok pp -> sev_le s1 s2 ->
  exists b1 b2,
    calculate_equipment_cost (F:=Q) __init__ now cat mk pp yr s1 = Ok b1 /\
    calculate_equipment_cost (F:=Q) __init__ now cat mk pp yr s2 = Ok b2 /\
    total_ownership_per_hour b1 = total_ownership_per_hour b2 /\
    fuel_per_hour b1 = fuel_per_hour b2 /\
    lubrication_per_hour b1 = lubrication_per_hour b2 /\
    wear_parts_per_hour b1 = wear_parts_per_hour b2 /\
    repairs_maintenance_per_hour b1 <= repairs_maintenance_per_hour b2 /\
    total_cost_per_hour b2 - total_cost_per_hour b1 ==
      repairs_maintenance_per_hour b2 - repairs_maintenance_per_hour b1.
Proof.
  intros Hp Hs. unfold calculate_equipment_cost.
  match goal with
  | |- context [truediv (fsub ?p _) _] => set (P := p)
  end.
  assert (HP : 0 <= P).
  { subst P. destruct pp as [p |]; cbn -[Qle]; [exact Hp |].
    destruct (is_used yr now).
    - apply Qmult_le_0_compat; [destruct cat; now vm_compute |].
      apply Qlt_le_weak, pypow_pos. reflexivity.
    - destruct cat; now vm_compute. }
  clearbody P.
  rewrite !truediv_ok by (try destruct cat; nonzero).
  pycbn. do 2 eexists. split; [reflexivity |]. split; [reflexivity |]. pycbn.
  repeat split; try reflexivity; try ring.
  unfold sev_le in Hs.
  destruct cat, s1, s2; pycbn; pycbn_in Hs; of_int_norm; qinv_const; lra.
Qed.


Lemma severity_raises_only_repairs_witness :
  exists b1 b2,
    calculate_equipment_cost (F:=Q) __init__ clock0 BUCKET_TRUCK None None None
      LIGHT_RESIDENTIAL = Ok b1 /\
    calculate_equipment_cost (F:=Q) __init__ clock0 BUCKET_TRUCK None None None
      DISASTER_RECOVERY = Ok b2 /\
    total_ownership_per_hour b1 = total_ownership_per_hour b2 /\
    fuel_per_hour b1 = fuel_per_hour b2 /\
    lubrication_per_hour b1 = lubrication_per_hour b2 /\
    wear_parts_per_hour b1 = wear_parts_per_hour b2 /\
    repairs_maintenance_per_hour b1 <= repairs_maintenance_per_hour b2 /\
    total_cost_per_hour b2 - total_cost_per_hour b1 ==
      repairs_maintenance_per_hour b2 - repairs_maintenance_per_hour b1.
Proof.
  apply (@severity_raises_only_repairs clock0 BUCKET_TRUCK None None None
           LIGHT_RESIDENTIAL DISASTER_RECOVERY).
  - exact I.
  - unfold sev_le. vm_compute. discriminate.
Defined.

Lemma cost_at_price now cat mk pp yr sev :
  calculate_equipment_cost (F:=Q) __init__ now cat mk pp yr sev =
  calculate_equipment_cost (F:=Q) __init__ now cat mk
    (Some (priced_at now cat pp yr)) None sev.
Proof. destruct pp; reflexivity. Qed.

Lemma cost_strict_in_price now cat mk (p1 p2 : Q) sev :
  p1 < p2 ->
  exists b1 b2,
    calculate_equipment_cost (F:=Q) __init__ now cat mk (Some p1) None sev = Ok b1 /\
    calculate_equipment_cost (F:=Q) __init__ now cat mk (Some p2) None sev = Ok b2 /\
    total_cost_per_hour b1 < total_cost_per_hour b2.
Proof.
  intro Hp. unfold calculate_equipment_cost.
  rewrite !truediv_ok by (try destruct cat; nonzero).
  pycbn. do 2 eexists. split; [reflexivity |]. split; [reflexivity |]. pycbn.
  destruct cat, sev; pycbn; of_int_norm; qinv_const; lra.
Qed.

Lemma pypow_step_lt (x : Q) (n : nat) :
  0 < x -> x < 1 -> pypow x (S n) < pypow x n.
Proof.
  intros H0 H1. cbn -[Qmult Qlt].
  pose proof (pypow_pos n H0) as Hp.
  assert (0 < (1 - x) * pypow x n) by (apply Qmult_lt_0_compat; lra).
  lra.
Qed.

Lemma pypow_antitone (x : Q) (n m : nat) :
  0 < x -> x < 1 -> (n < m)%nat -> pypow x m < pypow x n.
Proof.
  intros H0 H1 Hnm. induction Hnm as [| m Hnm IH].
  - now apply pypow_step_lt.
  - pose proof (@pypow_step_lt x m H0 H1). lra.
Qed.

Lemma msrp_pos cat : 0 < msrp_new (equipment_defaults (F:=Q) __init__ cat).
Proof. destruct cat; reflexivity. Qed.


(** X12. How the model year is read, with the default tables.  An
    explicit purchase price makes the year irrelevant.  Without a price, a
    year of 0 or a year not before the current one prices the machine as
    new; a year before the current one makes it used, and then an older
    machine costs strictly less per hour than a younger one, which costs
    strictly less than a new one. *)
Theorem model_year_semantics now cat mk sev :
  (forall (p : Q) y1 y2,
     calculate_equipment_cost (F:=Q) __init__ now cat mk (Some p) y1 sev =
     calculate_equipment_cost (F:=Q) __init__ now cat mk (Some p) y2 sev) /\
  (forall y : Z,
     y = 0%Z \/ (datetime.year now <= y)%Z ->
     calculate_equipment_cost (F:=Q) __init__ now cat mk None (Some y) sev =
     calculate_equipment_cost (F:=Q) __init__ now cat mk None None sev) /\
  (forall y1 y2 : Z,
     y1 <> 0%Z -> y2 <> 0%Z -> (y1 < y2)%Z -> (y2 < datetime.year now)%Z ->
     exists b1 b2 bn,
       calculate_equipment_cost (F:=Q) __init__ now cat mk None (Some y1) sev
         = Ok b1 /\
       calculate_equipment_cost (F:=Q) __init__ now cat mk None (Some y2) sev
         = Ok b2 /\
       calculate_equipment_cost (F:=Q) __init__ now cat mk None None sev
         = Ok bn /\
       total_cost_per_hour b1 < total_cost_per_hour b2 /\
       total_cost_per_hour b2 < total_cost_per_hour bn).
Proof.
  split; [| split].
  - intros. reflexivity.
  - intros y Hy. unfold calculate_equipment_cost.
    assert (E : is_used (Some y) now = false).
    { unfold is_used. destruct Hy as [-> | Hy]; [reflexivity |].
      apply andb_false_iff. right. now apply Z.ltb_ge. }
    now rewrite E.
  - intros y1 y2 Hz1 Hz2 H12 H2n.
    assert (U1 : is_used (Some y1) now = true).
    { unfold is_used. apply andb_true_iff. split.
      - apply negb_true_iff. now apply Z.eqb_neq.
      - apply Z.ltb_lt. lia. }
    assert (U2 : is_used (Some y2) now = true).
    { unfold is_used. apply andb_true_iff. split.
      - apply negb_true_iff. now apply Z.eqb_neq.
      - now apply Z.ltb_lt. }
    pose proof (msrp_pos cat) as Hm.
    assert (H08 : 0 < 1 - 0.08 /\ 1 - 0.08 < 1) by (split; reflexivity).
    destruct H08 as [Ha Hb].
    set (n1 := Z.to_nat (datetime.year now - y1)).
    set (n2 := Z.to_nat (datetime.year now - y2)).
    assert (Hn : (0 < n2 < n1)%nat) by (subst n1 n2; lia).
    assert (P12 : priced_at now cat None (Some y1) < priced_at now cat None (Some y2)).
    { unfold priced_at. rewrite U1, U2. fold n1 n2.
      apply Qmult_lt_l; [exact Hm |]. apply pypow_antitone; [exact Ha | exact Hb | lia]. }
    assert (P2n : priced_at now cat None (Some y2) < priced_at now cat None None).
    { unfold priced_at. rewrite U2. cbn [is_used]. fold n2.
      assert (pypow (1 - 0.08) n2 < pypow (1 - 0.08) 0)
        by (apply pypow_antitone; [exact Ha | exact Hb | lia]).
      cbn [pypow of_Q Q_float] in H.
      assert (0 < msrp_new (equipment_defaults (F:=Q) __init__ cat) *
                  (1 - pypow (1 - 0.08) n2))
        by (apply Qmult_lt_0_compat; lra).
      lra. }
    rewrite (cost_at_price now cat mk None (Some y1) sev).
    rewrite (cost_at_price now cat mk None (Some y2) sev).
    rewrite (cost_at_price now cat mk None None sev).
    destruct (@cost_strict_in_price now cat mk _ _ sev P12) as (b1 & b2 & E1 & E2 & L12).
    destruct (@cost_strict_in_price now cat mk _ _ sev P2n) as (b2' & bn & E2' & En & L2n).
    rewrite E2 in E2'. injection E2' as <-.
    exists b1, b2, bn. auto.
Qed.

Lemma model_year_semantics_witness :
  exists b1 b2 bn,
    calculate_equipment_cost (F:=Q) __init__ clock0 CHIPPER None None
      (Some 2018%Z) STANDARD_WORK = Ok b1 /\
    calculate_equipment_cost (F:=Q) __init__ clock0 CHIPPER None None
      (Some 2022%Z) STANDARD_WORK = Ok b2 /\
    calculate_equipment_cost (F:=Q) __init__ clock0 CHIPPER None None None
      STANDARD_WORK = Ok bn /\
    total_cost_per_hour b1 < total_cost_per_hour b2 /\
    total_cost_per_hour b2 < total_cost_per_hour bn.
Proof.
  apply (proj2 (proj2 (@model_year_semantics clock0 CHIPPER None STANDARD_WORK))
           2018%Z 2022%Z); [discriminate | discriminate | reflexivity | reflexivity].
Defined.

(** X13. The small tools pool, with the default tables: the result has
    the seven category names and the total, in the order of the defaults;
    the total is the sum of the seven category costs, which comes to 0.42
    per chainsaw, 0.42 per climber, 0.78 per crew and 0.35 per person; a
    key that is missing from the crew configuration bills nothing. *)
Theorem small_tools_pool_total (crew_config : dict Z) :
  let r := calculate_small_tools_pool_cost (F:=Q) __init__ crew_config in
  map fst r =
    ["Chainsaws & Power Tools"%string; "Climbing Gear"%string; "Hand Tools"%string; "Safety Gear"%string;
     "Rigging Gear"%string; "Fuel for Small Tools"%string; "PPE Consumables"%string;
     "Total Small Tools Pool"%string] /\
  exists t,
    dict_item "Total Small Tools Pool"%string r = Ok t /\
    t == fold_right Qplus 0 (map snd (firstn 7 r)) /\
    t == 0.42 * billed "chainsaws"%string crew_config +
         0.42 * billed "climbers"%string crew_config +
         (0.17 + 0.28 + 0.33) * billed "crews"%string crew_config +
         (0.25 + 0.10) * people crew_config.
Proof.
  unfold calculate_small_tools_pool_cost, billed, people, dict_mem,
    dict_get_default.
  pycbn. unfold small_tools_step, dict_mem, dict_get_default. pycbn.
  destruct (dict_get "chainsaws"%string crew_config);
    destruct (dict_get "climbers"%string crew_config);
    destruct (dict_get "crews"%string crew_config);
    destruct (dict_get "ground_crew"%string crew_config);
    pycbn; (split; [reflexivity |]); (eexists; split; [reflexivity |]);
    pycbn; unfold of_int; pycbn; split; ring.
Qed.

Lemma heavy_loop_invariant (self : EquipmentCostIntelligence (F:=Q))
    now sev items costs acc costs' total :
  heavy_equipment_loop self now sev items costs acc = Ok (costs', total) ->
  exists new,
    costs' = costs ++ new /\
    List.length new = List.length items /\
    total == acc + fold_right Qplus 0 (map (@total_cost_per_hour Q) new).
Proof.
  revert costs acc. induction items as [| e items IH]; intros costs acc Hl.
  - cbn in Hl. injection Hl as <- <-. exists []. rewrite app_nil_r.
    repeat split. cbn. ring.
  - cbn [heavy_equipment_loop] in Hl.
    apply bind_ok in Hl as (c & _ & Hl).
    apply bind_ok in Hl as (b & _ & Hl).
    apply IH in Hl as (new & -> & Hlen & Ht).
    exists (b :: new). rewrite <- app_assoc. cbn.
    repeat split; [now rewrite Hlen |].
    rewrite Ht. cbn. ring.
Qed.


(** X14. Whatever the tables, a summary that
    [calculate_loadout_equipment_cost] returns balances: the total is the
    heavy equipment total plus the small tools total, the heavy equipment
    total is the sum of the totals of the item breakdowns, there is one
    breakdown per item of the equipment list, the two percentages add up
    to 100, and the total is not zero. *)
Theorem loadout_equipment_accounts (self : EquipmentCostIntelligence (F:=Q))
    now items crew_config sev d :
  calculate_loadout_equipment_cost self now items crew_config sev = Ok d ->
  total_equipment_cost_per_hour d ==
    heavy_total_cost_per_hour d + small_tools_total_cost_per_hour d /\
  heavy_total_cost_per_hour d ==
    fold_right Qplus 0 (map (@total_cost_per_hour Q) (equipment_details d)) /\
  List.length (equipment_details d) = List.length items /\
  heavy_equipment_percentage d + small_tools_percentage d == 100 /\
  ~ total_equipment_cost_per_hour d == 0.
Proof.
  unfold calculate_loadout_equipment_cost. intro Hd.
  apply bind_ok in Hd as ([costs total] & Hl & Hd).
  apply bind_ok in Hd as (t & _ & Hd).
  apply bind_ok in Hd as (hr & Hhr & Hd).
  apply bind_ok in Hd as (sr & Hsr & Hd).
  apply truediv_inv in Hhr as (Hnz & ->).
  apply truediv_inv in Hsr as (_ & ->).
  injection Hd as <-. cbn.
  apply heavy_loop_invariant in Hl as (new & -> & Hlen & Ht).
  cbn in Hnz.
  split; [reflexivity |].
  split; [rewrite Ht; cbn; ring |].
  split; [exact Hlen |].
  split; [field; exact Hnz | exact Hnz].
Qed.


Lemma loadout_equipment_accounts_witness :
  exists d,
    calculate_loadout_equipment_cost (F:=Q) __init__ clock0
      (Loadout.equipment_list Loadout.residential_tree_service)
      (Loadout._extract_crew_config
         (Loadout.crew_composition Loadout.residential_tree_service))
      STANDARD_WORK = Ok d /\
    total_equipment_cost_per_hour d ==
      heavy_total_cost_per_hour d + small_tools_total_cost_per_hour d /\
    heavy_equipment_percentage d + small_tools_percentage d == 100.
Proof.
  eexists. split; [vm_compute; reflexivity |].
  refine (let H := @loadout_equipment_accounts __init__ clock0
                     (Loadout.equipment_list Loadout.residential_tree_service)
                     (Loadout._extract_crew_config
                        (Loadout.crew_composition Loadout.residential_tree_service))
                     STANDARD_WORK _ _ in
          conj (proj1 H) (proj1 (proj2 (proj2 (proj2 H))))).
  vm_compute; reflexivity.
Defined.

Lemma heavy_loop_unknown_type now sev pre bad rest costs acc :
  Forall (fun e => exists c, EquipmentCategory_of_value (type e) = Ok c) pre ->
  EquipmentCategory_of_value (type bad) = Raise (ValueError (type bad)) ->
  heavy_equipment_loop (F:=Q) __init__ now sev (pre ++ bad :: rest) costs acc
    = Raise (ValueError (type bad)).
Proof.
  intros Hok Hbad. revert costs acc.
  induction Hok as [| e pre [c Hc] _ IH]; intros costs acc.
  - cbn [app heavy_equipment_loop]. now rewrite Hbad.
  - cbn [app heavy_equipment_loop]. rewrite Hc. cbn [bind].
    destruct (EquipmentFacts.calculate_equipment_cost_total now c
                (item_make_model e) (purchase_price e) (year e) sev)
      as (b & Hb & _).
    rewrite Hb. cbn [bind]. apply IH.
Qed.


(** X15. Where [calculate_loadout_equipment_cost] fails, with the default
    tables.  After any number of items of known type, an item whose type
    is not a category value raises ValueError with that string.  An empty
    equipment list together with a crew configuration that has none of
    the keys chainsaws, climbers, crews and ground_crew gives a total of
    zero and raises ZeroDivisionError at the percentages. *)
Theorem loadout_equipment_edge_cases now sev :
  (forall pre bad rest crew_config,
     Forall (fun e => exists c, EquipmentCategory_of_value (type e) = Ok c) pre ->
     EquipmentCategory_of_value (type bad) = Raise (ValueError (type bad)) ->
     calculate_loadout_equipment_cost (F:=Q) __init__ now (pre ++ bad :: rest)
       crew_config sev = Raise (ValueError (type bad))) /\
  (forall crew_config,
     dict_get "chainsaws"%string crew_config = None ->
     dict_get "climbers"%string crew_config = None ->
     dict_get "crews"%string crew_config = None ->
     dict_get "ground_crew"%string crew_config = None ->
     calculate_loadout_equipment_cost (F:=Q) __init__ now [] crew_config sev
       = Raise ZeroDivisionError).
Proof.
  split.
  - intros pre bad rest crew_config Hok Hbad.
    unfold calculate_loadout_equipment_cost.
    now rewrite (@heavy_loop_unknown_type now sev pre bad rest [] (of_Q 0.0) Hok Hbad).
  - intros crew_config H1 H2 H3 H4.
    unfold calculate_loadout_equipment_cost, calculate_small_tools_pool_cost.
    pycbn. unfold small_tools_step, dict_mem, dict_get_default.
    rewrite H1, H2, H3, H4. reflexivity.
Qed.

Lemma loadout_equipment_edge_cases_witness :
  let ok := {| type := "chipper"; item_make_model := None;
               purchase_price := None; year := None |} in
  let bad := {| type := "crane"; item_make_model := None;
                purchase_price := Some 1; year := None |} in
  calculate_loadout_equipment_cost (F:=Q) __init__ clock0 ([ok] ++ bad :: [ok])
    [("crews"%string, 1%Z)] STANDARD_WORK = Raise (ValueError "crane") /\
  calculate_loadout_equipment_cost (F:=Q) __init__ clock0 []
    [("trucks"%string, 2%Z)] STANDARD_WORK = Raise ZeroDivisionError.
Proof.
  intros ok bad. split.
  - apply (proj1 (@loadout_equipment_edge_cases clock0 STANDARD_WORK)
             [ok] bad [ok]).
    + constructor; [eexists; reflexivity | constructor].
    + reflexivity.
  - apply (proj2 (@loadout_equipment_edge_cases clock0 STANDARD_WORK));
      reflexivity.
Defined.

End EquipmentMore.

(** ** The loadout pricing aggregator (loadout_pricing_intelligence.py) *)

Module LoadoutMore.
Import Loadout LoadoutSpec LoadoutTables.

Lemma climber_not_ground (p : string) :
  is_climber p = true -> Str.contains "ground_crew" p = false.
Proof.
  unfold is_climber. intro H. apply orb_true_iff in H as [H | H];
    apply String.eqb_eq in H; subst p; reflexivity.
Qed.

Lemma filter_disjoint_length {A} (f g : A -> bool) (l : list A) :
  (forall x, f x = true -> g x = false) ->
  (List.length (filter f l) + List.length (filter g l) <= List.length l)%nat.
Proof.
  intro Hd. induction l as [| x l IH]; cbn; [lia |].
  destruct (f x) eqn:Ef.
  - rewrite (Hd x Ef). cbn. lia.
  - destruct (g x); cbn; lia.
Qed.


(** X16. The crew configuration drawn from a crew list always has the
    four keys climbers, ground_crew, chainsaws and crews, with crews equal
    to 1.  Climbers and ground crew are counted from disjoint sets of
    positions, so together they never exceed the crew size; there are at
    least two chainsaws and at least one more than twice the climbers. *)
Theorem crew_config_counts (F : Type) (crew : list (Employee.CrewMember (F:=F))) :
  exists climbers ground_crew chainsaws,
    _extract_crew_config crew =
      [("climbers"%string, climbers); ("ground_crew"%string, ground_crew);
       ("chainsaws"%string, chainsaws); ("crews"%string, 1%Z)] /\
    (0 <= climbers)%Z /\ (0 <= ground_crew)%Z /\
    (climbers + ground_crew <= Z.of_nat (List.length crew))%Z /\
    (2 <= chainsaws)%Z /\
    (2 * climbers + 1 <= chainsaws)%Z.
Proof.
  unfold _extract_crew_config, count_members.
  do 3 eexists. split; [reflexivity |].
  pose proof (@filter_disjoint_length _
                (fun m : Employee.CrewMember (F:=F) =>
                   is_climber (Employee.member_position m))
                (fun m => Str.contains "ground_crew" (Employee.member_position m))
                crew (fun m => @climber_not_ground _)) as Hd.
  unfold is_climber in Hd.
  repeat split; lia.
Qed.

Lemma Qabs_cases (z : Q) : Qabs z == (if Qle_bool 0 z then z else - z).
Proof.
  destruct (Qle_bool 0 z) eqn:Ez.
  - apply Qle_bool_iff in Ez. now apply Qabs_pos.
  - apply Qle_bool_false in Ez. apply Qabs_neg. lra.
Qed.

(** X17. The cost efficiency score, in exact arithmetic.  When equipment
    and employee cost do not add up to zero the score is returned and lies
    between 0 and 100; it is 100 exactly when the equipment share of the
    cost equals the benchmark share of the project type, and as long as it
    is positive it is 100 minus 400 times the distance between the two
    shares.  When the two costs add up to zero the call raises
    ZeroDivisionError. *)
Theorem cost_efficiency_score_range (e w : Q) pt :
  (~ e + w == 0 ->
   exists s,
     _calculate_cost_efficiency_score e w pt = Ok s /\
     0 <= s <= 100 /\
     (s == 100 <-> e == fst (benchmark pt) * (e + w)) /\
     (0 < s -> s == 100 - 400 * Qabs (e / (e + w) - fst (benchmark pt)))) /\
  (e + w == 0 -> _calculate_cost_efficiency_score e w pt = Raise ZeroDivisionError).
Proof.
  split.
  - intro Hnz. unfold _calculate_cost_efficiency_score.
    rewrite !truediv_ok by exact Hnz.
    cbn [bind fadd fsub fmul fdiv fltb of_Q Q_float].
    assert (Hsum : w / (e + w) == 1 - e / (e + w)) by (field; exact Hnz).
    assert (Hb : snd (benchmark (F:=Q) pt) == 1 - fst (benchmark (F:=Q) pt))
      by (destruct pt; reflexivity).
    assert (Hx : e == e / (e + w) * (e + w)) by (field; exact Hnz).
    set (x := e / (e + w)) in *. set (y := w / (e + w)) in *.
    clearbody x y.
    destruct (benchmark pt) as [be bw]. cbn [fst snd] in *.
    eexists; split; [reflexivity |].
    rewrite (Qabs_cases (x - be)).
    unfold pymax, pyabs; cbn.
    split; [| split].
    + qcase_all; split; lra.
    + assert (Haux : e == be * (e + w) <-> x == be).
      { split; intro Hq.
        - assert (Hm : (x - be) * (e + w) == 0).
          { setoid_replace ((x - be) * (e + w))
              with (x * (e + w) - be * (e + w)) by ring.
            rewrite <- Hx, <- Hq. ring. }
          apply Qmult_integral in Hm as [Hm | Hm]; [lra | contradiction].
        - rewrite Hx at 1. rewrite Hq. reflexivity. }
      transitivity (x == be); [| symmetry; exact Haux].
      qcase_all; split; intro Hs; qcase_all; lra.
    + qcase_all; intro Hs; qcase_all; lra.
  - intro Hz. unfold _calculate_cost_efficiency_score.
    rewrite truediv_zero by exact Hz. reflexivity.
Qed.

Lemma cost_efficiency_score_range_witness :
  (exists s,
     _calculate_cost_efficiency_score 30 70 TREE_REMOVAL = Ok s /\
     0 <= s <= 100 /\
     (s == 100 <-> 30 == fst (benchmark TREE_REMOVAL) * (30 + 70)) /\
     (0 < s -> s == 100 - 400 * Qabs (30 / (30 + 70) - fst (benchmark TREE_REMOVAL)))) /\
  _calculate_cost_efficiency_score 5 (-5) TREE_REMOVAL = Raise ZeroDivisionError.
Proof.
  split.
  - apply (proj1 (cost_efficiency_score_range 30 70 TREE_REMOVAL)). discriminate.
  - apply (proj2 (cost_efficiency_score_range 5 (-5) TREE_REMOVAL)). reflexivity.
Defined.

(** X18. The profitability score, in exact arithmetic, for a competitive
    range (lo, hi).  With lo < hi and 0 < hi the score is returned and is
    at most 100; with a margin that is not negative it is at least 30, and
    at least 70 when the rate lies in the range; for a rate below the
    range and a margin of at most 0.4 it is 50 + 25 * margin, which has no
    lower bound as the margin decreases.  A range that is the single point
    the rate sits on, and a range ending at 0 with a positive rate, raise
    ZeroDivisionError. *)
Theorem profitability_score_range (r lo hi m : Q) :
  (lo < hi -> 0 < hi ->
   exists s,
     _calculate_profitability_score r (lo, hi) m = Ok s /\
     s <= 100 /\
     (0 <= m -> 30 <= s) /\
     (0 <= m -> lo <= r <= hi -> 70 <= s) /\
     (r < lo -> m <= 2 # 5 -> s == 50 + 25 * m)) /\
  (lo == hi -> r == lo ->
   _calculate_profitability_score r (lo, hi) m = Raise ZeroDivisionError) /\
  (hi == 0 -> lo <= 0 -> 0 < r ->
   _calculate_profitability_score r (lo, hi) m = Raise ZeroDivisionError).
Proof.
  unfold _calculate_profitability_score. split; [| split].
  - intros Hlt Hhi.
    cbn [fleb fltb Q_float].
    destruct (Qle_bool lo r) eqn:E1;
      [apply Qle_bool_iff in E1 | apply Qle_bool_false in E1];
      (destruct (Qle_bool r hi) eqn:E2;
       [apply Qle_bool_iff in E2 | apply Qle_bool_false in E2]);
      cbn [andb negb].
    + rewrite truediv_ok by (cbn; intro E; lra).
      destruct (@Qdiv_unit (r - lo) (hi - lo)) as [Hp0 Hp1]; try lra.
      cbn [bind fadd fsub fmul fdiv fltb of_Q Q_float].
      set (p := (r - lo) / (hi - lo)) in *. clearbody p.
      eexists; split; [reflexivity |].
      unfold pymin, pymax; cbn.
      repeat split; intros; qcase_all; lra.
    + destruct (Qle_bool lo r) eqn:E3;
        [| apply Qle_bool_false in E3; lra]. cbn [negb].
      rewrite truediv_ok by (cbn; intro E; lra).
      assert (Hq : 0 < (r - hi) / hi) by (apply Qlt_shift_div_l; lra).
      cbn [bind fadd fsub fmul fdiv fltb of_Q Q_float].
      set (q := (r - hi) / hi) in *. clearbody q.
      eexists; split; [reflexivity |].
      unfold pymin, pymax; cbn.
      repeat split; intros; qcase_all; lra.
    + destruct (Qle_bool lo r) eqn:E3;
        [apply Qle_bool_iff in E3; lra |]. cbn [negb bind].
      eexists; split; [reflexivity |].
      unfold pymin, pymax; cbn.
      repeat split; intros; qcase_all; lra.
    + lra.
  - intros Heq Hr. cbn [fleb fltb Q_float].
    assert (E1 : Qle_bool lo r = true) by (apply Qle_bool_iff; lra).
    assert (E2 : Qle_bool r hi = true) by (apply Qle_bool_iff; lra).
    rewrite E1, E2. cbn [andb].
    rewrite truediv_zero by (cbn; lra). reflexivity.
  - intros Hz Hlo Hr. cbn [fleb fltb Q_float].
    assert (E2 : Qle_bool r hi = false).
    { destruct (Qle_bool r hi) eqn:E; [apply Qle_bool_iff in E; lra | reflexivity]. }
    assert (E1 : Qle_bool lo r = true) by (apply Qle_bool_iff; lra).
    rewrite E1, E2. cbn [andb negb].
    rewrite truediv_zero by exact Hz. reflexivity.
Qed.

Lemma profitability_score_range_witness :
  (exists s,
     _calculate_profitability_score 100 (200, 350) (-4) = Ok s /\
     s <= 100 /\
     (0 <= -4 -> 30 <= s) /\
     (0 <= -4 -> 200 <= 100 <= 350 -> 70 <= s) /\
     (100 < 200 -> -4 <= 2 # 5 -> s == 50 + 25 * -4)) /\
  _calculate_profitability_score 200 (200, 200) 0.35 = Raise ZeroDivisionError /\
  _calculate_profitability_score 10 (-5, 0) 0.35 = Raise ZeroDivisionError.
Proof.
  split; [| split].
  - apply (proj1 (profitability_score_range 100 200 350 (-4))); reflexivity.
  - apply (proj1 (proj2 (profitability_score_range 200 200 200 0.35)));
      reflexivity.
  - apply (proj2 (proj2 (profitability_score_range 10 (-5) 0 0.35)));
      [reflexivity | discriminate | reflexivity].
Defined.

Lemma cost_efficiency_bounds (e w s : Q) pt :
  _calculate_cost_efficiency_score e w pt = Ok s -> 0 <= s <= 100.
Proof.
  unfold _calculate_cost_efficiency_score. intro Hs.
  apply bind_ok in Hs as (x & _ & Hs).
  apply bind_ok in Hs as (y & _ & Hs).
  destruct (benchmark pt) as [be bw].
  injection Hs as <-.
  unfold pymax, pyabs; cbn. qcase_all; split; lra.
Qed.

Lemma profitability_le_100 (r m s : Q) (range : Q * Q) :
  _calculate_profitability_score r range m = Ok s -> s <= 100.
Proof.
  unfold _calculate_profitability_score. destruct range as [lo hi]. intro Hs.
  apply bind_ok in Hs as (base & _ & Hs).
  injection Hs as <-.
  unfold pymin; cbn. qcase_all; lra.
Qed.

(** X19. Whatever the tables and the loadout, a breakdown that
    [calculate_loadout_pricing] returns balances.  The total cost is heavy
    equipment plus small tools plus employee cost; the equipment cost is
    heavy equipment plus small tools; the employee cost is base wages plus
    burden; the break-even rate is the total cost; the recommended rate
    times one minus the target margin is the total cost, so the margin on
    the recommended rate is the target margin; the margin percentage is
    the target margin times 100; the configuration and the competitive
    range are passed through; the cost efficiency score lies between 0 and
    100 and the profitability score is at most 100. *)
Theorem loadout_pricing_accounts
    (self : LoadoutPricingIntelligence (F:=Q)) now cfg b :
  calculate_loadout_pricing self now cfg = Ok b ->
  total_cost_per_hour b ==
    heavy_equipment_cost b + small_tools_cost b + employee_cost_per_hour b /\
  equipment_cost_per_hour b == heavy_equipment_cost b + small_tools_cost b /\
  employee_cost_per_hour b == base_wages_per_hour b + burden_cost_per_hour b /\
  break_even_rate b = total_cost_per_hour b /\
  recommended_billing_rate b *
    (1 - target_profit_margins self (project_type cfg)) ==
    total_cost_per_hour b /\
  recommended_billing_rate b - total_cost_per_hour b ==
    target_profit_margins self (project_type cfg) * recommended_billing_rate b /\
  profit_margin_percentage b ==
    target_profit_margins self (project_type cfg) * 100 /\
  configuration b = cfg /\
  competitive_rate_range b = competitive_rates self (project_type cfg) /\
  0 <= cost_efficiency_score b <= 100 /\
  profitability_score b <= 100.
Proof.
  unfold calculate_loadout_pricing. intro Hb.
  set (margin := target_profit_margins self (project_type cfg)) in *.
  apply bind_ok in Hb as (d & Hd & Hb).
  apply bind_ok in Hb as (s & Hs & Hb).
  apply bind_ok in Hb as (rr & Hrr & Hb).
  apply truediv_inv in Hrr as (Hnz & ->).
  apply bind_ok in Hb as (ce & Hce & Hb).
  apply bind_ok in Hb as (ps & Hps & Hb).
  injection Hb as <-. cbn.
  apply cost_efficiency_bounds in Hce.
  apply profitability_le_100 in Hps.
  unfold Equipment.calculate_loadout_equipment_cost in Hd.
  apply bind_ok in Hd as ([costs total] & _ & Hd).
  apply bind_ok in Hd as (t & _ & Hd).
  apply bind_ok in Hd as (hr & _ & Hd).
  apply bind_ok in Hd as (sr & _ & Hd).
  injection Hd as <-. cbn in *.
  unfold Employee.calculate_crew_cost in Hs.
  apply bind_ok in Hs as (tt & Htt & Hs).
  apply bind_ok in Hs as (avg & _ & Hs).
  injection Hs as <-. cbn in *.
  apply EmployeeMore.crew_loop_invariant in Htt as [_ Hbur]. cbn in Hbur.
  repeat split; try reflexivity; try tauto; try lra;
    try (field; exact Hnz).
Qed.

Lemma loadout_pricing_accounts_witness :
  exists b,
    calculate_loadout_pricing (F:=Q) __init__ clock0 residential_tree_service
      = Ok b /\
    total_cost_per_hour b ==
      heavy_equipment_cost b + small_tools_cost b + employee_cost_per_hour b /\
    equipment_cost_per_hour b == heavy_equipment_cost b + small_tools_cost b.
Proof.
  eexists. split; [vm_compute; reflexivity |].
  refine (let H := @loadout_pricing_accounts __init__ clock0
                     residential_tree_service _ _ in
          conj (proj1 H) (proj1 (proj2 H))).
  vm_compute; reflexivity.
Defined.

(** X20. The order in which [calculate_loadout_pricing] fails, with the
    default tables.  The equipment list is priced first: an item of
    unknown type after items of known type raises ValueError with that
    type, whatever the crew, even an empty one.  With a well-formed
    equipment list the crew is priced next, and a member of unknown
    position after well-formed members raises ValueError with that
    position. *)
Theorem loadout_pricing_error_order now (cfg : LoadoutConfiguration (F:=Q)) :
  (forall pre bad rest,
     equipment_list cfg = pre ++ bad :: rest ->
     Forall (fun e => exists c,
               Equipment.EquipmentCategory_of_value (Equipment.type e) = Ok c) pre ->
     Equipment.EquipmentCategory_of_value (Equipment.type bad)
       = Raise (ValueError (Equipment.type bad)) ->
     calculate_loadout_pricing __init__ now cfg
       = Raise (ValueError (Equipment.type bad))) /\
  (forall pre bad rest,
     Forall EquipmentSpec.item_ok (equipment_list cfg) ->
     crew_composition cfg = pre ++ bad :: rest ->
     Forall EmployeeSpec.member_ok pre ->
     Employee.EmployeePosition_of_value (Employee.member_position bad)
       = Raise (ValueError (Employee.member_position bad)) ->
     calculate_loadout_pricing __init__ now cfg
       = Raise (ValueError (Employee.member_position bad))).
Proof.
  split.
  - intros pre bad rest Heq Hok Hbad.
    unfold calculate_loadout_pricing, Equipment.calculate_loadout_equipment_cost.
    cbn [__init__ equipment_engine]. rewrite Heq.
    now rewrite (@EquipmentMore.heavy_loop_unknown_type now (severity_factor cfg)
                   pre bad rest [] (of_Q 0.0) Hok Hbad).
  - intros pre bad rest Hitems Heq Hok Hbad.
    unfold calculate_loadout_pricing.
    destruct (LoadoutFacts.calculate_loadout_equipment_cost_ok now
                (crew_composition cfg) (severity_factor cfg) Hitems)
      as (d & Hd & _).
    cbn [__init__ equipment_engine employee_calculator].
    rewrite Hd. cbn [bind].
    unfold Employee.calculate_crew_cost. rewrite Heq.
    rewrite (@EmployeeMore.crew_loop_raises now (location_state cfg) pre bad rest
               Employee.crew_totals_init
               (ValueError (Employee.member_position bad)) Hok); [reflexivity |].
    intro acc'. cbn [Employee.crew_loop]. now rewrite Hbad.
Qed.

Lemma loadout_pricing_error_order_witness :
  let bad_item := {| Equipment.type := "crane"; Equipment.item_make_model := None;
                     Equipment.purchase_price := None; Equipment.year := None |} in
  let cfg :=
    {| name := "crane crew"; project_type := TREE_REMOVAL;
       equipment_list := [] ++ bad_item :: [];
       crew_composition := [];
       location_state := Employee.FLORIDA;
       severity_factor := Equipment.STANDARD_WORK |} in
  calculate_loadout_pricing (F:=Q) __init__ clock0 cfg = Raise (ValueError "crane").
Proof.
  intros bad_item cfg.
  apply (proj1 (@loadout_pricing_error_order clock0 cfg) [] bad_item []).
  - reflexivity.
  - constructor.
  - reflexivity.
Defined.

End LoadoutMore.

(** ** Scenario comparison (loadout_pricing_intelligence.py) *)

Module ScenariosMore.
Import Loadout LoadoutSpec Scenarios.

Lemma fold_max_spec {A} (k : A -> Q) (r : list A) (best : A) :
  let m := fold_left (fun best y => if fltb (k best) (k y) then y else best) r best in
  (m = best \/ In m r) /\ k best <= k m /\ (forall y, In y r -> k y <= k m).
Proof.
  revert best. induction r as [| y r IH]; intro best; cbn [fold_left].
  - split; [now left |]. split; [lra | intros y []].
  - destruct (fltb (k best) (k y)) eqn:E; cbn [fltb Q_float] in E;
      [apply negb_true_iff, Qle_bool_false in E
      | apply negb_false_iff, Qle_bool_iff in E].
    2:{ destruct (IH best) as ([Hm | Hm] & Hb & Hall).
      * split; [left; exact Hm |]. split; [exact Hb |].
        intros z [<- | Hz]; [lra | now apply Hall].
      * split; [right; right; exact Hm |]. split; [exact Hb |].
        intros z [<- | Hz]; [lra | now apply Hall]. }
    1:{ destruct (IH y) as ([Hm | Hm] & Hb & Hall).
      * split; [right; left; now rewrite Hm |]. split; [lra |].
        intros z [<- | Hz]; [lra | now apply Hall].
      * split; [right; right; exact Hm |]. split; [lra |].
        intros z [<- | Hz]; [lra | now apply Hall]. }
Qed.

Lemma max_by_spec {A} (k : A -> Q) (xs : list A) (x : A) :
  max_by k xs = Ok x -> In x xs /\ forall y, In y xs -> k y <= k x.
Proof.
  destruct xs as [| x0 r]; [discriminate |].
  cbn [max_by]. intro Hx. injection Hx as <-.
  destruct (fold_max_spec k r x0) as ([Hm | Hm] & Hb & Hall).
  - split; [left; symmetry; exact Hm |]. intros y [<- | Hy]; [exact Hb | now apply Hall].
  - split; [right; exact Hm |]. intros y [<- | Hy]; [exact Hb | now apply Hall].
Qed.

Lemma fold_min_spec {A} (k : A -> Q) (r : list A) (best : A) :
  let m := fold_left (fun best y => if fltb (k y) (k best) then y else best) r best in
  (m = best \/ In m r) /\ k m <= k best /\ (forall y, In y r -> k m <= k y).
Proof.
  revert best. induction r as [| y r IH]; intro best; cbn [fold_left].
  - split; [now left |]. split; [lra | intros y []].
  - destruct (fltb (k y) (k best)) eqn:E; cbn [fltb Q_float] in E;
      [apply negb_true_iff, Qle_bool_false in E
      | apply negb_false_iff, Qle_bool_iff in E].
    2:{ destruct (IH best) as ([Hm | Hm] & Hb & Hall).
      * split; [left; exact Hm |]. split; [exact Hb |].
        intros z [<- | Hz]; [lra | now apply Hall].
      * split; [right; right; exact Hm |]. split; [exact Hb |].
        intros z [<- | Hz]; [lra | now apply Hall]. }
    1:{ destruct (IH y) as ([Hm | Hm] & Hb & Hall).
      * split; [right; left; now rewrite Hm |]. split; [lra |].
        intros z [<- | Hz]; [lra | now apply Hall].
      * split; [right; right; exact Hm |]. split; [lra |].
        intros z [<- | Hz]; [lra | now apply Hall]. }
Qed.

Lemma min_by_spec {A} (k : A -> Q) (xs : list A) (x : A) :
  min_by k xs = Ok x -> In x xs /\ forall y, In y xs -> k x <= k y.
Proof.
  destruct xs as [| x0 r]; [discriminate |].
  cbn [min_by]. intro Hx. injection Hx as <-.
  destruct (fold_min_spec k r x0) as ([Hm | Hm] & Hb & Hall).
  - split; [left; symmetry; exact Hm |]. intros y [<- | Hy]; [exact Hb | now apply Hall].
  - split; [right; exact Hm |]. intros y [<- | Hy]; [exact Hb | now apply Hall].
Qed.

Lemma scenario_loop_spec (self : LoadoutPricingIntelligence (F:=Q)) now scenarios acc rs :
  scenario_loop self now scenarios acc = Ok rs ->
  exists new,
    rs = acc ++ new /\
    Forall2 (fun cfg b => calculate_loadout_pricing self now cfg = Ok b) scenarios new.
Proof.
  revert acc. induction scenarios as [| cfg scenarios IH]; intros acc Hrs.
  - cbn in Hrs. injection Hrs as <-. exists []. rewrite app_nil_r. split; [reflexivity | constructor].
  - cbn [scenario_loop] in Hrs.
    apply bind_ok in Hrs as (b & Hb & Hrs).
    apply IH in Hrs as (new & -> & Hall).
    exists (b :: new). rewrite <- app_assoc. split; [reflexivity |].
    constructor; assumption.
Qed.

Lemma recommendation_loop_length (a p : Q) rs acc :
  (List.length (recommendation_loop a p rs acc) <= List.length acc + List.length rs)%nat.
Proof.
  revert acc. induction rs as [| b rs IH]; intro acc; cbn [recommendation_loop].
  - cbn. lia.
  - match goal with
    | |- context [recommendation_loop a p rs ?x] => specialize (IH x)
    end.
    cbn [List.length].
    repeat match goal with
    | H : context [if ?c then _ else _] |- _ => destruct c
    end; rewrite ?length_app in IH; cbn [List.length] in IH; lia.
Qed.

(** X21. Whatever the tables, a comparison that
    [compare_loadout_scenarios] returns was made from a non-empty list,
    holds the pricing of every scenario in the order given, and names
    under lowest_total_cost a scenario whose total cost no other scenario
    undercuts, under best_profitability one whose profitability score no
    other exceeds, and under best_cost_efficiency one whose cost
    efficiency score no other exceeds; it gives at most one
    recommendation per scenario. *)
Theorem compare_scenarios_selects_extremes
    (self : LoadoutPricingIntelligence (F:=Q)) now scenarios c :
  compare_loadout_scenarios self now scenarios = Ok c ->
  scenarios <> [] /\
  Forall2 (fun cfg b => calculate_loadout_pricing self now cfg = Ok b)
    scenarios (comparison_scenarios c) /\
  (exists b, In b (comparison_scenarios c) /\
     lowest_total_cost c = name (configuration b) /\
     forall b', In b' (comparison_scenarios c) ->
       total_cost_per_hour b <= total_cost_per_hour b') /\
  (exists b, In b (comparison_scenarios c) /\
     best_profitability c = name (configuration b) /\
     forall b', In b' (comparison_scenarios c) ->
       profitability_score b' <= profitability_score b) /\
  (exists b, In b (comparison_scenarios c) /\
     best_cost_efficiency c = name (configuration b) /\
     forall b', In b' (comparison_scenarios c) ->
       cost_efficiency_score b' <= cost_efficiency_score b) /\
  (List.length (recommendations c) <= List.length scenarios)%nat.
Proof.
  unfold compare_loadout_scenarios. intro Hc.
  apply bind_ok in Hc as (rs & Hrs & Hc).
  apply bind_ok in Hc as (bce & Hbce & Hc).
  apply bind_ok in Hc as (bp & Hbp & Hc).
  apply bind_ok in Hc as (ltc & Hltc & Hc).
  apply bind_ok in Hc as (recs & Hrecs & Hc).
  injection Hc as <-. cbn.
  apply scenario_loop_spec in Hrs as (new & -> & Hall). cbn [app] in *.
  apply max_by_spec in Hbce as [Hi1 Hm1].
  apply max_by_spec in Hbp as [Hi2 Hm2].
  apply min_by_spec in Hltc as [Hi3 Hm3].
  split.
  { intros ->. inversion Hall; subst. destruct Hi1. }
  split; [exact Hall |].
  split; [exists ltc; auto |].
  split; [exists bp; auto |].
  split; [exists bce; auto |].
  unfold _generate_scenario_recommendations in Hrecs.
  apply bind_ok in Hrecs as (a & _ & Hrecs).
  apply bind_ok in Hrecs as (p & _ & Hrecs).
  injection Hrecs as <-.
  pose proof (recommendation_loop_length a p new []) as Hl. cbn in Hl.
  apply Forall2_length in Hall. lia.
Qed.


Lemma compare_scenarios_selects_extremes_witness :
  exists c,
    compare_loadout_scenarios (F:=Q) __init__ clock0
      [residential_tree_service; stump_grinding_crew] = Ok c /\
    (exists b, In b (comparison_scenarios c) /\
       lowest_total_cost c = name (configuration b) /\
       forall b', In b' (comparison_scenarios c) ->
         total_cost_per_hour b <= total_cost_per_hour b') /\
    (List.length (recommendations c) <= 2)%nat.
Proof.
  eexists. split; [vm_compute; reflexivity |].
  refine (let H := @compare_scenarios_selects_extremes __init__ clock0
                     [residential_tree_service; stump_grinding_crew] _ _ in
          conj (proj1 (proj2 (proj2 H)))
               (proj2 (proj2 (proj2 (proj2 (proj2 H)))))).
  vm_compute; reflexivity.
Defined.

Lemma scenario_loop_raises (self : LoadoutPricingIntelligence (F:=Q)) now pre bad rest acc e :
  Forall (fun cfg => exists b, calculate_loadout_pricing self now cfg = Ok b) pre ->
  calculate_loadout_pricing self now bad = Raise e ->
  scenario_loop self now (pre ++ bad :: rest) acc = Raise e.
Proof.
  intros Hok Hbad. revert acc.
  induction Hok as [| cfg pre [b Hb] _ IH]; intro acc.
  - cbn [app scenario_loop]. now rewrite Hbad.
  - cbn [app scenario_loop]. rewrite Hb. cbn [bind]. apply IH.
Qed.


(** X22. Where [compare_loadout_scenarios] fails, whatever the tables.
    An empty list of scenarios raises ValueError, from taking the maximum
    of an empty list.  A scenario whose pricing raises, after scenarios
    whose pricing returns, makes the comparison raise the same exception;
    the scenarios after it are not priced. *)
Theorem compare_scenarios_failures (self : LoadoutPricingIntelligence (F:=Q)) now :
  (exists msg, compare_loadout_scenarios self now [] = Raise (ValueError msg)) /\
  (forall pre bad rest e,
     Forall (fun cfg => exists b, calculate_loadout_pricing self now cfg = Ok b) pre ->
     calculate_loadout_pricing self now bad = Raise e ->
     compare_loadout_scenarios self now (pre ++ bad :: rest) = Raise e).
Proof.
  split.
  - eexists. reflexivity.
  - intros pre bad rest e Hok Hbad. unfold compare_loadout_scenarios.
    now rewrite (@scenario_loop_raises self now pre bad rest [] e Hok Hbad).
Qed.


Lemma compare_scenarios_failures_witness :
  (exists msg,
     compare_loadout_scenarios (F:=Q) __init__ clock0 [] = Raise (ValueError msg)) /\
  compare_loadout_scenarios (F:=Q) __init__ clock0
    ([residential_tree_service] ++ no_crew_loadout :: [stump_grinding_crew])
    = Raise ZeroDivisionError.
Proof.
  split.
  - exact (proj1 (@compare_scenarios_failures __init__ clock0)).
  - apply (proj2 (@compare_scenarios_failures __init__ clock0)
             [residential_tree_service] no_crew_loadout [stump_grinding_crew]).
    + constructor; [| constructor]. eexists. vm_compute. reflexivity.
    + vm_compute. reflexivity.
Defined.

End ScenariosMore.

(** ** Pricing against the hourly rates of the crew *)

Module RaiseMore.
Import Loadout LoadoutSpec EmployeeSpec EmployeeTables RaiseDefs.

Lemma true_cost_strict_in_rate now p st (r1 r2 : Q) :
  0 < r1 -> r1 < r2 ->
  exists b1 b2,
    Employee.calculate_true_hourly_cost (F:=Q) Employee.__init__ now p st (Some r1) None None = Ok b1 /\
    Employee.calculate_true_hourly_cost (F:=Q) Employee.__init__ now p st (Some r2) None None = Ok b2 /\
    Employee.hourly_rate b1 = r1 /\ Employee.hourly_rate b2 = r2 /\
    Employee.true_hourly_cost b1 < Employee.true_hourly_cost b2.
Proof.
  intros H1 H12.
  assert (H2 : 0 < r2) by lra.
  destruct (@EmployeeMore.closed_form now p st (Some r1) H1) as (b1 & Hb1 & Hr1 & _ & Ht1 & _).
  destruct (@EmployeeMore.closed_form now p st (Some r2) H2) as (b2 & Hb2 & Hr2 & _ & Ht2 & _).
  exists b1, b2. split; [exact Hb1 |]. split; [exact Hb2 |].
  cbn [effective_rate] in *.
  split; [exact Hr1 |]. split; [exact Hr2 |].
  pose proof (EmployeeMore.wage_factor_pos st) as Hk.
  pose proof (EmployeeMore.productive_hours_pos st) as Hp.
  assert (Hd : 0 < (r2 - r1) * wage_factor st) by (apply Qmult_lt_0_compat; lra).
  rewrite Ht1, Ht2. apply Qdiv_lt_cross; try assumption.
  apply Qmult_lt_r; [assumption |]. lra.
Qed.

Lemma crew_loop_mono now st crew crew' acc acc' :
  Forall (fun m => exists p, Employee.EmployeePosition_of_value (Employee.member_position m) = Ok p) crew ->
  Forall2 raised_member crew crew' ->
  exists t t',
    Employee.crew_loop (F:=Q) Employee.__init__ now st crew acc = Ok t /\
    Employee.crew_loop (F:=Q) Employee.__init__ now st crew' acc' = Ok t' /\
    Employee.total_true_cost t - Employee.total_true_cost acc <=
      Employee.total_true_cost t' - Employee.total_true_cost acc' /\
    Employee.total_hourly_rate t - Employee.total_hourly_rate acc <=
      Employee.total_hourly_rate t' - Employee.total_hourly_rate acc' /\
    (crew <> [] ->
     Employee.total_true_cost t - Employee.total_true_cost acc <
       Employee.total_true_cost t' - Employee.total_true_cost acc' /\
     Employee.total_hourly_rate t - Employee.total_hourly_rate acc <
       Employee.total_hourly_rate t' - Employee.total_hourly_rate acc').
Proof.
  intros Hpos Hall. revert acc acc' Hpos.
  induction Hall as [| m m' crew crew' (Hp & r & r' & Hr & Hr' & H0 & Hlt) _ IH];
    intros acc acc' Hpos.
  - exists acc, acc'. cbn. repeat split; try lra; congruence.
  - inversion Hpos as [| ? ? [p Hpv] Hpos']; subst.
    cbn [Employee.crew_loop]. rewrite Hp, Hpv, Hr, Hr'. cbn [bind].
    destruct (@true_cost_strict_in_rate now p st r r' H0 Hlt)
      as (b & b' & Hb & Hb' & Hrb & Hrb' & Htrue).
    rewrite Hb, Hb'. cbn [bind].
    match goal with
    | |- context [Employee.crew_loop _ _ _ crew ?a] =>
        match goal with
        | |- context [Employee.crew_loop _ _ _ crew' ?a'] =>
            destruct (IH a a' Hpos') as (t & t' & Ht & Ht' & Hc & Hw & _)
        end
    end.
    exists t, t'. split; [exact Ht |]. split; [exact Ht' |].
    cbn in Hc, Hw. rewrite Hrb, Hrb' in Hw.
    repeat split; intros; lra.
Qed.

Lemma crew_config_positions (crew crew' : list (Employee.CrewMember (F:=Q))) :
  Forall2 raised_member crew crew' ->
  _extract_crew_config crew' = _extract_crew_config crew.
Proof.
  intro Hall.
  assert (E : forall f, count_members f crew' = count_members f crew).
  { intro f. unfold count_members. f_equal.
    induction Hall as [| m m' crew crew' (Hp & _) _ IH]; [reflexivity |].
    cbn. rewrite Hp. destruct (f _); cbn; now rewrite IH. }
  unfold _extract_crew_config. now rewrite !E.
Qed.

Lemma pricing_inv (self : LoadoutPricingIntelligence (F:=Q)) now cfg b :
  calculate_loadout_pricing self now cfg = Ok b ->
  exists d s,
    Equipment.calculate_loadout_equipment_cost (equipment_engine self) now
      (equipment_list cfg) (_extract_crew_config (crew_composition cfg))
      (severity_factor cfg) = Ok d /\
    Employee.calculate_crew_cost (employee_calculator self) now
      (crew_composition cfg) (location_state cfg) = Ok s /\
    equipment_cost_per_hour b = Equipment.total_equipment_cost_per_hour d /\
    employee_cost_per_hour b = Employee.total_true_hourly_cost s /\
    base_wages_per_hour b = Employee.total_base_hourly_rate s /\
    total_cost_per_hour b =
      Equipment.total_equipment_cost_per_hour d + Employee.total_true_hourly_cost s /\
    recommended_billing_rate b =
      total_cost_per_hour b / (1 - target_profit_margins self (project_type cfg)).
Proof.
  unfold calculate_loadout_pricing. intro Hb.
  apply bind_ok in Hb as (d & Hd & Hb).
  apply bind_ok in Hb as (s & Hs & Hb).
  apply bind_ok in Hb as (rr & Hrr & Hb).
  apply truediv_inv in Hrr as (Hnz & ->).
  apply bind_ok in Hb as (ce & Hce & Hb).
  apply bind_ok in Hb as (ps & Hps & Hb).
  injection Hb as <-. cbn.
  exists d, s. repeat split; assumption.
Qed.

Lemma raised_well_formed cfg cfg' :
  well_formed cfg -> raised_crew cfg cfg' -> well_formed cfg'.
Proof.
  intros (Hitems & Hne & Hcrew) (_ & He & _ & _ & Hall).
  split; [now rewrite He |]. split.
  - intro E. rewrite E in Hall. inversion Hall; subst. congruence.
  - clear Hne. induction Hall as [| m m' crew crew' (Hp & r & r' & Hr & Hr' & H0 & Hlt) _ IH];
      [constructor |].
    inversion Hcrew as [| ? ? [Hpv _] Hcrew']; subst.
    constructor; [| now apply IH].
    split; [now rewrite Hp |]. rewrite Hr'. cbn. lra.
Qed.

Lemma pricing_rises now cfg cfg' :
  well_formed cfg -> raised_crew cfg cfg' ->
  exists b b',
    calculate_loadout_pricing (F:=Q) __init__ now cfg = Ok b /\
    calculate_loadout_pricing (F:=Q) __init__ now cfg' = Ok b' /\
    equipment_cost_per_hour b' = equipment_cost_per_hour b /\
    base_wages_per_hour b < base_wages_per_hour b' /\
    total_cost_per_hour b < total_cost_per_hour b' /\
    recommended_billing_rate b < recommended_billing_rate b'.
Proof.
  intros Hwf Hr.
  pose proof (raised_well_formed Hwf Hr) as Hwf'.
  destruct Hr as (Ept & Eeq & Est & Esev & Hall).
  destruct (LoadoutFacts.calculate_loadout_pricing_cases
              (target_profit_margins __init__) now Hwf)
    as (total & _ & [[Hz _] | (_ & b & Hb & _)]).
  { destruct (project_type cfg); vm_compute in Hz; discriminate Hz. }
  destruct (LoadoutFacts.calculate_loadout_pricing_cases
              (target_profit_margins __init__) now Hwf')
    as (total' & _ & [[Hz _] | (_ & b' & Hb' & _)]).
  { destruct (project_type cfg'); vm_compute in Hz; discriminate Hz. }
  change (with_margins (target_profit_margins __init__)) with (__init__ (F:=Q)) in Hb, Hb'.
  exists b, b'. split; [exact Hb |]. split; [exact Hb' |].
  apply pricing_inv in Hb as (d & s & Hd & Hs & E1 & E2 & E3 & E4 & E5).
  apply pricing_inv in Hb' as (d' & s' & Hd' & Hs' & E1' & E2' & E3' & E4' & E5').
  rewrite Eeq, Esev, (crew_config_positions Hall), Hd in Hd'. injection Hd' as <-.
  rewrite Est in Hs'.
  destruct Hwf as (_ & Hne & Hcrew).
  assert (Hpos : Forall (fun m => exists p,
                   Employee.EmployeePosition_of_value (Employee.member_position m) = Ok p)
                   (crew_composition cfg)).
  { eapply Forall_impl; [| exact Hcrew]. intros m [Hm _]. exact Hm. }
  destruct (@crew_loop_mono now (location_state cfg) _ _
              Employee.crew_totals_init Employee.crew_totals_init Hpos Hall)
    as (t & t' & Ht & Ht' & _ & _ & Hstrict).
  destruct (Hstrict Hne) as [Hc Hw].
  cbn [__init__ employee_calculator] in Hs, Hs'.
  unfold Employee.calculate_crew_cost in Hs, Hs'.
  rewrite Ht in Hs. rewrite Ht' in Hs'. cbn [bind] in Hs, Hs'.
  apply bind_ok in Hs as (avg & _ & Hs). injection Hs as <-.
  apply bind_ok in Hs' as (avg' & _ & Hs'). injection Hs' as <-.
  cbn in E2, E3, E4, E2', E3', E4'.
  rewrite E5, E5', Ept, E1, E1', E3, E3', E4, E4'.
  split; [reflexivity |]. split; [lra |]. split; [lra |].
  assert (Hm : 0 < 1 - target_profit_margins (F:=Q) __init__ (project_type cfg))
    by (destruct (project_type cfg); reflexivity).
  apply Qdiv_lt_cross; try exact Hm.
  apply Qmult_lt_r; [exact Hm |]. lra.
Qed.


(** X23. With the default tables, raising the hourly rate of every
    member of a well-formed loadout, and changing nothing else, leaves the
    equipment cost as it is and strictly raises the base wages, the total
    cost per hour and the recommended billing rate. *)
Theorem pricing_rises_with_rates now cfg cfg' :
  well_formed cfg -> raised_crew cfg cfg' ->
  exists b b',
    calculate_loadout_pricing (F:=Q) __init__ now cfg = Ok b /\
    calculate_loadout_pricing (F:=Q) __init__ now cfg' = Ok b' /\
    equipment_cost_per_hour b' = equipment_cost_per_hour b /\
    base_wages_per_hour b < base_wages_per_hour b' /\
    total_cost_per_hour b < total_cost_per_hour b' /\
    recommended_billing_rate b < recommended_billing_rate b'.
Proof. intros Hwf Hr. now apply pricing_rises. Qed.

Lemma pricing_rises_with_rates_witness :
  let cfg' :=
    {| name := "Residential Tree Service Crew, raised";
       project_type := TREE_REMOVAL;
       equipment_list := equipment_list (F:=Q) residential_tree_service;
       crew_composition :=
         [ {| Employee.member_position := "isa_certified_arborist";
              Employee.member_hourly_rate := Some 34 |};
           {| Employee.member_position := "experienced_climber";
              Employee.member_hourly_rate := Some 30 |};
           {| Employee.member_position := "ground_crew_lead";
              Employee.member_hourly_rate := Some 24 |};
           {| Employee.member_position := "ground_crew_member";
              Employee.member_hourly_rate := Some 20 |} ];
       location_state := Employee.FLORIDA;
       severity_factor := Equipment.STANDARD_WORK |} in
  exists b b',
    calculate_loadout_pricing (F:=Q) __init__ clock0 residential_tree_service = Ok b /\
    calculate_loadout_pricing (F:=Q) __init__ clock0 cfg' = Ok b' /\
    equipment_cost_per_hour b' = equipment_cost_per_hour b /\
    base_wages_per_hour b < base_wages_per_hour b' /\
    total_cost_per_hour b < total_cost_per_hour b' /\
    recommended_billing_rate b < recommended_billing_rate b'.
Proof.
  intro cfg'.
  apply (@pricing_rises_with_rates clock0 residential_tree_service cfg').
  - exact LoadoutFacts.residential_well_formed.
  - unfold raised_crew. cbn.
    repeat split;
      repeat (constructor;
              [split; [reflexivity |];
               do 2 eexists; split; [reflexivity |]; split; [reflexivity |];
               split; reflexivity |]);
      constructor.
Defined.

End RaiseMore.

(** ** The loadout optimiser and its templates
       (loadout_pricing_intelligence.py) *)

Module OptimizeMore.
Import Loadout LoadoutSpec RaiseDefs Scenarios OptimizeDefs.

Lemma list_set_length {A} (l : list A) i v : List.length (list_set l i v) = List.length l.
Proof.
  revert i. induction l as [| x l IH]; intro i; [reflexivity |].
  destruct i; cbn; [reflexivity | now rewrite IH].
Qed.

Lemma nth_error_list_set_eq {A} (l : list A) i v :
  (i < List.length l)%nat -> nth_error (list_set l i v) i = Some v.
Proof.
  revert i. induction l as [| x l IH]; intros i Hi; [cbn in Hi; lia |].
  destruct i; cbn; [reflexivity | apply IH; cbn in Hi; lia].
Qed.

Lemma nth_error_list_set_neq {A} (l : list A) i j v :
  i <> j -> nth_error (list_set l i v) j = nth_error l j.
Proof.
  revert i j. induction l as [| x l IH]; intros i j Hij; [reflexivity |].
  destruct i, j; cbn; try reflexivity; try congruence.
  apply IH. congruence.
Qed.

Lemma raise_rates_spec (crew : list ref) (h : Heap (F:=Q)) :
  NoDup crew ->
  (forall r, In r crew -> exists x, rate_at h r = Some x) ->
  exists h',
    raise_rates crew h = (Ok tt, h') /\
    List.length h' = List.length h /\
    (forall r x, In r crew -> rate_at h r = Some x -> rate_at h' r = Some (x * 1.15)) /\
    (forall r, ~ In r crew -> nth_error h' r = nth_error h r) /\
    (forall r, position_at h' r = position_at h r).
Proof.
  intro Hnd. revert h. induction Hnd as [| r crew Hnotin Hnd IH]; intros h Hrated.
  - exists h. cbn. repeat split; auto. intros r x [].
  - cbn [raise_rates].
    destruct (Hrated r (or_introl eq_refl)) as (x & Hx).
    unfold rate_at in Hx.
    destruct (nth_error h r) as [m |] eqn:Hm; [| discriminate].
    rewrite Hx.
    assert (Hlt : (r < List.length h)%nat) by (apply nth_error_Some; congruence).
    set (m' := {| Employee.member_position := Employee.member_position m;
                  Employee.member_hourly_rate := Some (fmul x (of_Q 1.15)) |}).
    destruct (IH (list_set h r m')) as (h' & Hrun & Hlen & Hin & Hout & Hpos).
    { intros r' Hr'. destruct (Hrated r' (or_intror Hr')) as (x' & Hx').
      exists x'. unfold rate_at in *.
      rewrite nth_error_list_set_neq; [exact Hx' |]. intros ->. contradiction. }
    exists h'. split; [exact Hrun |].
    split; [now rewrite Hlen, list_set_length |].
    split; [| split].
    + intros r' x' [<- | Hr'] Hx'.
      * unfold rate_at in Hx' |- *. rewrite Hout by exact Hnotin.
        rewrite nth_error_list_set_eq by exact Hlt.
        rewrite Hm in Hx'. cbn. congruence.
      * apply Hin; [exact Hr' |]. unfold rate_at in *.
        rewrite nth_error_list_set_neq; [exact Hx' |]. intros ->. contradiction.
    + intros r' Hr'. rewrite Hout by (intro; apply Hr'; now right).
      apply nth_error_list_set_neq. intros ->. apply Hr'. now left.
    + intro r'. rewrite Hpos. unfold position_at.
      destruct (Nat.eq_dec r r') as [<- | Hne].
      * rewrite nth_error_list_set_eq by exact Hlt. now rewrite Hm.
      * now rewrite nth_error_list_set_neq.
Qed.


Lemma template_lookup (pt : ProjectType) :
  exists base,
    dict_get (template_key pt) templates0 = Some base /\
    NoDup (object_crew_composition base).
Proof.
  destruct pt; (eexists; split; [reflexivity |]); cbn;
    repeat constructor; cbn; intuition lia.
Qed.

Lemma rate_at_app_old (h extra : Heap (F:=Q)) r :
  (r < List.length h)%nat -> rate_at (h ++ extra) r = rate_at h r.
Proof. intro Hr. unfold rate_at. now rewrite nth_error_app1. Qed.

Lemma rate_at_lt (h : Heap (F:=Q)) r x : rate_at h r = Some x -> (r < List.length h)%nat.
Proof.
  unfold rate_at. intro Hx. apply nth_error_Some.
  destruct (nth_error h r); congruence.
Qed.

Lemma optimize_extreme_step (req : dict string) (h : Heap (F:=Q)) pt st :
  ProjectType_of_value (requested_type req) = Ok pt ->
  LocationState_of_value (requested_state req) = Ok st ->
  requested_complexity req = "extreme"%string ->
  templates_rated h ->
  exists o h' base,
    optimize_loadout_for_project templates0 req h = (Ok o, h') /\
    dict_get (template_key pt) templates0 = Some base /\
    object_crew_composition o = object_crew_composition base ++ [List.length h] /\
    object_severity_factor o = Equipment.DISASTER_RECOVERY /\
    (forall r x, In r (object_crew_composition base) ->
       rate_at h r = Some x -> rate_at h' r = Some (x * 1.15)) /\
    rate_at h' (List.length h) = Some (40.0 * 1.15) /\
    position_at h' (List.length h) = Some "safety_manager"%string /\
    (forall r, (r < List.length h)%nat -> ~ In r (object_crew_composition base) ->
       nth_error h' r = nth_error h r) /\
    templates_rated h'.
Proof.
  intros Hpt Hst Hc Hrated.
  destruct (template_lookup pt) as (base & Hbase & Hnd).
  unfold optimize_loadout_for_project.
  unfold requested_type, requested_state, requested_complexity in *.
  rewrite Hpt, Hst, Hc. unfold dict_item. rewrite Hbase.
  cbn [String.eqb Ascii.eqb Bool.eqb].
  set (sm := {| Employee.member_position := "safety_manager"%string;
                Employee.member_hourly_rate := Some (of_Q 40.0) |}).
  set (crew := object_crew_composition base) in *.
  assert (Hlt : forall r, In r crew -> (r < List.length h)%nat).
  { intros r Hr. destruct (Hrated _ _ r Hbase Hr) as (x & Hx).
    now apply rate_at_lt in Hx. }
  assert (Hnew : rate_at (h ++ [sm]) (List.length h) = Some 40.0).
  { unfold rate_at. rewrite nth_error_app2 by lia.
    now rewrite Nat.sub_diag. }
  destruct (@raise_rates_spec (crew ++ [List.length h]) (h ++ [sm]))
    as (h' & Hrun & Hlen & Hin & Hout & Hpos).
  { apply NoDup_app; [exact Hnd | repeat constructor; intros [] |].
    intros r Hr [<- | []]. apply Hlt in Hr. lia. }
  { intros r Hr. apply in_app_iff in Hr as [Hr | [<- | []]].
    - destruct (Hrated _ _ r Hbase Hr) as (x & Hx). exists x.
      rewrite rate_at_app_old by (now apply Hlt). exact Hx.
    - eexists. exact Hnew. }
  rewrite Hrun. cbn [rmap].
  do 3 eexists. split; [reflexivity |]. cbn.
  split; [reflexivity |]. split; [reflexivity |].
  split; [reflexivity |].
  split; [| split; [| split; [| split]]].
  - intros r x Hr Hx. apply Hin; [apply in_app_iff; now left |].
    rewrite rate_at_app_old by (now apply Hlt). exact Hx.
  - apply Hin; [apply in_app_iff; right; now left | exact Hnew].
  - rewrite Hpos. unfold position_at. rewrite nth_error_app2 by lia.
    now rewrite Nat.sub_diag.
  - intros r Hr Hnot. rewrite Hout.
    + now rewrite nth_error_app1.
    + intro Hr'. apply in_app_iff in Hr' as [Hr' | [<- | []]]; [contradiction | lia].
  - intros k o r Ho Hr. destruct (Hrated _ _ r Ho Hr) as (x & Hx).
    pose proof (rate_at_lt _ _ Hx) as Hrl.
    destruct (in_dec Nat.eq_dec r crew) as [Hi | Hni].
    + exists (x * 1.15). apply Hin; [apply in_app_iff; now left |].
      rewrite rate_at_app_old by exact Hrl. exact Hx.
    + exists x. unfold rate_at. rewrite Hout.
      * rewrite nth_error_app1 by exact Hrl. exact Hx.
      * intro Hr'. apply in_app_iff in Hr' as [Hr' | [<- | []]]; [contradiction | lia].
Qed.

Lemma heap0_rated : templates_rated heap0.
Proof.
  intros k o r Ho Hr. unfold templates0 in Ho. cbn in Ho.
  repeat match type of Ho with
  | (if ?c then _ else _) = _ => destruct c
  end; try discriminate; injection Ho as <-; cbn in Hr;
    repeat (destruct Hr as [<- | Hr]; [eexists; reflexivity |]); destruct Hr.
Qed.

Lemma optimize_plain_step (req : dict string) (h : Heap (F:=Q)) pt st :
  ProjectType_of_value (requested_type req) = Ok pt ->
  LocationState_of_value (requested_state req) = Ok st ->
  requested_complexity req <> "extreme"%string ->
  exists o base,
    optimize_loadout_for_project templates0 req h = (Ok o, h) /\
    dict_get (template_key pt) templates0 = Some base /\
    object_crew_composition o = object_crew_composition base /\
    object_equipment_list o = object_equipment_list base /\
    object_name o = optimized_name pt /\
    object_project_type o = pt /\
    object_location_state o = st /\
    object_severity_factor o = severity_mapping (requested_complexity req) /\
    (requested_complexity req <> "low"%string ->
     requested_complexity req <> "high"%string ->
     object_severity_factor o = Equipment.STANDARD_WORK).
Proof.
  intros Hpt Hst Hc.
  destruct (template_lookup pt) as (base & Hbase & _).
  unfold optimize_loadout_for_project.
  unfold requested_type, requested_state, requested_complexity in *.
  rewrite Hpt, Hst. unfold dict_item. rewrite Hbase.
  apply String.eqb_neq in Hc. rewrite Hc.
  do 2 eexists. split; [reflexivity |]. cbn.
  split; [reflexivity |].
  repeat split.
  - destruct pt; reflexivity.
  - intros Hl Hh. unfold severity_mapping.
    apply String.eqb_neq in Hl, Hh. rewrite Hl, Hh, Hc.
    now destruct (String.eqb _ "standard").
Qed.

(** X24. A request of extreme complexity writes to the template it
    starts from.  For a known project type and state, in any heap where
    the template crews have hourly rates, the call returns an object for
    disaster recovery whose crew list is the crew list of the template
    followed by a newly allocated safety manager; afterwards every crew
    member of the template has 1.15 times the hourly rate it had, the
    safety manager has 40.0 * 1.15, no other address of the old heap has
    changed, and the template crews still have hourly rates. *)
Theorem optimize_extreme_shares_crew (req : dict string) (h : Heap (F:=Q)) pt st :
  ProjectType_of_value (requested_type req) = Ok pt ->
  LocationState_of_value (requested_state req) = Ok st ->
  requested_complexity req = "extreme"%string ->
  templates_rated h ->
  exists o h' base,
    optimize_loadout_for_project templates0 req h = (Ok o, h') /\
    dict_get (template_key pt) templates0 = Some base /\
    object_crew_composition o = object_crew_composition base ++ [List.length h] /\
    object_severity_factor o = Equipment.DISASTER_RECOVERY /\
    (forall r x, In r (object_crew_composition base) ->
       rate_at h r = Some x -> rate_at h' r = Some (x * 1.15)) /\
    rate_at h' (List.length h) = Some (40.0 * 1.15) /\
    position_at h' (List.length h) = Some "safety_manager"%string /\
    (forall r, (r < List.length h)%nat -> ~ In r (object_crew_composition base) ->
       nth_error h' r = nth_error h r) /\
    templates_rated h'.
Proof. intros Hpt Hst Hc Hrated. exact (optimize_extreme_step req Hpt Hst Hc Hrated). Qed.

Lemma optimize_extreme_shares_crew_witness :
  let req := [("complexity"%string, "extreme"%string)] in
  exists o h' base,
    optimize_loadout_for_project templates0 req heap0 = (Ok o, h') /\
    dict_get (template_key TREE_REMOVAL) templates0 = Some base /\
    object_crew_composition o =
      object_crew_composition base ++ [List.length heap0] /\
    object_severity_factor o = Equipment.DISASTER_RECOVERY /\
    (forall r x, In r (object_crew_composition base) ->
       rate_at heap0 r = Some x -> rate_at h' r = Some (x * 1.15)) /\
    rate_at h' (List.length heap0) = Some (40.0 * 1.15) /\
    position_at h' (List.length heap0) = Some "safety_manager"%string /\
    (forall r, (r < List.length heap0)%nat ->
       ~ In r (object_crew_composition base) ->
       nth_error h' r = nth_error heap0 r) /\
    templates_rated h'.
Proof.
  intro req.
  apply (@optimize_extreme_shares_crew req heap0 TREE_REMOVAL Employee.FLORIDA).
  - reflexivity.
  - reflexivity.
  - reflexivity.
  - exact heap0_rated.
Defined.

(** X25. The raise compounds.  After [n] requests of extreme complexity
    for one project type, starting from the heap after [__init__], every
    crew member of the template of that type has its initial hourly rate
    times 1.15 to the power [n]. *)
Theorem optimize_extreme_compounds (req : dict string) pt st (n : nat) :
  ProjectType_of_value (requested_type req) = Ok pt ->
  LocationState_of_value (requested_state req) = Ok st ->
  requested_complexity req = "extreme"%string ->
  forall base r x0,
    dict_get (template_key pt) templates0 = Some base ->
    In r (object_crew_composition base) ->
    rate_at heap0 r = Some x0 ->
    exists x, rate_at (after_calls req n) r = Some x /\ x == x0 * pypow 1.15 n.
Proof.
  intros Hpt Hst Hc base r x0 Hbase Hr Hx0.
  assert (Hn : templates_rated (after_calls req n) /\
               exists x, rate_at (after_calls req n) r = Some x /\
                         x == x0 * pypow 1.15 n).
  { induction n as [| n [Hrated (x & Hx & Hxe)]].
    - split; [exact heap0_rated |]. exists x0. split; [exact Hx0 |].
      cbn. ring.
    - cbn [after_calls].
      destruct (optimize_extreme_step req Hpt Hst Hc Hrated)
        as (o & h' & base' & Hrun & Hbase' & _ & _ & Hin & _ & _ & _ & Hrated').
      rewrite Hrun. cbn [snd].
      split; [exact Hrated' |].
      rewrite Hbase in Hbase'. injection Hbase' as <-.
      exists (x * 1.15). split; [now apply Hin |].
      rewrite Hxe. cbn [pypow]. cbn. ring. }
  exact (proj2 Hn).
Qed.


Lemma optimize_extreme_compounds_witness :
  exists x,
    rate_at (after_calls [("complexity"%string, "extreme"%string)] 3) 0%nat
      = Some x /\
    x == 32.0 * pypow 1.15 3.
Proof.
  eapply (@optimize_extreme_compounds [("complexity"%string, "extreme"%string)]
            TREE_REMOVAL Employee.FLORIDA 3 eq_refl eq_refl eq_refl).
  - reflexivity.
  - cbn. left. reflexivity.
  - reflexivity.
Defined.

(** X26. A request whose complexity is not extreme leaves the heap as it
    is.  For a known project type and state the call returns an object
    with the crew list of the template (the same addresses) and its
    equipment list, named after the project type, with the requested type
    and state and the severity factor mapped from the complexity; any
    complexity other than low, high and extreme gives standard work. *)
Theorem optimize_keeps_template_crew (req : dict string) (h : Heap (F:=Q)) pt st :
  ProjectType_of_value (requested_type req) = Ok pt ->
  LocationState_of_value (requested_state req) = Ok st ->
  requested_complexity req <> "extreme"%string ->
  exists o base,
    optimize_loadout_for_project templates0 req h = (Ok o, h) /\
    dict_get (template_key pt) templates0 = Some base /\
    object_crew_composition o = object_crew_composition base /\
    object_equipment_list o = object_equipment_list base /\
    object_name o = optimized_name pt /\
    object_project_type o = pt /\
    object_location_state o = st /\
    object_severity_factor o = severity_mapping (requested_complexity req) /\
    (requested_complexity req <> "low"%string ->
     requested_complexity req <> "high"%string ->
     object_severity_factor o = Equipment.STANDARD_WORK).
Proof. intros Hpt Hst Hc. exact (optimize_plain_step req h Hpt Hst Hc). Qed.

Lemma optimize_keeps_template_crew_witness :
  let req := [("project_type"%string, "forestry_mulching"%string);
              ("complexity"%string, "moderate"%string)] in
  exists o base,
    optimize_loadout_for_project templates0 req heap0 = (Ok o, heap0) /\
    dict_get (template_key FORESTRY_MULCHING) templates0 = Some base /\
    object_crew_composition o = object_crew_composition base /\
    object_equipment_list o = object_equipment_list base /\
    object_name o = optimized_name FORESTRY_MULCHING /\
    object_project_type o = FORESTRY_MULCHING /\
    object_location_state o = Employee.FLORIDA /\
    object_severity_factor o = severity_mapping (requested_complexity req) /\
    (requested_complexity req <> "low"%string ->
     requested_complexity req <> "high"%string ->
     object_severity_factor o = Equipment.STANDARD_WORK).
Proof.
  intro req.
  apply (@optimize_keeps_template_crew req heap0 FORESTRY_MULCHING Employee.FLORIDA).
  - reflexivity.
  - reflexivity.
  - discriminate.
Defined.


(** X27. Where [optimize_loadout_for_project] fails.  A project type that
    is not a project type value raises ValueError with that string, and
    so does, for a known project type, a state that is not a state value;
    in both cases the heap is as before.  For a known project type and
    state, in a heap where the template crews have hourly rates, the call
    returns. *)
Theorem optimize_rejects_unknown_values (req : dict string) (h : Heap (F:=Q)) :
  (ProjectType_of_value (requested_type req) = Raise (ValueError (requested_type req)) ->
   optimize_loadout_for_project templates0 req h
     = (Raise (ValueError (requested_type req)), h)) /\
  (forall pt,
     ProjectType_of_value (requested_type req) = Ok pt ->
     LocationState_of_value (requested_state req)
       = Raise (ValueError (requested_state req)) ->
     optimize_loadout_for_project templates0 req h
       = (Raise (ValueError (requested_state req)), h)) /\
  (forall pt st,
     ProjectType_of_value (requested_type req) = Ok pt ->
     LocationState_of_value (requested_state req) = Ok st ->
     templates_rated h ->
     exists o h', optimize_loadout_for_project templates0 req h = (Ok o, h')).
Proof.
  unfold requested_type, requested_state.
  split; [| split].
  - intro Hpt. unfold optimize_loadout_for_project. now rewrite Hpt.
  - intros pt Hpt Hst. unfold optimize_loadout_for_project. now rewrite Hpt, Hst.
  - intros pt st Hpt Hst Hrated.
    destruct (string_dec (requested_complexity req) "extreme") as [Hc | Hc].
    + destruct (optimize_extreme_step req Hpt Hst Hc Hrated)
        as (o & h' & _ & Hrun & _). eauto.
    + destruct (optimize_plain_step req h Hpt Hst Hc)
        as (o & _ & Hrun & _). eauto.
Qed.


Lemma optimize_rejects_unknown_values_witness :
  optimize_loadout_for_project templates0
    [("project_type"%string, "hedge_trimming"%string)] heap0
    = (Raise (ValueError "hedge_trimming"), heap0) /\
  optimize_loadout_for_project templates0
    [("location_state"%string, "alaska"%string)] heap0
    = (Raise (ValueError "alaska"), heap0) /\
  exists o h', optimize_loadout_for_project templates0 [] heap0 = (Ok o, h').
Proof.
  split; [| split].
  - apply (proj1 (@optimize_rejects_unknown_values
                    [("project_type"%string, "hedge_trimming"%string)] heap0)).
    reflexivity.
  - apply (proj1 (proj2 (@optimize_rejects_unknown_values
                           [("location_state"%string, "alaska"%string)] heap0))
             TREE_REMOVAL); reflexivity.
  - apply (proj2 (proj2 (@optimize_rejects_unknown_values [] heap0))
             TREE_REMOVAL Employee.FLORIDA); [reflexivity | reflexivity |].
    exact heap0_rated.
Defined.

(** X28. What an extreme request costs later.  With the default tables,
    after one request of extreme complexity from the heap after
    [__init__], the template the request started from prices strictly
    higher than before: the equipment cost is the same, and the base
    wages, the total cost per hour and the recommended billing rate are
    strictly greater. *)
Theorem extreme_request_raises_template_price now (req : dict string) pt st :
  ProjectType_of_value (requested_type req) = Ok pt ->
  LocationState_of_value (requested_state req) = Ok st ->
  requested_complexity req = "extreme"%string ->
  exists base c0 c1 b0 b1,
    dict_get (template_key pt) templates0 = Some base /\
    load heap0 base = Some c0 /\
    load (snd (optimize_loadout_for_project templates0 req heap0)) base = Some c1 /\
    calculate_loadout_pricing __init__ now c0 = Ok b0 /\
    calculate_loadout_pricing __init__ now c1 = Ok b1 /\
    equipment_cost_per_hour b1 = equipment_cost_per_hour b0 /\
    base_wages_per_hour b0 < base_wages_per_hour b1 /\
    total_cost_per_hour b0 < total_cost_per_hour b1 /\
    recommended_billing_rate b0 < recommended_billing_rate b1.
Proof.
  intros Hpt Hst Hc.
  unfold optimize_loadout_for_project.
  unfold requested_type, requested_state, requested_complexity in *.
  rewrite Hpt, Hst, Hc. clear Hpt Hst Hc.
  assert (Hcases :
    exists base c0 c1,
      dict_get (template_key pt) templates0 = Some base /\
      load heap0 base = Some c0 /\
      load (snd (let (raised, h2) :=
                   raise_rates (object_crew_composition base ++ [List.length heap0])
                     (heap0 ++ [{| Employee.member_position := "safety_manager";
                                   Employee.member_hourly_rate := Some 40.0 |}]) in
                 (raised, h2))) base = Some c1 /\
      well_formed c0 /\ raised_crew c0 c1).
  { destruct pt; (do 3 eexists); (split; [reflexivity |]);
      (split; [reflexivity |]); (split; [reflexivity |]); split.
    all: try (split; [| split; [discriminate |]]).
    all: try (split; [reflexivity | split; [reflexivity | split;
                 [reflexivity | split; [reflexivity |]]]]).
    all: cbn; repeat constructor; cbn.
    all: try (eexists; reflexivity).
    all: try (do 2 eexists; split; [reflexivity |]; split; [reflexivity |];
              split; reflexivity).
    all: discriminate. }
  destruct Hcases as (base & c0 & c1 & Hbase & H0 & H1 & Hwf & Hr).
  destruct (RaiseMore.pricing_rises now Hwf Hr) as (b0 & b1 & Hb0 & Hb1 & He & Hw & Ht & Hrr).
  exists base, c0, c1, b0, b1.
  unfold dict_item. rewrite Hbase. cbn [String.eqb Ascii.eqb Bool.eqb].
  split; [reflexivity |]. split; [exact H0 |].
  split.
  { destruct (raise_rates _ _) as [raised h2] eqn:E. cbn [snd rmap] in *. exact H1. }
  repeat split; assumption.
Qed.


Lemma extreme_request_raises_template_price_witness :
  let req := [("complexity"%string, "extreme"%string)] in
  exists base c0 c1 b0 b1,
    dict_get (template_key TREE_REMOVAL) templates0 = Some base /\
    load heap0 base = Some c0 /\
    load (snd (optimize_loadout_for_project templates0 req heap0)) base = Some c1 /\
    calculate_loadout_pricing __init__ clock0 c0 = Ok b0 /\
    calculate_loadout_pricing __init__ clock0 c1 = Ok b1 /\
    equipment_cost_per_hour b1 = equipment_cost_per_hour b0 /\
    base_wages_per_hour b0 < base_wages_per_hour b1 /\
    total_cost_per_hour b0 < total_cost_per_hour b1 /\
    recommended_billing_rate b0 < recommended_billing_rate b1.
Proof.
  intro req.
  apply (@extreme_request_raises_template_price clock0 req TREE_REMOVAL
           Employee.FLORIDA); reflexivity.
Defined.

End OptimizeMore.

(** ** The pricing demo (demo_alex_complete_pricing.py) *)

Module DemoMore.
Import Demo.

Lemma allb_ok (p : bool -> bool) : allb p = true -> forall b, p b = true.
Proof.
  unfold allb. intro Hp. apply andb_prop in Hp as [Ht Hf].
  intros [|]; assumption.
Qed.

Ltac set_flags :=
  repeat match goal with
  | |- context [if (Str.contains ?a ?s || Str.contains ?b ?s)%bool then _ else _] =>
      let f := fresh "b" in
      set (f := (Str.contains a s || Str.contains b s)%bool); clearbody f
  | |- context [if Str.contains ?a ?s then _ else _] =>
      let f := fresh "b" in set (f := Str.contains a s); clearbody f
  end.

Lemma assess_binary64 (lower : string -> string) (description : string) :
  let a := assess_afiss_factors (F:=Q) lower description in
  let a64 := assess_afiss_factors (F:=float) lower description in
  (String.eqb (complexity a64) "low" || String.eqb (complexity a64) "moderate") &&
  String.eqb (complexity a64) (complexity a) = true.
Proof.
  unfold assess_afiss_factors. set_flags.
  cbv zeta.
  revert b b0 b1 b2 b3 b4 b5 b6 b7 b8.
  match goal with
  | |- forall b b0 b1 b2 b3 b4 b5 b6 b7 b8, @?p b b0 b1 b2 b3 b4 b5 b6 b7 b8 = true =>
      assert (H :
        allb (fun b => allb (fun b0 => allb (fun b1 => allb (fun b2 =>
        allb (fun b3 => allb (fun b4 => allb (fun b5 => allb (fun b6 =>
        allb (fun b7 => allb (fun b8 => p b b0 b1 b2 b3 b4 b5 b6 b7 b8))))))))))
        = true) by (vm_compute; reflexivity)
  end.
  intros b b0 b1 b2 b3 b4 b5 b6 b7 b8.
  apply (fun H => allb_ok _ H b) in H.
  apply (fun H => allb_ok _ H b0) in H.
  apply (fun H => allb_ok _ H b1) in H.
  apply (fun H => allb_ok _ H b2) in H.
  apply (fun H => allb_ok _ H b3) in H.
  apply (fun H => allb_ok _ H b4) in H.
  apply (fun H => allb_ok _ H b5) in H.
  apply (fun H => allb_ok _ H b6) in H.
  apply (fun H => allb_ok _ H b7) in H.
  apply (fun H => allb_ok _ H b8) in H.
  exact H.
Qed.

Ltac flag_bounds :=
  repeat match goal with
  | |- context [if ?x then _ else _] => destruct x
  end; split; vm_compute; discriminate.

Lemma assess_exact (lower : string -> string) (description : string) :
  let a := assess_afiss_factors (F:=Q) lower description in
  5.5 <= composite_score a <= 31.25 /\
  afiss_bonus a == 2.5 * composite_score a /\
  (complexity a = "low"%string /\ multiplier_range a = (1.12, 1.28) /\
     composite_score a <= 28 \/
   complexity a = "moderate"%string /\ multiplier_range a = (1.45, 1.85) /\
     28 < composite_score a).
Proof.
  unfold assess_afiss_factors. set_flags. cbv zeta.
  cbn [fadd fmul fleb of_Q Q_float].
  match goal with
  | |- context [Qle_bool (?a * 0.20 + ?f * 0.25 + ?i * 0.20 + ?s * 0.30 + ?c * 0.05) 28] =>
      assert (Ha : 5 <= a <= 23) by flag_bounds;
      assert (Hf : 8 <= f <= 43) by flag_bounds;
      assert (Hi : 6 <= i <= 41) by flag_bounds;
      assert (Hs : 4 <= s <= 24) by flag_bounds;
      assert (Hc : 2 <= c <= 10) by flag_bounds;
      set (A := a) in *; set (Fz := f) in *; set (I := i) in *;
      set (S := s) in *; set (C := c) in *
  end.
  clearbody A Fz I S C.
  destruct (Qle_bool _ 28) eqn:E1;
    [apply Qle_bool_iff in E1 | apply Qle_bool_false in E1].
  - cbn. split; [split; lra |]. split; [ring |]. left. auto.
  - destruct (Qle_bool _ 46) eqn:E2;
      [apply Qle_bool_iff in E2 | apply Qle_bool_false in E2; lra].
    cbn. split; [split; lra |]. split; [ring |]. right. auto.
Qed.


(** X29. The keyword assessment of the demo never reaches the upper
    tiers.  For every description, and whatever [str.lower] does to it,
    the composite score lies between 5.5 and 31.25, the bonus is 2.5 times
    the composite score, and the complexity is low, with range (1.12,
    1.28), when the composite is at most 28 and moderate, with range
    (1.45, 1.85), otherwise; high and extreme are never returned.  In
    binary64 the complexity is the same as in exact arithmetic. *)
Theorem assess_afiss_never_high (lower : string -> string) (description : string) :
  let a := assess_afiss_factors (F:=Q) lower description in
  let a64 := assess_afiss_factors (F:=float) lower description in
  5.5 <= composite_score a <= 31.25 /\
  afiss_bonus a == 2.5 * composite_score a /\
  (complexity a = "low"%string /\ multiplier_range a = (1.12, 1.28) /\
     composite_score a <= 28 \/
   complexity a = "moderate"%string /\ multiplier_range a = (1.45, 1.85) /\
     28 < composite_score a) /\
  (complexity a64 = "low"%string \/ complexity a64 = "moderate"%string) /\
  complexity a64 = complexity a.
Proof.
  intros a a64.
  destruct (assess_exact lower description) as (Hc & Hb & Ht).
  pose proof (assess_binary64 lower description) as H64. cbv zeta in H64.
  apply andb_true_iff in H64 as [Hlm Heq].
  apply orb_true_iff in Hlm. apply String.eqb_eq in Heq.
  repeat split; try assumption; try apply Hc.
  destruct Hlm as [Hl | Hm]; [left | right]; now apply String.eqb_eq.
Qed.

Lemma pph_rates_cases (c : string) :
  pph_rates (F:=Q) c = 400 \/ pph_rates (F:=Q) c = 350 \/
  pph_rates (F:=Q) c = 280 \/ pph_rates (F:=Q) c = 220.
Proof.
  unfold pph_rates.
  repeat match goal with
  | |- context [if ?x then _ else _] => destruct x
  end; auto.
Qed.

(** X30. The hour estimate of the demo, in exact arithmetic: it is never
    below 2 hours; it is 2 as long as the TreeScore is at most twice the
    points-per-hour rate of the complexity, and the TreeScore divided by
    that rate above; it does not decrease when the TreeScore increases;
    and a complexity that is none of low, high and extreme is estimated
    as moderate. *)
Theorem estimate_hours_floor (t : Q) (c : string) :
  2 <= estimate_project_hours t c /\
  (t <= 2 * pph_rates c -> estimate_project_hours t c == 2) /\
  (2 * pph_rates c <= t -> estimate_project_hours t c == t / pph_rates c) /\
  (forall t', t <= t' -> estimate_project_hours t c <= estimate_project_hours t' c) /\
  (c <> "low"%string -> c <> "high"%string -> c <> "extreme"%string ->
   estimate_project_hours t c = estimate_project_hours t "moderate").
Proof.
  unfold estimate_project_hours, pymax. cbn [fdiv fltb of_Q Q_float].
  assert (Hp : 0 < pph_rates (F:=Q) c).
  { destruct (pph_rates_cases c) as [-> | [-> | [-> | ->]]]; reflexivity. }
  set (p := pph_rates c) in *.
  assert (Hdiv : forall x y, x <= y -> x / p <= y / p).
  { intros x y Hxy. unfold Qdiv. apply Qmult_le_compat_r; [exact Hxy |].
    apply Qlt_le_weak, Qinv_lt_0_compat, Hp. }
  assert (H2 : 2 * p / p == 2) by (field; lra).
  split; [| split; [| split; [| split]]].
  - qcase_all; lra.
  - intro Ht. apply Hdiv in Ht. rewrite H2 in Ht. qcase_all; lra.
  - intro Ht. apply Hdiv in Ht. rewrite H2 in Ht. qcase_all; lra.
  - intros t' Ht. apply Hdiv in Ht. qcase_all; lra.
  - intros Hl Hh He. subst p. unfold pph_rates.
    apply String.eqb_neq in Hl, Hh, He. rewrite Hl, Hh, He. cbn.
    now destruct (String.eqb c "moderate").
Qed.


End DemoMore.
